(** * SCP server example: authorization state machine, token codec and
    scope-gated RPC dispatch

    A shallow embedding of the TypeScript sources

      - [src/oauth/jwt.ts]       (token codec, PKCE),
      - [src/oauth/authorize.ts] (init / poll / confirm),
      - [src/oauth/token.ts]     (exchange / refresh / revoke),
      - [src/rpc/handler.ts]     (dispatcher, intent folding),
      - [src/mock-data/customer.ts] (directory and intent log),
      - [schema.sql]             (the two durable tables),

    followed by the properties of the design document that were checked
    against them.

    Conventions.  A JavaScript string is a [string]: a sequence of code
    units below 256 (the range [btoa] accepts).  [Date.now()] is an explicit
    argument [now] (milliseconds), read once per call.  Random bytes are an
    explicit argument as well.  A thrown exception is the [Err] case of
    [result], carrying the [Error] object. *)

From Stdlib Require Import ZArith NArith List String Ascii Bool Lia.
From Stdlib Require Import DecimalString DecimalPos DecimalFacts.
From stdpp Require Import gmap strings list fin_maps.
Import ListNotations.

#[local] Set Warnings "-register-all".
Local Open Scope string_scope.
Local Open Scope list_scope.

(** ** String primitives of the host language *)

Module Str.

(** [s.split(c)] for a one-character separator. *)
Fixpoint split_on (c : ascii) (s : string) : list string :=
  match s with
  | EmptyString => [EmptyString]
  | String a rest =>
      if Ascii.eqb a c then EmptyString :: split_on c rest
      else match split_on c rest with
           | [] => [String a EmptyString]
           | hd :: tl => String a hd :: tl
           end
  end.

(** [parts.join(sep)]. *)
Fixpoint join (sep : string) (parts : list string) : string :=
  match parts with
  | [] => EmptyString
  | [p] => p
  | p :: rest => String.append p (String.append sep (join sep rest))
  end.

(** [s.startsWith(p)]. *)
Fixpoint starts_with (p s : string) : bool :=
  match p, s with
  | EmptyString, _ => true
  | String a p', String b s' => Ascii.eqb a b && starts_with p' s'
  | String _ _, EmptyString => false
  end.

(** [s.includes(sub)]. *)
Fixpoint includes (sub s : string) : bool :=
  starts_with sub s ||
  match s with
  | EmptyString => false
  | String _ s' => includes sub s'
  end.

Fixpoint drop (n : nat) (s : string) : string :=
  match n, s with
  | O, _ => s
  | S n', String _ s' => drop n' s'
  | S _, EmptyString => EmptyString
  end.

(** [s.replace(pat, rep)] with a string pattern: the first occurrence
    only. *)
Fixpoint replace_first (pat rep s : string) : string :=
  if starts_with pat s then String.append rep (drop (String.length pat) s)
  else match s with
       | EmptyString => EmptyString
       | String a s' => String a (replace_first pat rep s')
       end.

(** [s.replace(/c/g, rep)] for a one-character pattern. *)
Fixpoint replace_all_char (c : ascii) (rep : string) (s : string) : string :=
  match s with
  | EmptyString => EmptyString
  | String a s' =>
      if Ascii.eqb a c then String.append rep (replace_all_char c rep s')
      else String a (replace_all_char c rep s')
  end.

Definition to_bytes (s : string) : list N :=
  List.map N_of_ascii (list_ascii_of_string s).

Definition of_bytes (l : list N) : string :=
  string_of_list_ascii (List.map ascii_of_N l).

(** Truthiness of a string: only the empty string is falsy. *)
Definition truthy (s : string) : bool :=
  match s with EmptyString => false | _ => true end.

End Str.

(** ** Base64 and base64url ([btoa], [atob], [base64urlEncode],
    [base64urlDecode] of jwt.ts) *)

Module Base64.
Local Open Scope N_scope.

Definition alphabet : string :=
  "ABCDEFGHIJKLMNOPQRSTUVWXYZabcdefghijklmnopqrstuvwxyz0123456789+/".

Definition digit (n : N) : ascii :=
  match String.get (N.to_nat n) alphabet with
  | Some c => c
  | None => "="%char
  end.

(** Value of a base64 digit, if it is one. *)
Definition value (c : ascii) : option N :=
  let n := N_of_ascii c in
  if (65 <=? n) && (n <=? 90) then Some (n - 65)
  else if (97 <=? n) && (n <=? 122) then Some (n - 71)
  else if (48 <=? n) && (n <=? 57) then Some (n + 4)
  else if n =? 43 then Some 62
  else if n =? 47 then Some 63
  else None.

(** [btoa] over the bytes of its argument. *)
Fixpoint btoa_bytes (l : list N) : string :=
  match l with
  | [] => EmptyString
  | [a] =>
      String (digit (N.shiftr a 2))
        (String (digit (N.shiftl (N.land a 3) 4)) "==")
  | [a; b] =>
      String (digit (N.shiftr a 2))
        (String (digit (N.lor (N.shiftl (N.land a 3) 4) (N.shiftr b 4)))
           (String (digit (N.shiftl (N.land b 15) 2)) "="))
  | a :: b :: c :: rest =>
      String (digit (N.shiftr a 2))
        (String (digit (N.lor (N.shiftl (N.land a 3) 4) (N.shiftr b 4)))
           (String (digit (N.lor (N.shiftl (N.land b 15) 2) (N.shiftr c 6)))
              (String (digit (N.land c 63)) (btoa_bytes rest))))
  end.

Definition btoa (s : string) : string := btoa_bytes (Str.to_bytes s).

(** The three [replace] calls of [base64urlEncode]. *)
Definition url_safe (base64 : string) : string :=
  Str.replace_all_char "="%char ""
    (Str.replace_all_char "/"%char "_"
       (Str.replace_all_char "+"%char "-" base64)).

(** [base64urlEncode(data: string)]. *)
Definition base64urlEncode (s : string) : string := url_safe (btoa s).

(** [base64urlEncode(data: ArrayBuffer)]: the bytes go through
    [String.fromCharCode] and [btoa]. *)
Definition base64urlEncode_buf (l : list N) : string :=
  url_safe (btoa_bytes l).

Definition is_space (c : ascii) : bool :=
  let n := N_of_ascii c in
  (n =? 9) || (n =? 10) || (n =? 12) || (n =? 13) || (n =? 32).

Fixpoint strip_spaces (s : string) : string :=
  match s with
  | EmptyString => EmptyString
  | String a s' =>
      if is_space a then strip_spaces s' else String a (strip_spaces s')
  end.

(** Removes at most [k] trailing [=] signs. *)
Definition strip_padding (k : nat) (l : list ascii) : list ascii :=
  let fix go (k : nat) (r : list ascii) : list ascii :=
    match k, r with
    | S k', c :: r' => if Ascii.eqb c "="%char then go k' r' else r
    | _, _ => r
    end in
  rev (go k (rev l)).

Fixpoint values (l : list ascii) : option (list N) :=
  match l with
  | [] => Some []
  | c :: l' =>
      match value c, values l' with
      | Some v, Some vs => Some (v :: vs)
      | _, _ => None
      end
  end.

(** Groups of four digits give three bytes; a last group of three gives
    two, of two gives one (the spare low bits are dropped). *)
Fixpoint decode_values (l : list N) : list N :=
  match l with
  | a :: b :: c :: d :: rest =>
      N.lor (N.shiftl a 2) (N.shiftr b 4)
      :: N.lor (N.shiftl (N.land b 15) 4) (N.shiftr c 2)
      :: N.lor (N.shiftl (N.land c 3) 6) d
      :: decode_values rest
  | [a; b; c] =>
      [N.lor (N.shiftl a 2) (N.shiftr b 4);
       N.lor (N.shiftl (N.land b 15) 4) (N.shiftr c 2)]
  | [a; b] => [N.lor (N.shiftl a 2) (N.shiftr b 4)]
  | _ => []
  end.

(** [atob]: the forgiving base64 decoding; [None] is the
    [InvalidCharacterError] it throws. *)
Definition atob (s : string) : option string :=
  let l := list_ascii_of_string (strip_spaces s) in
  let l := if Nat.eqb (Nat.modulo (List.length l) 4) 0
           then strip_padding 2 l else l in
  if Nat.eqb (Nat.modulo (List.length l) 4) 1 then None
  else match values l with
       | Some vs => Some (Str.of_bytes (decode_values vs))
       | None => None
       end.

(** The [while (base64.length % 4) base64 += '='] loop. *)
Definition pad4 (s : string) : string :=
  match Nat.modulo (String.length s) 4 with
  | 1%nat => String.append s "==="
  | 2%nat => String.append s "=="
  | 3%nat => String.append s "="
  | _ => s
  end.

Definition base64urlDecode (s : string) : option string :=
  atob (pad4 (Str.replace_all_char "_"%char "/"
                (Str.replace_all_char "-"%char "+" s))).

End Base64.

(** ** SHA-256 and HMAC ([crypto.subtle.digest], [crypto.subtle.sign]) *)

Module Sha256.
Local Open Scope N_scope.

Definition mask32 : N := 0xFFFFFFFF.
Definition add32 (x y : N) : N := N.land (x + y) mask32.
Definition rotr (n x : N) : N :=
  N.lor (N.shiftr x n) (N.land (N.shiftl x (32 - n)) mask32).
Definition not32 (x : N) : N := N.lxor x mask32.

Definition ch (x y z : N) : N :=
  N.lxor (N.land x y) (N.land (not32 x) z).
Definition maj (x y z : N) : N :=
  N.lxor (N.lxor (N.land x y) (N.land x z)) (N.land y z).
Definition bsig0 (x : N) : N :=
  N.lxor (N.lxor (rotr 2 x) (rotr 13 x)) (rotr 22 x).
Definition bsig1 (x : N) : N :=
  N.lxor (N.lxor (rotr 6 x) (rotr 11 x)) (rotr 25 x).
Definition ssig0 (x : N) : N :=
  N.lxor (N.lxor (rotr 7 x) (rotr 18 x)) (N.shiftr x 3).
Definition ssig1 (x : N) : N :=
  N.lxor (N.lxor (rotr 17 x) (rotr 19 x)) (N.shiftr x 10).

(** The sixty-four round constants (FIPS 180-4, 4.2.2), in decimal. *)
Definition round_constants : list N :=
  [1116352408; 1899447441; 3049323471; 3921009573;
   961987163; 1508970993; 2453635748; 2870763221;
   3624381080; 310598401; 607225278; 1426881987;
   1925078388; 2162078206; 2614888103; 3248222580;
   3835390401; 4022224774; 264347078; 604807628;
   770255983; 1249150122; 1555081692; 1996064986;
   2554220882; 2821834349; 2952996808; 3210313671;
   3336571891; 3584528711; 113926993; 338241895;
   666307205; 773529912; 1294757372; 1396182291;
   1695183700; 1986661051; 2177026350; 2456956037;
   2730485921; 2820302411; 3259730800; 3345764771;
   3516065817; 3600352804; 4094571909; 275423344;
   430227734; 506948616; 659060556; 883997877;
   958139571; 1322822218; 1537002063; 1747873779;
   1955562222; 2024104815; 2227730452; 2361852424;
   2428436474; 2756734187; 3204031479; 3329325298].

Record regs := Regs { ra : N; rb : N; rc : N; rd : N;
                      re : N; rf : N; rg : N; rh : N }.

(** The initial hash value (FIPS 180-4, 5.3.3), in decimal. *)
Definition initial : regs :=
  Regs 1779033703 3144134277 1013904242 2773480762
       1359893119 2600822924 528734635 1541459225.

(** Big-endian words of a block. *)
Fixpoint words (l : list N) : list N :=
  match l with
  | a :: b :: c :: d :: rest =>
      N.lor (N.shiftl a 24) (N.lor (N.shiftl b 16) (N.lor (N.shiftl c 8) d))
      :: words rest
  | _ => []
  end.

(** The message schedule, kept newest first: [extend k w] adds [k] words
    to the sixteen (or more) in [w]. *)
Fixpoint extend (k : nat) (w : list N) : list N :=
  match k with
  | O => w
  | S k' =>
      let new :=
        add32 (add32 (ssig1 (nth 1 w 0)) (nth 6 w 0))
              (add32 (ssig0 (nth 14 w 0)) (nth 15 w 0)) in
      extend k' (new :: w)
  end.

Definition schedule (block : list N) : list N :=
  rev (extend 48 (rev (words block))).

Definition round (s : regs) (kw : N * N) : regs :=
  let t1 := add32 (add32 (add32 (rh s) (bsig1 (re s)))
                         (add32 (ch (re s) (rf s) (rg s)) (fst kw)))
                  (snd kw) in
  let t2 := add32 (bsig0 (ra s)) (maj (ra s) (rb s) (rc s)) in
  Regs (add32 t1 t2) (ra s) (rb s) (rc s)
       (add32 (rd s) t1) (re s) (rf s) (rg s).

Definition compress (h : regs) (block : list N) : regs :=
  let s := fold_left round (combine round_constants (schedule block)) h in
  Regs (add32 (ra h) (ra s)) (add32 (rb h) (rb s))
       (add32 (rc h) (rc s)) (add32 (rd h) (rd s))
       (add32 (re h) (re s)) (add32 (rf h) (rf s))
       (add32 (rg h) (rg s)) (add32 (rh h) (rh s)).

Definition be_bytes (n : nat) (x : N) : list N :=
  List.map (fun i => N.land (N.shiftr x (8 * N.of_nat i)) 255)
           (rev (seq 0 n)).

(** Padding: a one bit, zeros up to 56 modulo 64, the bit length on
    eight bytes. *)
Definition pad (msg : list N) : list N :=
  let len := List.length msg in
  let zeros := Nat.modulo (119 - Nat.modulo len 64) 64 in
  msg ++ 128 :: repeat 0 zeros ++ be_bytes 8 (8 * N.of_nat len).

Fixpoint blocks (n : nat) (l : list N) : list (list N) :=
  match n with
  | O => []
  | S n' => firstn 64 l :: blocks n' (skipn 64 l)
  end.

Definition digest (msg : list N) : list N :=
  let p := pad msg in
  let h := fold_left compress (blocks (Nat.div (List.length p) 64) p) initial in
  List.concat (List.map (be_bytes 4)
    [ra h; rb h; rc h; rd h; re h; rf h; rg h; rh h]).

(** HMAC with SHA-256 (block size 64). *)
Definition hmac (key msg : list N) : list N :=
  let k0 := if Nat.ltb 64 (List.length key) then digest key else key in
  let k := k0 ++ repeat 0 (64 - List.length k0) in
  let ipad := List.map (N.lxor 0x36) k in
  let opad := List.map (N.lxor 0x5c) k in
  digest (opad ++ digest (ipad ++ msg)).

End Sha256.

Module Utf8.
Local Open Scope N_scope.

(** [new TextEncoder().encode(s)] on code units below 256. *)
Definition encode (s : string) : list N :=
  List.concat (List.map (fun c =>
    if c <? 128 then [c]
    else [N.lor 0xC0 (N.shiftr c 6); N.lor 0x80 (N.land c 63)])
    (Str.to_bytes s)).

End Utf8.

(** ** JSON values, [JSON.stringify] and [JSON.parse]

    Numbers are the integers; a number literal with a fraction or an
    exponent, and an escape for a code unit above 255, are outside the
    modelled fragment ([parse] answers [None] for them as it does for a
    [SyntaxError]). *)

Inductive json : Type :=
| JNull
| JBool (b : bool)
| JNum (n : Z)
| JStr (s : string)
| JArr (items : list json)
| JObj (fields : list (string * json)).

Module Json.

Definition dquote : ascii := ascii_of_nat 34.
Definition backslash : ascii := ascii_of_nat 92.

Definition string_of_Z (z : Z) : string :=
  NilZero.string_of_int (Z.to_int z).

Definition hex_digit (n : N) : ascii :=
  ascii_of_N (if (n <? 10)%N then n + 48 else n + 87)%N.

Definition escape_char (c : ascii) : string :=
  let n := N_of_ascii c in
  if Ascii.eqb c dquote then String backslash (String dquote "")
  else if Ascii.eqb c backslash then String backslash (String backslash "")
  else if (n =? 8)%N then String backslash "b"
  else if (n =? 9)%N then String backslash "t"
  else if (n =? 10)%N then String backslash "n"
  else if (n =? 12)%N then String backslash "f"
  else if (n =? 13)%N then String backslash "r"
  else if (n <? 32)%N then
    String backslash
      (String "u" (String "0" (String "0"
         (String (hex_digit (N.shiftr n 4))
            (String (hex_digit (N.land n 15)) "")))))
  else String c "".

Fixpoint escape (s : string) : string :=
  match s with
  | EmptyString => EmptyString
  | String c s' => String.append (escape_char c) (escape s')
  end.

Definition quote (s : string) : string :=
  String dquote (String.append (escape s) (String dquote "")).

(** [JSON.stringify(v)]. *)
Fixpoint stringify (v : json) : string :=
  match v with
  | JNull => "null"
  | JBool true => "true"
  | JBool false => "false"
  | JNum n => string_of_Z n
  | JStr s => quote s
  | JArr items =>
      String.append "[" (String.append
        (Str.join "," (List.map stringify items)) "]")
  | JObj fields =>
      String.append "{" (String.append
        (Str.join "," (List.map (fun kv =>
           String.append (quote (fst kv))
             (String.append ":" (stringify (snd kv)))) fields)) "}")
  end.

(** *** Parsing *)

Definition is_ws (c : ascii) : bool :=
  let n := N_of_ascii c in
  ((n =? 32) || (n =? 9) || (n =? 10) || (n =? 13))%N.

Fixpoint skip_ws (s : string) : string :=
  match s with
  | String c s' => if is_ws c then skip_ws s' else s
  | EmptyString => s
  end.

Definition digit_value (c : ascii) : option Z :=
  let n := N_of_ascii c in
  if ((48 <=? n) && (n <=? 57))%N then Some (Z.of_N n - 48)%Z else None.

Definition hex_value (c : ascii) : option N :=
  let n := N_of_ascii c in
  if ((48 <=? n) && (n <=? 57))%N then Some (n - 48)%N
  else if ((97 <=? n) && (n <=? 102))%N then Some (n - 87)%N
  else if ((65 <=? n) && (n <=? 70))%N then Some (n - 55)%N
  else None.

(** Digits of [s] read onto the accumulator [acc]. *)
Fixpoint read_digits (acc : Z) (s : string) : Z * string :=
  match s with
  | String c s' =>
      match digit_value c with
      | Some d => read_digits (10 * acc + d)%Z s'
      | None => (acc, s)
      end
  | EmptyString => (acc, s)
  end.

Definition starts_fraction (s : string) : bool :=
  match s with
  | String c _ =>
      Ascii.eqb c "."%char || Ascii.eqb c "e"%char || Ascii.eqb c "E"%char
  | EmptyString => false
  end.

(** An unsigned integer literal: [0] alone or a digit string that does
    not start with [0]. *)
Definition parse_nat_literal (s : string) : option (Z * string) :=
  match s with
  | String c s' =>
      match digit_value c with
      | Some 0%Z =>
          match s' with
          | String c' _ =>
              match digit_value c' with
              | Some _ => None
              | None => if starts_fraction s' then None else Some (0%Z, s')
              end
          | EmptyString => Some (0%Z, s')
          end
      | Some d =>
          let (n, r) := read_digits d s' in
          if starts_fraction r then None else Some (n, r)
      | None => None
      end
  | EmptyString => None
  end.

(** The characters of a string literal after its opening quote. *)
Fixpoint parse_chars (s : string) : option (string * string) :=
  match s with
  | EmptyString => None
  | String c r =>
      if Ascii.eqb c dquote then Some (EmptyString, r)
      else if Ascii.eqb c backslash then
        match r with
        | String e r' =>
            let continue (x : ascii) (rest : string) :=
              match parse_chars rest with
              | Some (t, r'') => Some (String x t, r'')
              | None => None
              end in
            if Ascii.eqb e dquote then continue dquote r'
            else if Ascii.eqb e backslash then continue backslash r'
            else if Ascii.eqb e "/"%char then continue "/"%char r'
            else if Ascii.eqb e "b"%char then continue (ascii_of_nat 8) r'
            else if Ascii.eqb e "f"%char then continue (ascii_of_nat 12) r'
            else if Ascii.eqb e "n"%char then continue (ascii_of_nat 10) r'
            else if Ascii.eqb e "r"%char then continue (ascii_of_nat 13) r'
            else if Ascii.eqb e "t"%char then continue (ascii_of_nat 9) r'
            else if Ascii.eqb e "u"%char then
              match r' with
              | String h1 (String h2 (String h3 (String h4 r4))) =>
                  match hex_value h1, hex_value h2,
                        hex_value h3, hex_value h4 with
                  | Some 0%N, Some 0%N, Some a, Some b =>
                      continue (ascii_of_N (16 * a + b)) r4
                  | _, _, _, _ => None
                  end
              | _ => None
              end
            else None
        | EmptyString => None
        end
      else if (N_of_ascii c <? 32)%N then None
      else match parse_chars r with
           | Some (t, r') => Some (String c t, r')
           | None => None
           end
  end.

Section Composite.
Variable parse_value : string -> option (json * string).

(** Elements of an array after [[] or a comma. *)
Fixpoint parse_elements (fuel : nat) (s : string)
  : option (list json * string) :=
  match fuel with
  | O => None
  | S fuel' =>
      match parse_value s with
      | Some (v, r) =>
          match skip_ws r with
          | String c r' =>
              if Ascii.eqb c ","%char then
                match parse_elements fuel' r' with
                | Some (vs, r'') => Some (v :: vs, r'')
                | None => None
                end
              else if Ascii.eqb c "]"%char then Some ([v], r')
              else None
          | EmptyString => None
          end
      | None => None
      end
  end.

(** Members of an object after [{] or a comma. *)
Fixpoint parse_members (fuel : nat) (s : string)
  : option (list (string * json) * string) :=
  match fuel with
  | O => None
  | S fuel' =>
      match skip_ws s with
      | String q r =>
          if Ascii.eqb q dquote then
            match parse_chars r with
            | Some (k, r1) =>
                match skip_ws r1 with
                | String c r2 =>
                    if Ascii.eqb c ":"%char then
                      match parse_value r2 with
                      | Some (v, r3) =>
                          match skip_ws r3 with
                          | String d r4 =>
                              if Ascii.eqb d ","%char then
                                match parse_members fuel' r4 with
                                | Some (kvs, r5) => Some ((k, v) :: kvs, r5)
                                | None => None
                                end
                              else if Ascii.eqb d "}"%char
                              then Some ([(k, v)], r4)
                              else None
                          | EmptyString => None
                          end
                      | None => None
                      end
                    else None
                | EmptyString => None
                end
            | None => None
            end
          else None
      | EmptyString => None
      end
  end.
End Composite.

(** One value, with the text that follows it.  The fuel bounds the
    nesting depth; the length of the text is always enough. *)
Fixpoint parse_value (fuel : nat) (s : string) : option (json * string) :=
  match fuel with
  | O => None
  | S fuel' =>
      match skip_ws s with
      | EmptyString => None
      | String c r =>
          if Ascii.eqb c "{"%char then
            match skip_ws r with
            | String c' r' =>
                if Ascii.eqb c' "}"%char then Some (JObj [], r')
                else match parse_members (parse_value fuel')
                             (String.length r) r with
                     | Some (kvs, r'') => Some (JObj kvs, r'')
                     | None => None
                     end
            | EmptyString => None
            end
          else if Ascii.eqb c "["%char then
            match skip_ws r with
            | String c' r' =>
                if Ascii.eqb c' "]"%char then Some (JArr [], r')
                else match parse_elements (parse_value fuel')
                             (String.length r) r with
                     | Some (vs, r'') => Some (JArr vs, r'')
                     | None => None
                     end
            | EmptyString => None
            end
          else if Ascii.eqb c dquote then
            match parse_chars r with
            | Some (t, r') => Some (JStr t, r')
            | None => None
            end
          else if Ascii.eqb c "-"%char then
            match parse_nat_literal r with
            | Some (n, r') => Some (JNum (- n), r')
            | None => None
            end
          else if Str.starts_with "true" (String c r)
               then Some (JBool true, Str.drop 4 (String c r))
          else if Str.starts_with "false" (String c r)
               then Some (JBool false, Str.drop 5 (String c r))
          else if Str.starts_with "null" (String c r)
               then Some (JNull, Str.drop 4 (String c r))
          else match parse_nat_literal (String c r) with
               | Some (n, r') => Some (JNum n, r')
               | None => None
               end
      end
  end.

(** [JSON.parse(text)]; [None] when it throws. *)
Definition parse (text : string) : option json :=
  match parse_value (S (String.length text)) text with
  | Some (v, rest) =>
      match skip_ws rest with
      | EmptyString => Some v
      | String _ _ => None
      end
  | None => None
  end.

End Json.

(** ** Values of the host language *)

Module Js.

(** Own property [k] of a parsed object; a key given twice keeps its
    last value. *)
Fixpoint lookup_field (k : string) (fields : list (string * json))
  : option json :=
  match fields with
  | [] => None
  | (k', v) :: rest =>
      match lookup_field k rest with
      | Some v' => Some v'
      | None => if String.eqb k k' then Some v else None
      end
  end.

(** Truthiness; [None] is [undefined]. *)
Definition truthy (v : option json) : bool :=
  match v with
  | None | Some JNull => false
  | Some (JBool b) => b
  | Some (JNum n) => negb (n =? 0)%Z
  | Some (JStr s) => Str.truthy s
  | Some (JArr _) | Some (JObj _) => true
  end.

(** [String(v)] as [Array.prototype.join] and [ToPrimitive] apply it. *)
Fixpoint to_string (v : json) : string :=
  match v with
  | JNull => "null"
  | JBool true => "true"
  | JBool false => "false"
  | JNum n => Json.string_of_Z n
  | JStr s => s
  | JArr items =>
      Str.join "," (List.map (fun x =>
        match x with JNull => EmptyString | _ => to_string x end) items)
  | JObj _ => "[object Object]"
  end.

Definition is_js_space (c : ascii) : bool :=
  let n := N_of_ascii c in
  ((n =? 32) || ((9 <=? n) && (n <=? 13)) || (n =? 160))%N.

Fixpoint trim_left (s : string) : string :=
  match s with
  | String c s' => if is_js_space c then trim_left s' else s
  | EmptyString => s
  end.

(** The value of a run of decimal digits, at least one, that only white
    space follows. *)
Definition all_digits_value (s : string) : option Z :=
  match s with
  | EmptyString => None
  | String c _ =>
      match Json.digit_value c with
      | None => None
      | Some _ =>
          let (n, r) := Json.read_digits 0 s in
          match trim_left r with
          | EmptyString => Some n
          | String _ _ => None
          end
      end
  end.

(** [Number(s)] for a string: [None] is [NaN].  Only decimal integers
    are read; other numeric strings are outside the modelled
    fragment. *)
Definition string_to_number (s : string) : option Z :=
  match trim_left s with
  | EmptyString => Some 0%Z
  | String c r =>
      if Ascii.eqb c "-"%char then option_map Z.opp (all_digits_value r)
      else if Ascii.eqb c "+"%char then all_digits_value r
      else all_digits_value (String c r)
  end.

(** [Number(v)]; [None] is [NaN]. *)
Definition to_number (v : json) : option Z :=
  match v with
  | JNull => Some 0%Z
  | JBool b => Some (if b then 1 else 0)%Z
  | JNum n => Some n
  | JStr s => string_to_number s
  | JArr _ | JObj _ => string_to_number (to_string v)
  end.

(** [v < n] for a number [n]. *)
Definition lt_number (v : json) (n : Z) : bool :=
  match to_number v with
  | Some x => (x <? n)%Z
  | None => false
  end.

End Js.

(** ** Exceptions *)

Record JsError : Type := mkError {
  err_message : string;
  err_code : option Z;
  err_data : option json
}.

(** [new Error(message)]. *)
Definition Error (message : string) : JsError := mkError message None None.

(** An exception raised by the platform rather than by the program
    (TypeError, SyntaxError, DOMException, a constraint failure of the
    database).  Its message text is the platform's; the one recorded here
    is only a label. *)
Definition HostError (label : string) : JsError := mkError label None None.

Inductive result (A : Type) : Type :=
| Ok (a : A)
| Err (e : JsError).
Arguments Ok {A} a.
Arguments Err {A} e.

#[global] Instance result_ret : MRet result := fun _ a => Ok a.
#[global] Instance result_bind : MBind result := fun _ _ k r =>
  match r with
  | Ok a => k a
  | Err e => Err e
  end.

Definition is_ok {A} (r : result A) : bool :=
  match r with Ok _ => true | Err _ => false end.

(** [v.k] for one of the keys this program reads ([exp], [sub], [scopes]):
    a [TypeError] on [null], [undefined] on anything that is not an object
    with that key. *)
Definition get_property (k : string) (v : json) : result (option json) :=
  match v with
  | JNull => Err (HostError "TypeError: Cannot read properties of null")
  | JObj fields => Ok (Js.lookup_field k fields)
  | _ => Ok None
  end.

(** ** Token codec (jwt.ts) *)

Module Jwt.

(** [sign(data, secret)]: [importKey] refuses a key of length zero. *)
Definition sign (data secret : string) : result string :=
  match secret with
  | EmptyString => Err (HostError "DataError: zero-length key")
  | String _ _ =>
      Ok (Base64.base64urlEncode_buf
            (Sha256.hmac (Utf8.encode secret) (Utf8.encode data)))
  end.

Definition header : json := JObj [("alg", JStr "HS256"); ("typ", JStr "JWT")].

Definition signing_input (encodedHeader encodedPayload : string) : string :=
  String.append encodedHeader (String.append "." encodedPayload).

Definition createJWT (payload : json) (secret : string) : result string :=
  let encodedHeader := Base64.base64urlEncode (Json.stringify header) in
  let encodedPayload := Base64.base64urlEncode (Json.stringify payload) in
  signature ← sign (signing_input encodedHeader encodedPayload) secret;
  Ok (String.append (signing_input encodedHeader encodedPayload)
        (String.append "." signature)).

(** [Math.floor(Date.now() / 1000)]. *)
Definition seconds (now : Z) : Z := (now / 1000)%Z.

Definition verifyJWT (token secret : string) (now : Z) : result json :=
  match Str.split_on "."%char token with
  | [encodedHeader; encodedPayload; signature] =>
      expectedSignature ← sign (signing_input encodedHeader encodedPayload) secret;
      if negb (String.eqb signature expectedSignature)
      then Err (Error "Invalid JWT signature")
      else
        match Base64.base64urlDecode encodedPayload with
        | None => Err (HostError "InvalidCharacterError")
        | Some text =>
            match Json.parse text with
            | None => Err (HostError "SyntaxError")
            | Some payload =>
                exp ← get_property "exp" payload;
                if Js.truthy exp &&
                   match exp with
                   | Some e => Js.lt_number e (seconds now)
                   | None => false
                   end
                then Err (Error "JWT expired")
                else Ok payload
            end
        end
  | _ => Err (Error "Invalid JWT format")
  end.

Definition TokenPayload (sub email : string) (scopes : list string)
           (iat exp : Z) : json :=
  JObj [("sub", JStr sub); ("email", JStr email);
        ("scopes", JArr (List.map JStr scopes));
        ("type", JStr "access_token");
        ("iat", JNum iat); ("exp", JNum exp)].

Definition generateAccessToken (contactId email : string)
           (scopes : list string) (secret : string) (now : Z)
  : result string :=
  createJWT (TokenPayload contactId email scopes
               (seconds now) (seconds now + 3600)) secret.

Definition verifyAccessToken (token secret : string) (now : Z) : result json :=
  verifyJWT token secret now.

(** [crypto.getRandomValues(new Uint8Array(n))]: the array is filled from
    the entropy supplied by the environment. *)
Definition getRandomValues (n : nat) (entropy : list N) : list N :=
  List.map (fun b => (b mod 256)%N) (firstn n (entropy ++ repeat 0%N n)).

Definition generateRefreshToken (entropy : list N) : string :=
  Base64.base64urlEncode_buf (getRandomValues 32 entropy).

Definition verifyPKCE (codeVerifier codeChallenge : string) : bool :=
  String.eqb (Base64.base64urlEncode_buf
                (Sha256.digest (Utf8.encode codeVerifier)))
             codeChallenge.

End Jwt.

(** ** The customer directory (mock-data/customer.ts) *)

Record Verification : Type := mkVerification {
  v_exists : bool;
  v_customerId : option string
}.

(** The directory is a collaborator of the orchestrator; [verifyEmail]
    may throw. *)
Class Directory : Type := {
  verifyEmail : string -> result Verification
}.

Module MockCustomer.
Local Open Scope Z_scope.

(** [ToInt32]. *)
Definition to_int32 (x : Z) : Z :=
  let m := x mod 2 ^ 32 in
  if m <? 2 ^ 31 then m else m - 2 ^ 32.

Definition hash_step (hash : Z) (c : ascii) : Z :=
  let char := Z.of_N (N_of_ascii c) in
  let hash := (to_int32 (hash * 2 ^ 5) - hash) + char in
  Z.land (to_int32 hash) (to_int32 hash).

Definition hashEmail (email : string) : Z :=
  Z.abs (fold_left hash_step (list_ascii_of_string email) 0).

Definition base36_digit (d : Z) : ascii :=
  ascii_of_N (Z.to_N (if d <? 10 then d + 48 else d + 87)).

Fixpoint base36_loop (fuel : nat) (n : Z) (acc : string) : string :=
  match fuel with
  | O => acc
  | S fuel' =>
      let acc' := String (base36_digit (n mod 36)) acc in
      if n <? 36 then acc' else base36_loop fuel' (n / 36) acc'
  end.

(** [n.toString(36)] for [0 <= n <= 2^31]. *)
Definition toString36 (n : Z) : string := base36_loop 7 n EmptyString.

(** The [customer_id] of [generateCustomerFromEmail(email)]. *)
Definition customer_id_of_email (email : string) : string :=
  String.append "cust_" (toString36 (hashEmail email)).

(** [SeededRandom.next]: the seed it leaves behind; the number it
    returns is that seed divided by 233280. *)
Definition next_seed (seed : Z) : Z := (seed * 9301 + 49297) mod 233280.

(** The seed of the seventh draw of [generateCustomerFromEmail], the one
    that decides on the preferences.  Each of the six draws before it
    (first name, last name, age of the account, tier, age of the
    membership, points) advances the seed once. *)
Definition preferences_seed (hash : Z) : Z := Nat.iter 7 next_seed hash.

(** [generateCustomerFromEmail], restricted to the customer id.  The
    draw [seed / 233280] exceeds 0.3 exactly when the seed exceeds 69984,
    three tenths of 233280.  The initialiser of [customer.preferences]
    then filters [BRANDS] with a callback that reads
    [customer.preferences.favorite_brands] while [customer.preferences]
    is still [undefined]. *)
Definition generateCustomerFromEmail (email : string) : result string :=
  if 69984 <? preferences_seed (hashEmail email)
  then Err (HostError "TypeError: Cannot read properties of undefined")
  else Ok (customer_id_of_email email).

(** [getCustomerByEmail], restricted to the customer id. *)
Definition getCustomerByEmail (email : string) : result (option string) :=
  if negb (Str.truthy email) || negb (Str.includes "@" email) then Ok None
  else
    customer ← generateCustomerFromEmail email;
    Ok (Some customer).

Definition mock_verifyEmail (email : string) : result Verification :=
  if negb (Str.truthy email) || negb (Str.includes "@" email)
  then Ok (mkVerification false None)
  else
    customer ← getCustomerByEmail email;
    Ok (mkVerification true customer).

(** A digit of base 36. *)
Definition is_digit36 (c : ascii) : bool :=
  let n := N_of_ascii c in
  (((48 <=? n) && (n <=? 57)) || ((97 <=? n) && (n <=? 122))
   || ((65 <=? n) && (n <=? 90)))%N.

(** [isNaN(parseInt(s, 36))]: after the white space and a sign, [s] does
    not start with a digit of base 36. *)
Definition parseInt36_isNaN (s : string) : bool :=
  match Js.trim_left s with
  | EmptyString => true
  | String c r =>
      let digits :=
        if Ascii.eqb c "-"%char || Ascii.eqb c "+"%char then r
        else String c r in
      match digits with
      | String d _ => negb (is_digit36 d)
      | EmptyString => true
      end
  end.

(** [getCustomerById], restricted to the customer id. *)
Definition getCustomerById (customerId : string) : result (option string) :=
  let hashStr := Str.replace_first "cust_" "" customerId in
  if parseInt36_isNaN hashStr then Ok None
  else
    customer ← generateCustomerFromEmail
                 (String.append "customer_"
                    (String.append hashStr "@example.com"));
    Ok (Some customer).

Definition directory : Directory := {| verifyEmail := mock_verifyEmail |}.

End MockCustomer.

(** ** Stored data (types.ts, schema.sql) *)

Inductive Status : Type := pending | authorized | denied.

#[global] Instance Status_eq_dec : EqDecision Status.
Proof. solve_decision. Defined.

Record AuthRequest : Type := mkAuthRequest {
  req_email : string;
  req_client_id : string;
  req_client_name : string;
  req_scopes : list string;
  req_code_challenge : string;
  req_code_challenge_method : string;
  req_redirect_uri : string;
  req_state : string;
  req_domain : string
}.

Record AuthRequestStored : Type := mkStored {
  id : string;
  email : string;
  customer_id : option string;
  client_id : string;
  client_name : string;
  scopes : list string;
  code_challenge : string;
  status : Status;
  code : option string;
  created_at : Z;
  expires_at : Z
}.

(** A row of [auth_codes].  The [scopes] column, a JSON array written by
    [JSON.stringify] and read by [JSON.parse], is kept as the array. *)
Record AuthCodeRow : Type := mkAuthCode {
  ac_code : string;
  ac_customer_email : string;
  ac_cordial_contact_id : string;
  ac_client_id : string;
  ac_scopes : list string;
  ac_code_challenge : string;
  ac_expires_at : Z;
  ac_used : bool;
  ac_created_at : Z
}.

(** A row of [refresh_tokens]. *)
Record RefreshTokenRow : Type := mkRefreshToken {
  rt_token : string;
  rt_customer_email : string;
  rt_cordial_contact_id : string;
  rt_client_id : string;
  rt_scopes : list string;
  rt_expires_at : Z;
  rt_created_at : Z;
  rt_last_used : option Z
}.

(** ** The transient key-value store

    [put] records the expiration the caller asked for; [get] answers with
    what the store holds; the store evicts lapsed entries on its own
    schedule ([evict]), which no operation below waits for. *)

Module Kv.

Record entry (V : Type) : Type := mkEntry {
  value : V;
  expiration : Z
}.
Arguments mkEntry {V} value expiration.
Arguments value {V} e.
Arguments expiration {V} e.

Section Namespace.
Context {V : Type}.

Definition get (k : string) (ns : gmap string (entry V)) : option V :=
  value <$> ns !! k.

Definition put (k : string) (v : V) (expirationTtl now : Z)
           (ns : gmap string (entry V)) : gmap string (entry V) :=
  <[k := mkEntry v (now + expirationTtl * 1000)%Z]> ns.

Definition delete (k : string) (ns : gmap string (entry V))
  : gmap string (entry V) :=
  base.delete k ns.

Definition evict (now : Z) (ns : gmap string (entry V))
  : gmap string (entry V) :=
  filter (fun kv => (now < expiration (snd kv))%Z) ns.
End Namespace.

End Kv.

(** ** The durable store: the two tables of schema.sql *)

Module Db.

Definition unique_violation (table : string) : JsError :=
  HostError (String.append "D1_ERROR: UNIQUE constraint failed: " table).

(** [INSERT INTO auth_codes (...) VALUES (...)]; [code] is the primary
    key. *)
Definition insert_auth_code (row : AuthCodeRow) (t : list AuthCodeRow)
  : result (list AuthCodeRow) :=
  if existsb (fun r => String.eqb (ac_code r) (ac_code row)) t
  then Err (unique_violation "auth_codes.code")
  else Ok (t ++ [row]).

(** [SELECT * FROM auth_codes WHERE code = ? AND used = 0], [.first()]. *)
Definition first_unused_auth_code (c : string) (t : list AuthCodeRow)
  : option AuthCodeRow :=
  List.find (fun r => String.eqb (ac_code r) c && negb (ac_used r)) t.

Definition set_used (r : AuthCodeRow) : AuthCodeRow :=
  mkAuthCode (ac_code r) (ac_customer_email r) (ac_cordial_contact_id r)
             (ac_client_id r) (ac_scopes r) (ac_code_challenge r)
             (ac_expires_at r) true (ac_created_at r).

(** [UPDATE auth_codes SET used = 1 WHERE code = ?]. *)
Definition mark_used (c : string) (t : list AuthCodeRow) : list AuthCodeRow :=
  List.map (fun r => if String.eqb (ac_code r) c then set_used r else r) t.

(** [INSERT INTO refresh_tokens (...) VALUES (...)]; [token] is the
    primary key. *)
Definition insert_refresh_token (row : RefreshTokenRow)
           (t : list RefreshTokenRow) : result (list RefreshTokenRow) :=
  if existsb (fun r => String.eqb (rt_token r) (rt_token row)) t
  then Err (unique_violation "refresh_tokens.token")
  else Ok (t ++ [row]).

(** [SELECT * FROM refresh_tokens WHERE token = ?], [.first()]. *)
Definition first_refresh_token (tok : string) (t : list RefreshTokenRow)
  : option RefreshTokenRow :=
  List.find (fun r => String.eqb (rt_token r) tok) t.

Definition set_token (tok : string) (used : Z) (r : RefreshTokenRow)
  : RefreshTokenRow :=
  mkRefreshToken tok (rt_customer_email r) (rt_cordial_contact_id r)
                 (rt_client_id r) (rt_scopes r) (rt_expires_at r)
                 (rt_created_at r) (Some used).

(** [UPDATE refresh_tokens SET token = ?, last_used = ? WHERE token = ?].
    The statement fails, changing nothing, when the new key is already
    taken by another row. *)
Definition rotate_refresh_token (new : string) (used : Z) (old : string)
           (t : list RefreshTokenRow) : result (list RefreshTokenRow) :=
  if existsb (fun r => String.eqb (rt_token r) old) t
     && negb (String.eqb new old)
     && existsb (fun r => String.eqb (rt_token r) new) t
  then Err (unique_violation "refresh_tokens.token")
  else Ok (List.map (fun r =>
             if String.eqb (rt_token r) old then set_token new used r else r) t).

(** [DELETE FROM refresh_tokens WHERE token = ?]. *)
Definition delete_refresh_token (tok : string) (t : list RefreshTokenRow)
  : list RefreshTokenRow :=
  List.filter (fun r => negb (String.eqb (rt_token r) tok)) t.

End Db.

(** ** The environment of a request and the monad of its handlers *)

Record Env : Type := mkEnv {
  AUTH_REQUESTS : gmap string (Kv.entry AuthRequestStored);
  MAGIC_LINK_TOKENS : gmap string (Kv.entry string);
  DB_auth_codes : list AuthCodeRow;
  DB_refresh_tokens : list RefreshTokenRow;
  JWT_SECRET : string
}.

(** A handler reads and writes the stores and may throw; what it wrote
    before throwing stays written.  The key-value store holds the stored
    request itself where the code holds its JSON text, and a failure of a
    store to answer is not modelled. *)
Definition M (A : Type) : Type := Env -> result A * Env.

#[global] Instance M_ret : MRet M := fun _ a env => (Ok a, env).
#[global] Instance M_bind : MBind M := fun _ _ k m env =>
  match m env with
  | (Ok a, env') => k a env'
  | (Err e, env') => (Err e, env')
  end.

Definition throw {A} (e : JsError) : M A := fun env => (Err e, env).

Definition lift {A} (r : result A) : M A := fun env => (r, env).

Module Store.

Definition get_request (k : string) : M (option AuthRequestStored) :=
  fun env => (Ok (Kv.get k (AUTH_REQUESTS env)), env).

Definition put_request (k : string) (v : AuthRequestStored)
           (ttl now : Z) : M unit :=
  fun env =>
    (Ok tt, mkEnv (Kv.put k v ttl now (AUTH_REQUESTS env))
                  (MAGIC_LINK_TOKENS env) (DB_auth_codes env)
                  (DB_refresh_tokens env) (JWT_SECRET env)).

Definition get_magic (k : string) : M (option string) :=
  fun env => (Ok (Kv.get k (MAGIC_LINK_TOKENS env)), env).

Definition put_magic (k v : string) (ttl now : Z) : M unit :=
  fun env =>
    (Ok tt, mkEnv (AUTH_REQUESTS env)
                  (Kv.put k v ttl now (MAGIC_LINK_TOKENS env))
                  (DB_auth_codes env) (DB_refresh_tokens env)
                  (JWT_SECRET env)).

Definition delete_magic (k : string) : M unit :=
  fun env =>
    (Ok tt, mkEnv (AUTH_REQUESTS env)
                  (Kv.delete k (MAGIC_LINK_TOKENS env))
                  (DB_auth_codes env) (DB_refresh_tokens env)
                  (JWT_SECRET env)).

Definition with_auth_codes (t : list AuthCodeRow) (env : Env) : Env :=
  mkEnv (AUTH_REQUESTS env) (MAGIC_LINK_TOKENS env) t
        (DB_refresh_tokens env) (JWT_SECRET env).

Definition with_refresh_tokens (t : list RefreshTokenRow) (env : Env) : Env :=
  mkEnv (AUTH_REQUESTS env) (MAGIC_LINK_TOKENS env) (DB_auth_codes env)
        t (JWT_SECRET env).

Definition insert_auth_code (row : AuthCodeRow) : M unit :=
  fun env =>
    match Db.insert_auth_code row (DB_auth_codes env) with
    | Ok t => (Ok tt, with_auth_codes t env)
    | Err e => (Err e, env)
    end.

Definition first_unused_auth_code (c : string) : M (option AuthCodeRow) :=
  fun env => (Ok (Db.first_unused_auth_code c (DB_auth_codes env)), env).

Definition mark_used (c : string) : M unit :=
  fun env => (Ok tt, with_auth_codes (Db.mark_used c (DB_auth_codes env)) env).

Definition insert_refresh_token (row : RefreshTokenRow) : M unit :=
  fun env =>
    match Db.insert_refresh_token row (DB_refresh_tokens env) with
    | Ok t => (Ok tt, with_refresh_tokens t env)
    | Err e => (Err e, env)
    end.

Definition first_refresh_token (tok : string) : M (option RefreshTokenRow) :=
  fun env => (Ok (Db.first_refresh_token tok (DB_refresh_tokens env)), env).

Definition rotate_refresh_token (new : string) (used : Z) (old : string)
  : M unit :=
  fun env =>
    match Db.rotate_refresh_token new used old (DB_refresh_tokens env) with
    | Ok t => (Ok tt, with_refresh_tokens t env)
    | Err e => (Err e, env)
    end.

Definition delete_refresh_token (tok : string) : M unit :=
  fun env =>
    (Ok tt, with_refresh_tokens
              (Db.delete_refresh_token tok (DB_refresh_tokens env)) env).

Definition secret : M string := fun env => (Ok (JWT_SECRET env), env).

End Store.

(** ** Authorization endpoints (authorize.ts) *)

Inductive PollStatus : Type :=
| poll_pending | poll_authorized | poll_denied | poll_expired.

Record PollResponse : Type := mkPoll {
  poll_status : PollStatus;
  poll_code : option string;
  poll_expires_in : option Z
}.

Record InitResponse : Type := mkInit {
  auth_request_id : string;
  email_sent : bool;
  init_expires_in : Z;
  poll_interval : Z
}.

Module Authorize.

Definition hex2 (b : N) : string :=
  String (Json.hex_digit (N.shiftr b 4))
    (String (Json.hex_digit (N.land b 15)) EmptyString).

(** [generateId()]: sixteen random bytes in hexadecimal. *)
Definition generateId (entropy : list N) : string :=
  Str.join "" (List.map hex2 (Jwt.getRandomValues 16 entropy)).

(** [initAuthorization].  [mail] is the outcome of the notification
    sender, [e1] and [e2] the entropy of the two identifiers. *)
Definition initAuthorization (request : AuthRequest) (e1 e2 : list N)
           (mail : result unit) (now : Z) : M InitResponse :=
  let authRequestId := generateId e1 in
  let expiresAt := (now + 10 * 60 * 1000)%Z in
  let authRequestData :=
    mkStored authRequestId (req_email request) None
             (req_client_id request) (req_client_name request)
             (req_scopes request) (req_code_challenge request)
             pending None now expiresAt in
  _ ← Store.put_request authRequestId authRequestData 600 now;
  let magicToken := generateId e2 in
  _ ← Store.put_magic magicToken authRequestId 600 now;
  _ ← lift mail;
  mret (mkInit authRequestId true 600 2).

Definition pollAuthorization (authRequestId clientId : string) (now : Z)
  : M PollResponse :=
  data ← Store.get_request authRequestId;
  match data with
  | None => mret (mkPoll poll_expired None None)
  | Some authRequest =>
      if negb (String.eqb (client_id authRequest) clientId)
      then throw (Error "Invalid client_id")
      else if (expires_at authRequest <? now)%Z
      then mret (mkPoll poll_expired None None)
      else
        match status authRequest, code authRequest with
        | authorized, Some c =>
            if Str.truthy c then mret (mkPoll poll_authorized (Some c) None)
            else mret (mkPoll poll_pending None
                         (Some ((expires_at authRequest - now) / 1000)%Z))
        | denied, _ => mret (mkPoll poll_denied None None)
        | _, _ =>
            mret (mkPoll poll_pending None
                    (Some ((expires_at authRequest - now) / 1000)%Z))
        end
  end.

Definition set_denied (r : AuthRequestStored) : AuthRequestStored :=
  mkStored (id r) (email r) (customer_id r) (client_id r) (client_name r)
           (scopes r) (code_challenge r) denied (code r)
           (created_at r) (expires_at r).

Definition set_authorized (authCode customerId : string)
           (r : AuthRequestStored) : AuthRequestStored :=
  mkStored (id r) (email r) (Some customerId) (client_id r) (client_name r)
           (scopes r) (code_challenge r) authorized (Some authCode)
           (created_at r) (expires_at r).

Definition deny {A} (authRequestId : string) (authRequest : AuthRequestStored)
           (now : Z) : M A :=
  _ ← Store.put_request authRequestId (set_denied authRequest) 600 now;
  throw (Error "Customer not found in merchant system").

Section WithDirectory.
Context `{Directory}.

Definition confirmAuthorization (magicToken : string) (entropy : list N)
           (now : Z) : M unit :=
  authRequestId ← Store.get_magic magicToken;
  match authRequestId with
  | None => throw (Error "Invalid or expired magic link")
  | Some authRequestId =>
      if negb (Str.truthy authRequestId)
      then throw (Error "Invalid or expired magic link")
      else
        data ← Store.get_request authRequestId;
        match data with
        | None => throw (Error "Authorization request expired")
        | Some authRequest =>
            match verifyEmail (email authRequest) with
            | Err _ => deny authRequestId authRequest now
            | Ok verification =>
                match v_exists verification, v_customerId verification with
                | true, Some customerId =>
                    if negb (Str.truthy customerId)
                    then deny authRequestId authRequest now
                    else
                      let authCode := generateId entropy in
                      _ ← Store.insert_auth_code
                            (mkAuthCode authCode (email authRequest)
                               customerId (client_id authRequest)
                               (scopes authRequest)
                               (code_challenge authRequest)
                               (now + 5 * 60 * 1000)%Z false now);
                      _ ← Store.put_request authRequestId
                            (set_authorized authCode customerId authRequest)
                            600 now;
                      Store.delete_magic magicToken
                | _, _ => deny authRequestId authRequest now
                end
            end
        end
  end.
End WithDirectory.

End Authorize.

(** ** Token endpoint (token.ts) *)

Record TokenResponse : Type := mkTokens {
  access_token : string;
  refresh_token : string;
  token_type : string;
  expires_in : Z;
  scope : string;
  tr_customer_id : option string;
  tr_email : option string
}.

Module Token.

Definition exchangeCodeForTokens (code codeVerifier clientId : string)
           (entropy : list N) (now : Z) : M TokenResponse :=
  result ← Store.first_unused_auth_code code;
  match result with
  | None => throw (Error "Invalid or used authorization code")
  | Some result =>
      if (ac_expires_at result <? now)%Z
      then throw (Error "Authorization code expired")
      else if negb (String.eqb (ac_client_id result) clientId)
      then throw (Error "Invalid client_id")
      else if negb (Jwt.verifyPKCE codeVerifier (ac_code_challenge result))
      then throw (Error "Invalid code_verifier")
      else
        _ ← Store.mark_used code;
        let scopes := ac_scopes result in
        secret ← Store.secret;
        accessToken ← lift (Jwt.generateAccessToken
                              (ac_cordial_contact_id result)
                              (ac_customer_email result) scopes secret now);
        let refreshToken := Jwt.generateRefreshToken entropy in
        _ ← Store.insert_refresh_token
              (mkRefreshToken refreshToken (ac_customer_email result)
                 (ac_cordial_contact_id result) clientId (ac_scopes result)
                 (now + 30 * 24 * 60 * 60 * 1000)%Z now None);
        mret (mkTokens accessToken refreshToken "Bearer" 3600
                (Str.join " " scopes)
                (Some (ac_cordial_contact_id result))
                (Some (ac_customer_email result)))
  end.

Definition refreshAccessToken (refreshToken clientId : string)
           (entropy : list N) (now : Z) : M TokenResponse :=
  result ← Store.first_refresh_token refreshToken;
  match result with
  | None => throw (Error "Invalid refresh token")
  | Some result =>
      if (rt_expires_at result <? now)%Z
      then throw (Error "Refresh token expired")
      else if negb (String.eqb (rt_client_id result) clientId)
      then throw (Error "Invalid client_id")
      else
        let scopes := rt_scopes result in
        secret ← Store.secret;
        newAccessToken ← lift (Jwt.generateAccessToken
                                 (rt_cordial_contact_id result)
                                 (rt_customer_email result) scopes secret now);
        let newRefreshToken := Jwt.generateRefreshToken entropy in
        _ ← Store.rotate_refresh_token newRefreshToken now refreshToken;
        mret (mkTokens newAccessToken newRefreshToken "Bearer" 3600
                (Str.join " " scopes) None None)
  end.

Definition revokeToken (token : string) : M unit :=
  Store.delete_refresh_token token.

End Token.

(** ** The token route of the worker (index.ts, [POST /v1/token]) *)

Inductive TokenReply : Type :=
| TokenJson (r : TokenResponse)
| TokenFailure (http_status : Z) (error error_description : string).

Record TokenBody : Type := mkBody {
  grant_type : string;
  body_code : string;
  body_code_verifier : string;
  body_client_id : string;
  body_refresh_token : string
}.

Definition post_token (body : TokenBody) (entropy : list N) (now : Z)
           (env : Env) : TokenReply * Env :=
  let run (m : M TokenResponse) :=
    match m env with
    | (Ok r, env') => (TokenJson r, env')
    | (Err e, env') => (TokenFailure 400 "invalid_grant" (err_message e), env')
    end in
  if String.eqb (grant_type body) "authorization_code" then
    run (Token.exchangeCodeForTokens (body_code body) (body_code_verifier body)
           (body_client_id body) entropy now)
  else if String.eqb (grant_type body) "refresh_token" then
    run (Token.refreshAccessToken (body_refresh_token body)
           (body_client_id body) entropy now)
  else
    (TokenFailure 400 "unsupported_grant_type"
       (String.append "Grant type '"
          (String.append (grant_type body) "' not supported")), env).

(** ** The intent log (mock-data/customer.ts) and its fold (handler.ts) *)

Record ActivityData : Type := mkData {
  d_intent_id : option string;
  d_status : option string;
  d_source : option string;
  d_base_intent : option string;
  d_mechanism : option string;
  d_ai_assistant : option string;
  d_ai_session_id : option string;
  d_expires_at : option string;
  d_context : option json;
  d_visibility : option string;
  d_shared_with : option (list string);
  d_milestone : option json
}.

Record Activity : Type := mkActivity {
  action : string;
  timestamp : string;
  data : option ActivityData
}.

Record Milestone : Type := mkMilestone {
  m_timestamp : string;
  m_event : string;
  m_details : option ActivityData;
  m_source : string
}.

Record SCPIntent : Type := mkIntent {
  i_intent_id : string;
  i_customer_id : string;
  i_base_intent : string;
  i_mechanism : string;
  i_ai_assistant : option string;
  i_ai_session_id : option string;
  i_created_at : string;
  i_updated_at : string;
  i_expires_at : option string;
  i_status : string;
  i_context : json;
  i_visibility : string;
  i_shared_with : option (list string);
  i_milestones : list Milestone
}.

Module IntentLog.

(** [MOCK_INTENTS]: the activity log of each customer. *)
Definition createIntent (customerId : string) (intentData : ActivityData)
           (now_iso : string) (log : gmap string (list Activity))
  : gmap string (list Activity) :=
  let intents := default [] (log !! customerId) in
  <[customerId :=
      intents ++
      [mkActivity "scp_intent_created" now_iso
         (Some (mkData (d_intent_id intentData) (Some "created")
                  (Some "ai_assistant") (d_base_intent intentData)
                  (d_mechanism intentData) (d_ai_assistant intentData)
                  (d_ai_session_id intentData) (d_expires_at intentData)
                  (d_context intentData) (d_visibility intentData)
                  None None))]]> log.

Definition updateIntent (customerId : string) (intentId : option string)
           (upd_status : option string) (upd_milestone upd_context : option json)
           (now_iso : string) (log : gmap string (list Activity))
  : gmap string (list Activity) :=
  let intents := default [] (log !! customerId) in
  <[customerId :=
      intents ++
      [mkActivity "scp_intent_updated" now_iso
         (Some (mkData intentId upd_status (Some "ai_assistant")
                  None None None None None upd_context None None
                  upd_milestone))]]> log.

Definition getIntents (customerId : string) (log : gmap string (list Activity))
  : list Activity :=
  default [] (log !! customerId).

End IntentLog.

Module Intents.

(** A [Map] keyed by strings, in insertion order: [set] on a present key
    keeps its place. *)
Section OrderedMap.
Context {V : Type}.

Fixpoint map_set (k : string) (v : V) (m : list (string * V))
  : list (string * V) :=
  match m with
  | [] => [(k, v)]
  | (k', v') :: rest =>
      if String.eqb k' k then (k, v) :: rest
      else (k', v') :: map_set k v rest
  end.

Fixpoint map_get (k : string) (m : list (string * V)) : option V :=
  match m with
  | [] => None
  | (k', v') :: rest => if String.eqb k' k then Some v' else map_get k rest
  end.

Definition map_has (k : string) (m : list (string * V)) : bool :=
  match map_get k m with Some _ => true | None => false end.

(** [m.get(k)!.f()] for an in-place change of the value. *)
Fixpoint map_alter (f : V -> V) (k : string) (m : list (string * V))
  : list (string * V) :=
  match m with
  | [] => []
  | (k', v') :: rest =>
      if String.eqb k' k then (k', f v') :: rest
      else (k', v') :: map_alter f k rest
  end.
End OrderedMap.

Record Group : Type := mkGroup {
  created : Activity;
  updates : list Activity
}.

(** [activity.data?.intent_id], [undefined] being [None]. *)
Definition intent_id_of (activity : Activity) : option string :=
  match data activity with
  | Some d => d_intent_id d
  | None => None
  end.

Definition truthy_string (s : option string) : bool :=
  match s with Some s => Str.truthy s | None => false end.

(** [a || b] on optional strings. *)
Definition or_else (s : option string) (dflt : string) : string :=
  match s with
  | Some s => if Str.truthy s then s else dflt
  | None => dflt
  end.

(** The body of the first loop. *)
Definition group_step (intentMap : list (string * Group)) (activity : Activity)
  : list (string * Group) :=
  match intent_id_of activity with
  | Some intentId =>
      if negb (Str.truthy intentId) then intentMap
      else if String.eqb (action activity) "scp_intent_created"
      then map_set intentId (mkGroup activity []) intentMap
      else if map_has intentId intentMap
      then map_alter (fun g => mkGroup (created g) (updates g ++ [activity]))
                     intentId intentMap
      else intentMap
  | None => intentMap
  end.

(** A field of [a.data], which the first loop has checked to be
    there. *)
Definition field {A} (f : ActivityData -> option A) (a : Activity) : option A :=
  match data a with
  | Some d => f d
  | None => None
  end.

(** The loop that finds the latest status. *)
Definition status_step (acc : string * string) (update : Activity)
  : string * string :=
  match field d_status update with
  | Some s => if Str.truthy s then (s, timestamp update) else acc
  | None => acc
  end.

Definition latest_status (created : Activity) (updates : list Activity)
  : string * string :=
  fold_left status_step updates ("created", timestamp created).

Definition intent_of (customerId intentId : string) (g : Group) : SCPIntent :=
  let created := created g in
  let milestones :=
    mkMilestone (timestamp created) "created" (data created)
                (or_else (field d_source created) "merchant")
    :: List.map (fun update =>
         mkMilestone (timestamp update)
                     (Str.replace_first "scp_intent_" "" (action update))
                     (data update)
                     (or_else (field d_source update) "merchant"))
         (updates g) in
  let (status, updatedAt) := latest_status created (updates g) in
  mkIntent intentId customerId
           (or_else (field d_base_intent created) "")
           (or_else (field d_mechanism created) "conversational_ai")
           (field d_ai_assistant created)
           (field d_ai_session_id created)
           (timestamp created) updatedAt
           (field d_expires_at created)
           status
           (match field d_context created with
            | Some c => if Js.truthy (Some c) then c else JObj []
            | None => JObj []
            end)
           (or_else (field d_visibility created) "merchant_only")
           (field d_shared_with created)
           milestones.

Definition group (activities : list Activity) : list (string * Group) :=
  fold_left group_step activities [].

Definition transformIntentsToSCP (customerId : string)
           (activities : list Activity) : list SCPIntent :=
  List.map (fun kv => intent_of customerId (fst kv) (snd kv))
           (group activities).

End Intents.

(** ** The RPC dispatcher (handler.ts) *)

Record JSONRPCRequest : Type := mkRequest {
  rpc_id : json;
  rpc_method : string;
  rpc_params : option json
}.

Record RpcErrorBody : Type := mkRpcError {
  rpc_code : Z;
  rpc_message : string;
  rpc_data : option json
}.

Inductive JSONRPCResponse : Type :=
| RpcResult (id : json) (result : json)
| RpcFailure (id : json) (error : RpcErrorBody).

Module Rpc.

Definition createError (code : Z) (message : string) : JsError :=
  mkError message (Some code) None.

Definition getErrorCode (error : JsError) : Z :=
  match err_code error with
  | Some c => if negb (c =? 0)%Z then c
              else if Str.includes "expired" (err_message error) then (-32000)%Z
              else if Str.includes "Invalid" (err_message error) then (-32000)%Z
              else (-32603)%Z
  | None =>
      if Str.includes "expired" (err_message error) then (-32000)%Z
      else if Str.includes "Invalid" (err_message error) then (-32000)%Z
      else (-32603)%Z
  end.

(** [scopes.includes(required)] on whatever the token carries under
    [scopes]. *)
Definition includes (scopes : option json) (required : string) : result bool :=
  match scopes with
  | Some (JArr items) =>
      Ok (existsb (fun x => match x with
                            | JStr s => String.eqb s required
                            | _ => false
                            end) items)
  | Some (JStr s) => Ok (Str.includes required s)
  | None | Some JNull =>
      Err (HostError "TypeError: Cannot read properties of undefined")
  | Some _ => Err (HostError "TypeError: scopes.includes is not a function")
  end.

Definition checkScope (scopes : option json) (required : string) : result unit :=
  granted ← includes scopes required;
  if negb granted
  then Err (createError (-32001)
              (String.append "Forbidden: missing scope '"
                 (String.append required "'")))
  else Ok tt.

Section Dispatch.
(** The data operations work on a world [W] of their own (customer
    data, the intent log); each may change it and may throw. *)
Context {W : Type}.

Record Handlers : Type := mkHandlers {
  getOrders : option json -> json -> W -> result json * W;
  getLoyalty : option json -> W -> result json * W;
  getOffers : option json -> json -> W -> result json * W;
  getPreferences : option json -> W -> result json * W;
  createIntent : option json -> json -> W -> result json * W;
  getIntentsMethod : option json -> json -> W -> result json * W;
  updateIntent : option json -> json -> W -> result json * W;
  fulfillIntent : option json -> json -> W -> result json * W
}.

Variable h : Handlers.

Definition guarded (scopes : option json) (required : string)
           (run : W -> result json * W) (w : W) : result json * W :=
  match checkScope scopes required with
  | Ok _ => run w
  | Err e => (Err e, w)
  end.

Definition routeMethod (method : string) (params : json)
           (customerId scopes : option json) (w : W) : result json * W :=
  if String.eqb method "scp.get_orders" then
    guarded scopes "orders" (getOrders h customerId params) w
  else if String.eqb method "scp.get_loyalty" then
    guarded scopes "loyalty" (getLoyalty h customerId) w
  else if String.eqb method "scp.get_offers" then
    guarded scopes "offers" (getOffers h customerId params) w
  else if String.eqb method "scp.get_preferences" then
    guarded scopes "preferences" (getPreferences h customerId) w
  else if String.eqb method "scp.create_intent" then
    guarded scopes "intent:create" (createIntent h customerId params) w
  else if String.eqb method "scp.get_intents" then
    guarded scopes "intent:read" (getIntentsMethod h customerId params) w
  else if String.eqb method "scp.update_intent" then
    guarded scopes "intent:write" (updateIntent h customerId params) w
  else if String.eqb method "scp.fulfill_intent" then
    guarded scopes "intent:write" (fulfillIntent h customerId params) w
  else (Err (createError (-32601) "Method not found"), w).

Definition failure (request : JSONRPCRequest) (error : JsError)
  : JSONRPCResponse :=
  RpcFailure (rpc_id request)
    (mkRpcError (getErrorCode error) (err_message error) (err_data error)).

(** The body of the [try] block once the token is verified. *)
Definition serve (request : JSONRPCRequest) (tokenPayload : json) (w : W)
  : JSONRPCResponse * W :=
  match get_property "sub" tokenPayload,
        get_property "scopes" tokenPayload with
  | Ok customerId, Ok scopes =>
      let params := match rpc_params request with
                    | Some p => if Js.truthy (Some p) then p else JObj []
                    | None => JObj []
                    end in
      match routeMethod (rpc_method request) params customerId scopes w with
      | (Ok result, w') => (RpcResult (rpc_id request) result, w')
      | (Err e, w') => (failure request e, w')
      end
  | Err e, _ | _, Err e => (failure request e, w)
  end.

Definition handleRPCRequest (request : JSONRPCRequest)
           (accessToken secret : string) (now : Z) (w : W)
  : JSONRPCResponse * W :=
  match Jwt.verifyAccessToken accessToken secret now with
  | Err e => (failure request e, w)
  | Ok tokenPayload => serve request tokenPayload w
  end.

End Dispatch.

End Rpc.

(** ** The data methods (handler.ts, [getIntentsMethod], [getOrders] and
    the methods that write intents)

    The parameters of a request are a JSON value; numbers are integers,
    on which the arithmetic of the host language is exact below 2^53. *)

Record Pagination : Type := mkPagination {
  pg_total : nat;
  pg_limit : json;
  pg_offset : json;
  pg_has_more : bool
}.

Record IntentsPage : Type := mkIntentsPage {
  page_intents : list SCPIntent;
  page_pagination : Pagination
}.

Record OrdersPage (ScpOrder : Type) : Type := mkOrdersPage {
  page_orders : list ScpOrder;
  orders_pagination : Pagination
}.
Arguments mkOrdersPage {ScpOrder} page_orders orders_pagination.
Arguments page_orders {ScpOrder} o.
Arguments orders_pagination {ScpOrder} o.

(** The parameters of the methods that write intents, each field typed
    as [customer.ts] types what it stores; a field left out is [None]. *)
Record CreateParams : Type := mkCreateParams {
  cp_intent_id : option string;
  cp_base_intent : option string;
  cp_mechanism : option string;
  cp_ai_assistant : option string;
  cp_ai_session_id : option string;
  cp_context : option json;
  cp_visibility : option string;
  cp_expires_at : option string
}.

Record UpdateParams : Type := mkUpdateParams {
  up_intent_id : option string;
  up_status : option string;
  up_add_milestone : option json;
  up_context : option json
}.

Record FulfillParams : Type := mkFulfillParams {
  fp_intent_id : option string;
  fp_fulfillment_type : option json;
  fp_order_ids : option json;
  fp_notes : option json
}.

Record CreateReply : Type := mkCreateReply {
  cr_intent_id : string;
  cr_customer_id : string;
  cr_created_at : string;
  cr_status : string
}.

Record UpdateReply : Type := mkUpdateReply {
  ur_intent_id : option string;
  ur_updated_at : string;
  ur_status : string
}.

Record FulfillReply : Type := mkFulfillReply {
  fr_intent_id : option string;
  fr_status : string;
  fr_fulfilled_at : string
}.

Module Methods.

(** [params.k] on the parameters of a request, which are never [null]. *)
Definition param (k : string) (params : json) : option json :=
  match params with
  | JObj fields => Js.lookup_field k fields
  | _ => None
  end.

(** [v || d]. *)
Definition or_default (v : option json) (d : json) : json :=
  match v with
  | Some x => if Js.truthy v then x else d
  | None => d
  end.

(** [ToIntegerOrInfinity(v)] for an index: [NaN] counts as zero. *)
Definition to_index (v : json) : Z :=
  match Js.to_number v with Some n => n | None => 0%Z end.

(** A value that [ToPrimitive] leaves a number, a boolean or [null]. *)
Definition is_numeric (v : json) : bool :=
  match v with
  | JNum _ | JBool _ | JNull => true
  | _ => false
  end.

(** [a + b]: the sum of two numbers, the concatenation when either side
    is a string, an array or an object. *)
Definition add (a b : json) : json :=
  if is_numeric a && is_numeric b then JNum (to_index a + to_index b)
  else JStr (String.append (Js.to_string a) (Js.to_string b)).

(** The position an index of [slice] stands for in a list of [len]
    elements: a negative index counts from the end. *)
Definition relative (k : Z) (len : nat) : nat :=
  if (k <? 0)%Z then Z.to_nat (Z.max (Z.of_nat len + k) 0)
  else Nat.min (Z.to_nat k) len.

(** [l.slice(start, end)]. *)
Definition slice {A} (start end_ : Z) (l : list A) : list A :=
  let from := relative start (List.length l) in
  let final := relative end_ (List.length l) in
  firstn (final - from) (skipn from l).

(** [statusArray.includes(status)] for a string [status]. *)
Definition status_in (statusArray : list json) (status : string) : bool :=
  existsb (fun x => match x with
                    | JStr s => String.eqb s status
                    | _ => false
                    end) statusArray.

Definition getIntentsMethod (customerId : string) (params : json)
           (log : gmap string (list Activity)) : IntentsPage :=
  let activities := IntentLog.getIntents customerId log in
  let intents := Intents.transformIntentsToSCP customerId activities in
  let filtered :=
    match param "status" params with
    | Some st =>
        if Js.truthy (Some st) then
          let statusArray := match st with JArr items => items | _ => [st] end in
          List.filter (fun i => status_in statusArray (i_status i)) intents
        else intents
    | None => intents
    end in
  let limit := or_default (param "limit" params) (JNum 10) in
  mkIntentsPage
    (slice 0 (to_index limit) filtered)
    (mkPagination (List.length filtered) limit
       (or_default (param "offset" params) (JNum 0))
       (Js.lt_number limit (Z.of_nat (List.length filtered)))).

Section Orders.
Context {MockOrder ScpOrder : Type}.

(** [to_scp] is the object the [map] callback builds from an order;
    [mockOrders] is what [getMockOrders] (of mock-data/orders.ts)
    returned for the address of the customer, or for the address of the
    demo when there is no customer. *)
Variable to_scp : MockOrder -> ScpOrder.

Definition getOrders (customerId : string) (params : json)
           (mockOrders : list MockOrder)
  : result (OrdersPage ScpOrder) :=
  _ ← MockCustomer.getCustomerById customerId;
  let offset := or_default (param "offset" params) (JNum 0) in
  let limit := or_default (param "limit" params) (JNum 25) in
  let paginatedOrders :=
    slice (to_index offset) (to_index (add offset limit)) mockOrders in
  let scpOrders := List.map to_scp paginatedOrders in
  Ok (mkOrdersPage scpOrders
        (mkPagination (List.length mockOrders) limit offset
           (Js.lt_number (add offset (JNum (Z.of_nat (List.length scpOrders))))
              (Z.of_nat (List.length mockOrders))))).
End Orders.

(** [now_ms] is [Date.now()], [random] the nine characters cut out of
    [Math.random().toString(36)]. *)
Definition generateIntentId (now_ms : Z) (random : string) : string :=
  String.append "intent_"
    (String.append (Json.string_of_Z now_ms) (String.append "_" random)).

(** A key of an object literal, left out of the model when its value is
    [undefined]. *)
Definition key (k : string) (v : option json) : list (string * json) :=
  match v with Some x => [(k, x)] | None => [] end.

(** [stored_at] is the clock read by the store, [replied_at] the clock
    read for the reply. *)
Definition createIntent (customerId : string) (params : CreateParams)
           (now_ms : Z) (random stored_at replied_at : string)
           (log : gmap string (list Activity))
  : CreateReply * gmap string (list Activity) :=
  let intentId :=
    match cp_intent_id params with
    | Some s => if Str.truthy s then s else generateIntentId now_ms random
    | None => generateIntentId now_ms random
    end in
  let log' :=
    IntentLog.createIntent customerId
      (mkData (Some intentId) None None (cp_base_intent params)
         (Some (Intents.or_else (cp_mechanism params) "conversational_ai"))
         (cp_ai_assistant params) (cp_ai_session_id params)
         (cp_expires_at params)
         (Some (or_default (cp_context params) (JObj [])))
         (Some (Intents.or_else (cp_visibility params) "merchant_only"))
         None None)
      stored_at log in
  (mkCreateReply intentId customerId replied_at "created", log').

Definition updateIntent (customerId : string) (params : UpdateParams)
           (stored_at replied_at : string) (log : gmap string (list Activity))
  : UpdateReply * gmap string (list Activity) :=
  let log' :=
    IntentLog.updateIntent customerId (up_intent_id params) (up_status params)
      (up_add_milestone params) (up_context params) stored_at log in
  (mkUpdateReply (up_intent_id params) replied_at
     (Intents.or_else (up_status params) "active"), log').

Definition fulfillIntent (customerId : string) (params : FulfillParams)
           (stored_at replied_at : string) (log : gmap string (list Activity))
  : FulfillReply * gmap string (list Activity) :=
  let log' :=
    IntentLog.updateIntent customerId (fp_intent_id params) (Some "fulfilled")
      None
      (Some (JObj (("fulfillment_type",
                    or_default (fp_fulfillment_type params)
                      (JStr "purchase"))
                   :: key "order_ids" (fp_order_ids params)
                   ++ key "notes" (fp_notes params))))
      stored_at log in
  (mkFulfillReply (fp_intent_id params) "fulfilled" replied_at, log').

End Methods.

(** * Properties

    ** Vocabulary *)

(** The routing table of [routeMethod]: each dispatched method with the
    scope it asks for. *)
Definition dispatched : list (string * string) :=
  [("scp.get_orders", "orders");
   ("scp.get_loyalty", "loyalty");
   ("scp.get_offers", "offers");
   ("scp.get_preferences", "preferences");
   ("scp.create_intent", "intent:create");
   ("scp.get_intents", "intent:read");
   ("scp.update_intent", "intent:write");
   ("scp.fulfill_intent", "intent:write")].

(** The three parts of a compact token put together, the third being the
    signature of the first two: what [createJWT] does once header and
    payload are encoded. *)
Definition assemble (encodedHeader encodedPayload secret : string)
  : result string :=
  signature ← Jwt.sign (Jwt.signing_input encodedHeader encodedPayload) secret;
  Ok (String.append (Jwt.signing_input encodedHeader encodedPayload)
        (String.append "." signature)).

(** The JSON value a base64url part encodes. *)
Definition decoded (part : string) : option json :=
  match Base64.base64urlDecode part with
  | Some text => Json.parse text
  | None => None
  end.

(** The algorithm a token's header declares. *)
Definition declared_alg (token : string) : option string :=
  match Str.split_on "."%char token with
  | encodedHeader :: _ =>
      match decoded encodedHeader with
      | Some (JObj fields) =>
          match Js.lookup_field "alg" fields with
          | Some (JStr alg) => Some alg
          | _ => None
          end
      | _ => None
      end
  | [] => None
  end.

(** The [exp] claim of a token's payload. *)
Definition declared_exp (token : string) : option json :=
  match Str.split_on "."%char token with
  | [_; encodedPayload; _] =>
      match decoded encodedPayload with
      | Some (JObj fields) => Js.lookup_field "exp" fields
      | _ => None
      end
  | _ => None
  end.

Fixpoint dot_free (s : string) : bool :=
  match s with
  | EmptyString => true
  | String c s' => negb (Ascii.eqb c "."%char) && dot_free s'
  end.

(** The activities of a log that name intent [x]. *)
Definition about (x : string) (activity : Activity) : bool :=
  match Intents.intent_id_of activity with
  | Some i => String.eqb i x
  | None => false
  end.

(** The state machine of the whole service: one request to one endpoint
    at a time. *)
Inductive Call : Type :=
| CallInit (request : AuthRequest) (e1 e2 : list N) (mail : result unit)
| CallPoll (authRequestId clientId : string)
| CallConfirm (magicToken : string) (entropy : list N)
| CallToken (body : TokenBody) (entropy : list N)
| CallRevoke (token : string)
| StoreEvicts.

Definition step `{Directory} (c : Call) (now : Z) (env : Env) : Env :=
  match c with
  | CallInit request e1 e2 mail =>
      snd (Authorize.initAuthorization request e1 e2 mail now env)
  | CallPoll authRequestId clientId =>
      snd (Authorize.pollAuthorization authRequestId clientId now env)
  | CallConfirm magicToken entropy =>
      snd (Authorize.confirmAuthorization magicToken entropy now env)
  | CallToken body entropy => snd (post_token body entropy now env)
  | CallRevoke token => snd (Token.revokeToken token env)
  | StoreEvicts =>
      mkEnv (Kv.evict now (AUTH_REQUESTS env))
            (Kv.evict now (MAGIC_LINK_TOKENS env))
            (DB_auth_codes env) (DB_refresh_tokens env) (JWT_SECRET env)
  end.

Fixpoint run `{Directory} (calls : list (Call * Z)) (env : Env) : Env :=
  match calls with
  | [] => env
  | (c, now) :: rest => run rest (step c now env)
  end.

(** The property as the design document words it for the magic link:
    whatever the first confirmation of a token does, the request ends
    authorized with a non-empty code, the mapping is gone, and a second
    confirmation fails on the link and changes nothing. *)
Definition confirm_once_claim : Prop :=
  forall (D : Directory) env token rid e1 now1 e2 now2,
    Kv.get token (MAGIC_LINK_TOKENS env) = Some rid ->
    let env1 := snd (Authorize.confirmAuthorization token e1 now1 env) in
    (exists stored c,
        Kv.get rid (AUTH_REQUESTS env1) = Some stored /\
        status stored = authorized /\
        code stored = Some c /\ c <> "") /\
    Kv.get token (MAGIC_LINK_TOKENS env1) = None /\
    Authorize.confirmAuthorization token e2 now2 env1
    = (Err (Error "Invalid or expired magic link"), env1).

(** The property as the design document words it for expiry: every read
    of an artifact whose recorded expiry has passed rejects it, whether or
    not the store still returns the record. *)
Definition expiry_compared_on_every_read_claim : Prop :=
  (forall env rid client now stored,
      Kv.get rid (AUTH_REQUESTS env) = Some stored ->
      (expires_at stored < now)%Z ->
      fst (Authorize.pollAuthorization rid client now env)
      = Ok (mkPoll poll_expired None None)) /\
  (forall (D : Directory) env token rid stored entropy now,
      Kv.get token (MAGIC_LINK_TOKENS env) = Some rid ->
      Kv.get rid (AUTH_REQUESTS env) = Some stored ->
      (expires_at stored < now)%Z ->
      is_ok (fst (Authorize.confirmAuthorization token entropy now env)) = false) /\
  (forall env code v c entropy now row,
      Db.first_unused_auth_code code (DB_auth_codes env) = Some row ->
      (ac_expires_at row < now)%Z ->
      fst (Token.exchangeCodeForTokens code v c entropy now env)
      = Err (Error "Authorization code expired")) /\
  (forall env tok c entropy now row,
      Db.first_refresh_token tok (DB_refresh_tokens env) = Some row ->
      (rt_expires_at row < now)%Z ->
      fst (Token.refreshAccessToken tok c entropy now env)
      = Err (Error "Refresh token expired")) /\
  (forall token secret now exp,
      declared_exp token = Some (JNum exp) ->
      (exp < Jwt.seconds now)%Z ->
      is_ok (Jwt.verifyJWT token secret now) = false).

(** The error body [checkScope] has the dispatcher answer with. *)
Definition missing_scope (required : string) : RpcErrorBody :=
  mkRpcError (-32001)
    (String.append "Forbidden: missing scope '" (String.append required "'"))
    None.

(** Handlers that count their invocations in the world. *)
Definition counting : @Rpc.Handlers nat :=
  Rpc.mkHandlers
    (fun _ _ n => (Ok JNull, S n)) (fun _ n => (Ok JNull, S n))
    (fun _ _ n => (Ok JNull, S n)) (fun _ n => (Ok JNull, S n))
    (fun _ _ n => (Ok JNull, S n)) (fun _ _ n => (Ok JNull, S n))
    (fun _ _ n => (Ok JNull, S n)) (fun _ _ n => (Ok JNull, S n)).

(** [updated] is what rotation to [new] at [now] makes of [old], the row
    found under [tok]: the same row but for its token and [last_used];
    any other row is left as it is. *)
Definition rotated (tok new : string) (now : Z) (old updated : RefreshTokenRow)
  : Prop :=
  rt_customer_email updated = rt_customer_email old /\
  rt_cordial_contact_id updated = rt_cordial_contact_id old /\
  rt_client_id updated = rt_client_id old /\
  rt_scopes updated = rt_scopes old /\
  rt_expires_at updated = rt_expires_at old /\
  rt_created_at updated = rt_created_at old /\
  (rt_token old = tok ->
   rt_token updated = new /\ rt_last_used updated = Some now) /\
  (rt_token old <> tok -> updated = old).

(** The property as the design document words it for rotation: every
    successful refresh rewrites the table in place, and afterwards the
    presented value resolves to no row, so that a later refresh with it
    is refused with [invalid_grant]. *)
Definition refresh_rotation_claim : Prop :=
  forall tok c e now env r env1 c' e' now' code' v',
    Token.refreshAccessToken tok c e now env = (Ok r, env1) ->
    Forall2 (rotated tok (refresh_token r) now)
            (DB_refresh_tokens env) (DB_refresh_tokens env1) /\
    List.length (DB_refresh_tokens env1) = List.length (DB_refresh_tokens env) /\
    Db.first_refresh_token tok (DB_refresh_tokens env1) = None /\
    Token.refreshAccessToken tok c' e' now' env1
    = (Err (Error "Invalid refresh token"), env1) /\
    post_token (mkBody "refresh_token" code' v' c' tok) e' now' env1
    = (TokenFailure 400 "invalid_grant" "Invalid refresh token", env1).

(** The property as the design document words it for the algorithm: a
    token whose header declares anything but HS256 is rejected. *)
Definition other_alg_rejected_claim : Prop :=
  forall token secret now alg,
    declared_alg token = Some alg ->
    alg <> "HS256" ->
    is_ok (Jwt.verifyJWT token secret now) = false.

(** The property as the design document words it for expired tokens:
    the expiry error comes whatever the signature. *)
Definition expired_whatever_the_signature_claim : Prop :=
  forall token secret now exp,
    declared_exp token = Some (JNum exp) ->
    (exp < Jwt.seconds now)%Z ->
    Jwt.verifyJWT token secret now = Err (Error "JWT expired").

(** What one activity does to the group of intent [x]. *)
Definition entry_step (x : string) (g : option Intents.Group) (a : Activity)
  : option Intents.Group :=
  if about x a && Str.truthy x then
    if String.eqb (action a) "scp_intent_created"
    then Some (Intents.mkGroup a [])
    else match g with
         | Some g => Some (Intents.mkGroup (Intents.created g)
                             (Intents.updates g ++ [a]))
         | None => None
         end
  else g.

Definition keys {V} (m : list (string * V)) : list string := List.map fst m.

(** A code is spent in a table when a row carries it and every row that
    carries it is used. *)
Definition spent (c : string) (t : list AuthCodeRow) : Prop :=
  existsb (fun r => String.eqb (ac_code r) c) t = true /\
  Db.first_unused_auth_code c t = None.

(** Bytes in hexadecimal. *)
Definition hex (bytes : list N) : string :=
  Str.join "" (List.map Authorize.hex2 bytes).

(** ** A run of the service, used to exercise the properties

    A client asks for the [orders] scope for [a@example.com] with the PKCE
    pair of RFC 7636 (appendix B); the link is followed one second later,
    the code exchanged and the refresh token used once. *)

Module Scenario.

Definition secret : string := "local-test-secret-change-in-production-12345".
Definition verifier : string := "dBjftJeZ4CVP-mB92K27uhbUJU1p1r_wW1gFWFOEjXk".
Definition challenge : string := "E9Melhoa2OwvFrEMTJguCHaoeK1t8URWbuGJSstw-cM".
Definition t0 : Z := 1700000000000.

Definition request (email : string) : AuthRequest :=
  mkAuthRequest email "client-1" "Assistant" ["orders"] challenge "S256"
                "" "" "shop.example.com".

Definition request_id : string := "01000000000000000000000000000000".
Definition magic_token : string := "02000000000000000000000000000000".
Definition auth_code : string := "03000000000000000000000000000000".
Definition refresh_1 : string := "BQAAAAAAAAAAAAAAAAAAAAAAAAAAAAAAAAAAAAAAAAA".

Definition empty : Env := mkEnv ∅ ∅ [] [] secret.

Definition after_init (email : string) : Env :=
  snd (Authorize.initAuthorization (request email) [1%N] [2%N] (Ok tt) t0 empty).

Definition stored_request (email : string) : AuthRequestStored :=
  mkStored request_id email None "client-1" "Assistant" ["orders"]
           challenge pending None t0 (t0 + 600000).

Definition after_confirm : Env :=
  snd (@Authorize.confirmAuthorization MockCustomer.directory
         magic_token [3%N] (t0 + 1000) (after_init "a@example.com")).

Definition no_tokens : TokenResponse :=
  mkTokens "" "" "" 0 "" None None.

Definition issued (out : result TokenResponse * Env) : TokenResponse :=
  match fst out with Ok r => r | Err _ => no_tokens end.

Definition exchange_run : result TokenResponse * Env :=
  Token.exchangeCodeForTokens auth_code verifier "client-1" [5%N]
    (t0 + 4000) after_confirm.

Definition after_exchange : Env := snd exchange_run.

(** The access token of the exchange and its three parts. *)
Definition access : string := access_token (issued exchange_run).
Definition part (i : nat) : string := nth i (Str.split_on "."%char access) "".
Definition claims : list (string * json) :=
  match decoded (part 1) with
  | Some (JObj fields) => fields
  | _ => []
  end.

Definition refresh_row : RefreshTokenRow :=
  mkRefreshToken refresh_1 "a@example.com" "cust_b1p082" "client-1" ["orders"]
                 (t0 + 4000 + 30 * 24 * 60 * 60 * 1000) (t0 + 4000) None.

Definition hs512_header : string :=
  Base64.base64urlEncode
    (Json.stringify (JObj [("alg", JStr "HS512"); ("typ", JStr "JWT")])).

Definition token_of (r : result string) : string :=
  match r with Ok t => t | Err _ => "" end.

(** The claims of the access token under a header that declares
    HMAC-SHA-512, signed as [sign] signs. *)
Definition relabelled : string :=
  token_of (assemble hs512_header (part 1) secret).

(** The activity log of a customer with two intents: A is created,
    fulfilled, then updated with a milestone only; B is created and
    cancelled in between. *)
Definition intent_data (intentId : string) : ActivityData :=
  mkData (Some intentId) None None (Some "boots for the rodeo")
         (Some "conversational_ai") None None None None
         (Some "merchant_only") None None.

Definition intent_log : gmap string (list Activity) :=
  IntentLog.updateIntent "cust_b1p082" (Some "intent_A") None
    (Some (JStr "order shipped")) None "2024-01-05T09:00:00.000Z"
    (IntentLog.updateIntent "cust_b1p082" (Some "intent_B")
       (Some "cancelled") None None "2024-01-04T09:00:00.000Z"
       (IntentLog.updateIntent "cust_b1p082" (Some "intent_A")
          (Some "fulfilled") None None "2024-01-03T09:00:00.000Z"
          (IntentLog.createIntent "cust_b1p082" (intent_data "intent_B")
             "2024-01-02T09:00:00.000Z"
             (IntentLog.createIntent "cust_b1p082" (intent_data "intent_A")
                "2024-01-01T09:00:00.000Z" ∅)))).

Definition activities : list Activity :=
  IntentLog.getIntents "cust_b1p082" intent_log.

Definition activity (i : nat) : Activity :=
  nth i activities (mkActivity "" "" None).

(** Claims without [exp], under the regular header, signed as [sign]
    signs. *)
Definition eternal_claims : json :=
  JObj [("sub", JStr "cust_b1p082"); ("scopes", JArr [JStr "orders"])].

Definition eternal_part : string :=
  Base64.base64urlEncode (Json.stringify eternal_claims).

Definition eternal : string :=
  token_of (assemble (part 0) eternal_part secret).

(** Claims whose [exp] is zero. *)
Definition epoch_claims : json :=
  JObj [("sub", JStr "cust_b1p082"); ("scopes", JArr [JStr "orders"]);
        ("exp", JNum 0)].

Definition epoch : string :=
  token_of (assemble (part 0)
              (Base64.base64urlEncode (Json.stringify epoch_claims)) secret).

(** The first instant of the year 3000, in milliseconds. *)
Definition year_3000 : Z := 32503680000000.

Definition refresh_run : result TokenResponse * Env :=
  Token.refreshAccessToken refresh_1 "client-1" [7%N] (t0 + 6000) after_exchange.

Definition after_refresh : Env := snd refresh_run.

Definition code_row : AuthCodeRow :=
  mkAuthCode auth_code "a@example.com" "cust_b1p082" "client-1" ["orders"]
             challenge (t0 + 1000 + 5 * 60 * 1000) false (t0 + 1000).

End Scenario.

(** ** Vocabulary of the further properties *)

(** The row of [auth_codes] behind an authorized request: it carries the
    request's code and what the request was made for. *)
Definition backs (row : AuthCodeRow) (stored : AuthRequestStored) : Prop :=
  code stored = Some (ac_code row) /\
  ac_client_id row = client_id stored /\
  ac_scopes row = scopes stored /\
  ac_code_challenge row = code_challenge stored /\
  ac_customer_email row = email stored /\
  customer_id stored = Some (ac_cordial_contact_id row).

(** Every stored request that is authorized has its row. *)
Definition backed (env : Env) : Prop :=
  forall rid stored,
    Kv.get rid (AUTH_REQUESTS env) = Some stored ->
    status stored = authorized ->
    exists row, In row (DB_auth_codes env) /\ backs row stored.

(** The stores of a deployment before its first request. *)
Definition fresh_store (secret : string) : Env := mkEnv ∅ ∅ [] [] secret.

(** The four errors [exchangeCodeForTokens] throws itself. *)
Definition exchange_refusals : list string :=
  ["Invalid or used authorization code"; "Authorization code expired";
   "Invalid client_id"; "Invalid code_verifier"].

(** The identifiers of the intents a log folds into, in output order. *)
Definition intent_ids (customerId : string) (log : list Activity) : list string :=
  List.map i_intent_id (Intents.transformIntentsToSCP customerId log).

(** The ids a log creates, each where it is created first; [seen] holds
    the ids created before. *)
Fixpoint first_created (seen : list string) (log : list Activity)
  : list string :=
  match log with
  | [] => []
  | a :: rest =>
      match Intents.intent_id_of a with
      | Some x =>
          if Str.truthy x && String.eqb (action a) "scp_intent_created"
             && negb (existsb (String.eqb x) seen)
          then x :: first_created (seen ++ [x]) rest
          else first_created seen rest
      | None => first_created seen rest
      end
  end.

(** The activity that [updateIntent] of the store appends. *)
Definition update_activity (oid st : option string) (ms ctx : option json)
           (ts : string) : Activity :=
  mkActivity "scp_intent_updated" ts
    (Some (mkData oid st (Some "ai_assistant") None None None None None
             ctx None None ms)).

(** An activity that creates intent [x]. *)
Definition creates (x : string) (a : Activity) : Prop :=
  action a = "scp_intent_created" /\ Intents.intent_id_of a = Some x.

(** An update whose status is truthy. *)
Definition carries_status (a : Activity) : bool :=
  Intents.truthy_string (Intents.field d_status a).

(** The last update that carries a status, if any. *)
Definition last_carried (updates : list Activity) : option Activity :=
  List.find carries_status (rev updates).

(** The intent of [x] in the output, if it is there. *)
Definition intent_named (x customerId : string) (log : list Activity)
  : list SCPIntent :=
  List.filter (fun i => String.eqb (i_intent_id i) x)
    (Intents.transformIntentsToSCP customerId log).

(** The status an update carries. *)
Definition carried (update : Activity) : string :=
  match Intents.field d_status update with Some s => s | None => "" end.

(** The intents of a customer that a status filter keeps. *)
Definition intents_matching (statuses : list string) (customerId : string)
           (log : gmap string (list Activity)) : list SCPIntent :=
  List.filter (fun i => existsb (String.eqb (i_status i)) statuses)
    (Intents.transformIntentsToSCP customerId
       (IntentLog.getIntents customerId log)).

(** A [status] parameter that asks for the statuses of a list: an array
    of strings, or one non-empty string. *)
Definition asks_for (status : option json) (statuses : list string) : Prop :=
  status = Some (JArr (List.map JStr statuses)) \/
  exists s, s <> "" /\ status = Some (JStr s) /\ statuses = [s].

(** The operation behind each routed method. *)
Definition operation_of {W} (h : @Rpc.Handlers W) (method : string)
           (customerId : option json) (params : json)
  : option (W -> result json * W) :=
  if String.eqb method "scp.get_orders"
  then Some (Rpc.getOrders h customerId params)
  else if String.eqb method "scp.get_loyalty"
  then Some (Rpc.getLoyalty h customerId)
  else if String.eqb method "scp.get_offers"
  then Some (Rpc.getOffers h customerId params)
  else if String.eqb method "scp.get_preferences"
  then Some (Rpc.getPreferences h customerId)
  else if String.eqb method "scp.create_intent"
  then Some (Rpc.createIntent h customerId params)
  else if String.eqb method "scp.get_intents"
  then Some (Rpc.getIntentsMethod h customerId params)
  else if String.eqb method "scp.update_intent"
  then Some (Rpc.updateIntent h customerId params)
  else if String.eqb method "scp.fulfill_intent"
  then Some (Rpc.fulfillIntent h customerId params)
  else None.

(** [request.params || {}]. *)
Definition params_of (request : JSONRPCRequest) : json :=
  Methods.or_default (rpc_params request) (JObj []).

(** The response that wraps the outcome of an operation. *)
Definition respond (request : JSONRPCRequest) (out : result json)
  : JSONRPCResponse :=
  match out with
  | Ok r => RpcResult (rpc_id request) r
  | Err e => Rpc.failure request e
  end.

(** The errors [verifyJWT] throws itself. *)
Definition verify_refusals : list string :=
  ["Invalid JWT format"; "Invalid JWT signature"; "JWT expired"].

(** The six-bit groups [btoa] reads off a sequence of bytes. *)
Fixpoint sextets (l : list N) : list N :=
  match l with
  | [] => []
  | [a] => [N.shiftr a 2; N.shiftl (N.land a 3) 4]
  | [a; b] =>
      [N.shiftr a 2;
       N.lor (N.shiftl (N.land a 3) 4) (N.shiftr b 4);
       N.shiftl (N.land b 15) 2]
  | a :: b :: c :: rest =>
      N.shiftr a 2
      :: N.lor (N.shiftl (N.land a 3) 4) (N.shiftr b 4)
      :: N.lor (N.shiftl (N.land b 15) 2) (N.shiftr c 6)
      :: N.land c 63
      :: sextets rest
  end.

(** The digit of the URL-safe alphabet. *)
Definition url_digit (n : N) : ascii :=
  let c := Base64.digit n in
  if Ascii.eqb c "+"%char then "-"%char
  else if Ascii.eqb c "/"%char then "_"%char
  else c.

(** Values of a [Uint8Array]. *)
Definition octets (l : list N) : Prop := List.Forall (fun b => (b < 256)%N) l.

(** The numbers [0 .. k-1], over which facts on bytes are checked one
    by one. *)
Definition numbers_below (k : nat) : list N := List.map N.of_nat (seq 0 k).

(** Characters of the URL-safe alphabet: [A-Za-z0-9-_]. *)
Definition url_safe_char (c : ascii) : bool :=
  let n := N_of_ascii c in
  (((65 <=? n) && (n <=? 90)) || ((97 <=? n) && (n <=? 122))
   || ((48 <=? n) && (n <=? 57)) || (n =? 45) || (n =? 95))%N.

(** Lowercase hexadecimal digits. *)
Definition hex_char (c : ascii) : bool :=
  let n := N_of_ascii c in
  (((48 <=? n) && (n <=? 57)) || ((97 <=? n) && (n <=? 102)))%N.

(** A text that cannot continue a number literal. *)
Definition delimited (rest : string) : Prop :=
  match rest with
  | EmptyString => True
  | String c _ => Json.digit_value c = None /\ Json.starts_fraction rest = false
  end.

(** The first character of the text of a value is not blank and closes
    no bracket. *)
Definition opens_value (c : ascii) : Prop :=
  Json.is_ws c = false /\
  Ascii.eqb c "]"%char = false /\ Ascii.eqb c "}"%char = false.

(** The verdict of [verifyJWT] on a payload once the signature has been
    found right: the expiry check. *)
Definition expiry_verdict (payload : json) (now : Z) : result json :=
  exp ← get_property "exp" payload;
  if Js.truthy exp &&
     match exp with
     | Some e => Js.lt_number e (Jwt.seconds now)
     | None => false
     end
  then Err (Error "JWT expired")
  else Ok payload.

(** A payload whose [exp] is absent or a number. *)
Definition numeric_exp (payload : json) : bool :=
  match get_property "exp" payload with
  | Ok None | Ok (Some (JNum _)) => true
  | _ => false
  end.

(** A payload whose [exp] is a number other than zero, below the second
    of [now]. *)
Definition expired (payload : json) (now : Z) : bool :=
  match get_property "exp" payload with
  | Ok (Some (JNum e)) => negb (e =? 0)%Z && (e <? Jwt.seconds now)%Z
  | _ => false
  end.

(** The number of dots of a text. *)
Fixpoint dots (s : string) : nat :=
  match s with
  | EmptyString => 0
  | String c s' => (if Ascii.eqb c "."%char then 1 else 0) + dots s'
  end.

(** A digit of [toString(36)]: [0-9a-z]. *)
Definition base36_char (c : ascii) : bool :=
  let n := N_of_ascii c in
  (((48 <=? n) && (n <=? 57)) || ((97 <=? n) && (n <=? 122)))%N.

(** A client that sends the challenge of [Scenario] in the standard
    alphabet with its padding. *)
Module Variants.

Definition padded_challenge : string :=
  "E9Melhoa2OwvFrEMTJguCHaoeK1t8URWbuGJSstw+cM=".

Definition padded_request : AuthRequest :=
  mkAuthRequest "a@example.com" "client-1" "Assistant" ["orders"]
                padded_challenge "S256" "" "" "shop.example.com".

Definition after_padded_confirm : Env :=
  snd (@Authorize.confirmAuthorization MockCustomer.directory
         Scenario.magic_token [3%N] (Scenario.t0 + 1000)
         (snd (Authorize.initAuthorization padded_request [1%N] [2%N] (Ok tt)
                 Scenario.t0 Scenario.empty))).

Definition padded_row : AuthCodeRow :=
  mkAuthCode Scenario.auth_code "a@example.com" "cust_b1p082" "client-1"
             ["orders"] padded_challenge (Scenario.t0 + 1000 + 5 * 60 * 1000)
             false (Scenario.t0 + 1000).

End Variants.

(** ** Proof support *)

Arguments Jwt.generateAccessToken : simpl never.
Arguments Jwt.generateRefreshToken : simpl never.
Arguments Jwt.verifyPKCE : simpl never.
Arguments Jwt.sign : simpl never.
Arguments Authorize.generateId : simpl never.
Arguments Kv.get : simpl never.
Arguments Kv.put : simpl never.
Arguments Kv.delete : simpl never.

Ltac unfold_m :=
  unfold mbind, M_bind, mret, M_ret, throw, lift,
    Store.get_request, Store.put_request, Store.get_magic, Store.put_magic,
    Store.delete_magic, Store.insert_auth_code, Store.first_unused_auth_code,
    Store.mark_used, Store.insert_refresh_token, Store.first_refresh_token,
    Store.rotate_refresh_token, Store.delete_refresh_token, Store.secret in *.

(** *** The primitives on published vectors *)

(** FIPS 180-4, the one-block and the two-block message. *)
Lemma sha256_vectors :
  hex (Sha256.digest (Str.to_bytes "abc"))
  = "ba7816bf8f01cfea414140de5dae2223b00361a396177a9cb410ff61f20015ad" /\
  hex (Sha256.digest (Str.to_bytes
         "abcdbcdecdefdefgefghfghighijhijkijkljklmklmnlmnomnopnopq"))
  = "248d6a61d20638b8e5c026930c3e6039a33ce45964ff2167f6ecedd419db06c1".
Proof. vm_compute. split; reflexivity. Qed.

(** RFC 4231, test case 2. *)
Lemma hmac_vector :
  hex (Sha256.hmac (Str.to_bytes "Jefe")
         (Str.to_bytes "what do ya want for nothing?"))
  = "5bdcc146bf60754e6a042426089575c75a003f089d2739839dec58b964ec3843".
Proof. vm_compute. reflexivity. Qed.

(** RFC 7636, appendix B. *)
Lemma pkce_vector :
  Jwt.verifyPKCE "dBjftJeZ4CVP-mB92K27uhbUJU1p1r_wW1gFWFOEjXk"
                 "E9Melhoa2OwvFrEMTJguCHaoeK1t8URWbuGJSstw-cM" = true.
Proof. vm_compute. reflexivity. Qed.

(** The token the exchange of the run issues, and what [verify] reads back
    from it. *)
Lemma issued_token_round_trip :
  Scenario.access =
  String.append "eyJhbGciOiJIUzI1NiIsInR5cCI6IkpXVCJ9."
    (String.append
       "eyJzdWIiOiJjdXN0X2IxcDA4MiIsImVtYWlsIjoiYUBleGFtcGxlLmNvbSIsInNjb3BlcyI6WyJvcmRlcnMiXSwidHlwZSI6ImFjY2Vzc190b2tlbiIsImlhdCI6MTcwMDAwMDAwNCwiZXhwIjoxNzAwMDAzNjA0fQ"
       ".IfWqadcc3zsu9O7Uz1GVjD2Yeu8vZIScTv914YmmjmU") /\
  Jwt.verifyJWT Scenario.access Scenario.secret (Scenario.t0 + 5000)%Z
  = Ok (Jwt.TokenPayload "cust_b1p082" "a@example.com" ["orders"]
          1700000004 1700003604).
Proof. vm_compute. split; reflexivity. Qed.

(** *** The [auth_codes] table *)

Lemma find_append {A} (f : A -> bool) (l1 l2 : list A) :
  List.find f (l1 ++ l2)
  = match List.find f l1 with Some x => Some x | None => List.find f l2 end.
Proof.
  induction l1 as [|a l1 IH]; [reflexivity|].
  cbn. destruct (f a); [reflexivity|exact IH].
Qed.

Lemma first_unused_mark_used c t :
  Db.first_unused_auth_code c (Db.mark_used c t) = None.
Proof.
  unfold Db.first_unused_auth_code, Db.mark_used.
  induction t as [|r t IH]; [reflexivity|].
  cbn [List.map List.find].
  destruct (String.eqb (ac_code r) c) eqn:E.
  - cbn. rewrite E. cbn. exact IH.
  - rewrite E. cbn. exact IH.
Qed.

Lemma spent_mark_used_same c t :
  Db.first_unused_auth_code c t <> None -> spent c (Db.mark_used c t).
Proof.
  intros Hsome. split; [|apply first_unused_mark_used].
  unfold Db.first_unused_auth_code, Db.mark_used in *.
  induction t as [|r t IH]; [contradiction|].
  cbn [List.map List.find existsb] in *.
  destruct (String.eqb (ac_code r) c) eqn:E; cbn.
  - rewrite E. reflexivity.
  - rewrite E in *. cbn in *. apply IH, Hsome.
Qed.

Lemma spent_mark_used c c' t : spent c t -> spent c (Db.mark_used c' t).
Proof.
  unfold spent, Db.first_unused_auth_code, Db.mark_used.
  intros [Hex Hnone]. split.
  - clear Hnone. induction t as [|r t IH]; [discriminate|].
    cbn [List.map existsb] in *.
    destruct (String.eqb (ac_code r) c) eqn:E; cbn in *.
    + destruct (String.eqb (ac_code r) c'); cbn; rewrite E; reflexivity.
    + destruct (String.eqb (ac_code r) c'); cbn; rewrite E; cbn; apply IH, Hex.
  - clear Hex. induction t as [|r t IH]; [reflexivity|].
    cbn [List.map List.find] in *.
    destruct (String.eqb (ac_code r) c && negb (ac_used r)) eqn:E; [discriminate|].
    specialize (IH Hnone).
    destruct (String.eqb (ac_code r) c'); cbn.
    + destruct (String.eqb (ac_code r) c); cbn; exact IH.
    + rewrite E. exact IH.
Qed.

Lemma spent_insert c row t t' :
  spent c t -> Db.insert_auth_code row t = Ok t' -> spent c t'.
Proof.
  unfold spent, Db.insert_auth_code, Db.first_unused_auth_code.
  intros [Hex Hnone].
  destruct (existsb (fun r => String.eqb (ac_code r) (ac_code row)) t) eqn:Hdup;
    [discriminate|].
  intros [= <-]. split.
  - rewrite existsb_app, Hex. reflexivity.
  - rewrite find_append, Hnone. cbn.
    destruct (String.eqb (ac_code row) c) eqn:E; [|reflexivity].
    apply String.eqb_eq in E. subst c. rewrite Hdup in Hex. discriminate.
Qed.

(** What a successful exchange has read, returned and written. *)
Lemma exchange_inv code v c e now env r env1 :
  Token.exchangeCodeForTokens code v c e now env = (Ok r, env1) ->
  exists row tok,
    Db.first_unused_auth_code code (DB_auth_codes env) = Some row /\
    (ac_expires_at row <? now)%Z = false /\
    String.eqb (ac_client_id row) c = true /\
    Jwt.verifyPKCE v (ac_code_challenge row) = true /\
    Jwt.generateAccessToken (ac_cordial_contact_id row) (ac_customer_email row)
      (ac_scopes row) (JWT_SECRET env) now = Ok tok /\
    r = mkTokens tok (Jwt.generateRefreshToken e) "Bearer" 3600
          (Str.join " " (ac_scopes row))
          (Some (ac_cordial_contact_id row)) (Some (ac_customer_email row)) /\
    DB_auth_codes env1 = Db.mark_used code (DB_auth_codes env) /\
    AUTH_REQUESTS env1 = AUTH_REQUESTS env /\
    MAGIC_LINK_TOKENS env1 = MAGIC_LINK_TOKENS env /\
    JWT_SECRET env1 = JWT_SECRET env /\
    Db.insert_refresh_token
      (mkRefreshToken (Jwt.generateRefreshToken e) (ac_customer_email row)
         (ac_cordial_contact_id row) c (ac_scopes row)
         (now + 30 * 24 * 60 * 60 * 1000)%Z now None)
      (DB_refresh_tokens env) = Ok (DB_refresh_tokens env1).
Proof.
  unfold Token.exchangeCodeForTokens. unfold_m.
  destruct (Db.first_unused_auth_code code (DB_auth_codes env)) as [row|] eqn:Hrow;
    [|discriminate].
  destruct (ac_expires_at row <? now)%Z eqn:Hexp; [discriminate|].
  destruct (String.eqb (ac_client_id row) c) eqn:Hc; cbn [negb]; [|discriminate].
  destruct (Jwt.verifyPKCE v (ac_code_challenge row)) eqn:Hp; cbn [negb];
    [|discriminate].
  cbn [JWT_SECRET Store.with_auth_codes].
  destruct (Jwt.generateAccessToken _ _ _ _ _) as [tok|err] eqn:Htok;
    [|discriminate].
  cbn [DB_refresh_tokens Store.with_auth_codes].
  destruct (Db.insert_refresh_token _ _) as [t|err] eqn:Hins; [|discriminate].
  intros Heq. injection Heq as <- <-.
  exists row, tok. cbn. auto 12.
Qed.

(** An exchange never leaves the table of codes other than it found it or
    with its own code marked. *)
Lemma exchange_auth_codes code v c e now env :
  DB_auth_codes (snd (Token.exchangeCodeForTokens code v c e now env))
    = DB_auth_codes env \/
  DB_auth_codes (snd (Token.exchangeCodeForTokens code v c e now env))
    = Db.mark_used code (DB_auth_codes env).
Proof.
  unfold Token.exchangeCodeForTokens. unfold_m.
  destruct (Db.first_unused_auth_code code (DB_auth_codes env)) as [row|];
    [|left; reflexivity].
  destruct (ac_expires_at row <? now)%Z; [left; reflexivity|].
  destruct (String.eqb (ac_client_id row) c); cbn [negb]; [|left; reflexivity].
  destruct (Jwt.verifyPKCE v (ac_code_challenge row)); cbn [negb];
    [|left; reflexivity].
  cbn [JWT_SECRET Store.with_auth_codes].
  destruct (Jwt.generateAccessToken _ _ _ _ _); [|right; reflexivity].
  cbn [DB_refresh_tokens Store.with_auth_codes].
  destruct (Db.insert_refresh_token _ _); right; reflexivity.
Qed.

Lemma exchange_spent_fails code v c e now env :
  Db.first_unused_auth_code code (DB_auth_codes env) = None ->
  Token.exchangeCodeForTokens code v c e now env
    = (Err (Error "Invalid or used authorization code"), env).
Proof.
  intros Hnone. unfold Token.exchangeCodeForTokens. unfold_m.
  rewrite Hnone. reflexivity.
Qed.

(** Case analysis on the innermost scrutinee of the goal. *)
Ltac break_match :=
  match goal with
  | |- context [match ?x with _ => _ end] =>
      lazymatch x with
      | context [match _ with _ => _ end] => fail
      | _ => let E := fresh "E" in destruct x eqn:E
      end
  end.

Lemma init_auth_codes request e1 e2 mail now env :
  DB_auth_codes (snd (Authorize.initAuthorization request e1 e2 mail now env))
  = DB_auth_codes env.
Proof.
  unfold Authorize.initAuthorization. unfold_m. cbn.
  destruct mail; reflexivity.
Qed.

Lemma poll_env authRequestId clientId now env :
  snd (Authorize.pollAuthorization authRequestId clientId now env) = env.
Proof.
  unfold Authorize.pollAuthorization. unfold_m.
  repeat (break_match; try reflexivity).
Qed.

Lemma confirm_auth_codes `{Directory} magicToken entropy now env :
  DB_auth_codes (snd (Authorize.confirmAuthorization magicToken entropy now env))
    = DB_auth_codes env \/
  exists row,
    Db.insert_auth_code row (DB_auth_codes env)
    = Ok (DB_auth_codes
            (snd (Authorize.confirmAuthorization magicToken entropy now env))).
Proof.
  unfold Authorize.confirmAuthorization, Authorize.deny. unfold_m.
  unfold Store.with_auth_codes.
  repeat (break_match; cbn; try (left; reflexivity)).
  all: try (right; eexists; eassumption).
Qed.

Lemma refresh_auth_codes refreshToken clientId entropy now env :
  DB_auth_codes (snd (Token.refreshAccessToken refreshToken clientId entropy now env))
  = DB_auth_codes env.
Proof.
  unfold Token.refreshAccessToken. unfold_m.
  unfold Store.with_refresh_tokens.
  repeat (break_match; cbn; try reflexivity).
Qed.

Lemma post_token_auth_codes body entropy now env :
  DB_auth_codes (snd (post_token body entropy now env)) = DB_auth_codes env \/
  DB_auth_codes (snd (post_token body entropy now env))
    = Db.mark_used (body_code body) (DB_auth_codes env).
Proof.
  unfold post_token.
  destruct (String.eqb (grant_type body) "authorization_code").
  - pose proof (exchange_auth_codes (body_code body) (body_code_verifier body)
                  (body_client_id body) entropy now env) as Hx.
    destruct (Token.exchangeCodeForTokens _ _ _ _ _ _) as [[r|err] env'];
      exact Hx.
  - destruct (String.eqb (grant_type body) "refresh_token"); [|left; reflexivity].
    pose proof (refresh_auth_codes (body_refresh_token body)
                  (body_client_id body) entropy now env) as Hx.
    destruct (Token.refreshAccessToken _ _ _ _ _) as [[r|err] env'];
      left; exact Hx.
Qed.

Lemma spent_step `{Directory} c call now env :
  spent c (DB_auth_codes env) -> spent c (DB_auth_codes (step call now env)).
Proof.
  intros Hs. destruct call; cbn [step].
  - rewrite init_auth_codes. exact Hs.
  - rewrite poll_env. exact Hs.
  - destruct (confirm_auth_codes magicToken entropy now env) as [-> | [row Hrow]];
      [exact Hs | eapply spent_insert; eassumption].
  - destruct (post_token_auth_codes body entropy now env) as [-> | ->];
      [exact Hs | apply spent_mark_used, Hs].
  - exact Hs.
  - exact Hs.
Qed.

Lemma spent_run `{Directory} c calls env :
  spent c (DB_auth_codes env) -> spent c (DB_auth_codes (run calls env)).
Proof.
  revert env. induction calls as [|[call now] calls IH]; intros env Hs;
    [exact Hs|].
  cbn [run]. apply IH, spent_step, Hs.
Qed.

(** ** Single redemption of an authorization code *)

(** C1.  Once an exchange of a code has succeeded, every later exchange
    of the same code fails: whatever verifier and client it supplies,
    whenever it comes, and whatever other requests the service has handled
    in between, the fetch of the unused row finds nothing, the function
    throws "Invalid or used authorization code", the token route answers
    400 [invalid_grant], and the stores are left as they were. *)
Theorem exchange_same_code_twice `{Directory}
        code v c e now env r env1 calls v' c' e' now' rt' :
  Token.exchangeCodeForTokens code v c e now env = (Ok r, env1) ->
  let env2 := run calls env1 in
  Token.exchangeCodeForTokens code v' c' e' now' env2
    = (Err (Error "Invalid or used authorization code"), env2)
  /\ post_token (mkBody "authorization_code" code v' c' rt') e' now' env2
    = (TokenFailure 400 "invalid_grant" "Invalid or used authorization code",
       env2).
Proof.
  intros Hfirst env2.
  destruct (exchange_inv _ _ _ _ _ _ _ _ Hfirst)
    as (row & tok & Hrow & _ & _ & _ & _ & _ & Hcodes & _).
  assert (Hspent : spent code (DB_auth_codes env2)).
  { apply spent_run. rewrite Hcodes. apply spent_mark_used_same.
    rewrite Hrow. discriminate. }
  destruct Hspent as [_ Hnone].
  pose proof (exchange_spent_fails code v' c' e' now' env2 Hnone) as Hfail.
  split; [exact Hfail|].
  unfold post_token. cbn [grant_type body_code body_code_verifier body_client_id].
  replace (String.eqb "authorization_code" "authorization_code") with true
    by reflexivity.
  rewrite Hfail. reflexivity.
Qed.


Lemma exchange_same_code_twice_witness :
  let env2 := @run MockCustomer.directory
                [(CallPoll Scenario.request_id "client-1", Scenario.t0 + 5000);
                 (CallRevoke "unknown", Scenario.t0 + 6000)]%Z
                Scenario.after_exchange in
  Token.exchangeCodeForTokens Scenario.auth_code "another-verifier" "client-2"
    [6%N] (Scenario.t0 + 7000)%Z env2
    = (Err (Error "Invalid or used authorization code"), env2)
  /\ post_token (mkBody "authorization_code" Scenario.auth_code
                   "another-verifier" "client-2" "") [6%N]
                (Scenario.t0 + 7000)%Z env2
    = (TokenFailure 400 "invalid_grant" "Invalid or used authorization code",
       env2).
Proof.
  refine (@exchange_same_code_twice MockCustomer.directory
            Scenario.auth_code Scenario.verifier "client-1" [5%N]
            (Scenario.t0 + 4000)%Z Scenario.after_confirm
            (Scenario.issued Scenario.exchange_run) Scenario.after_exchange
            _ _ _ _ _ _ _).
  vm_compute; reflexivity.
Defined.

(** ** Single use of a magic link *)

Lemma truthy_nonempty s : s <> "" -> Str.truthy s = true.
Proof. destruct s; [contradiction|reflexivity]. Qed.

Lemma kv_get_put {V} k (v : V) ttl now ns : Kv.get k (Kv.put k v ttl now ns) = Some v.
Proof. unfold Kv.get, Kv.put. rewrite lookup_insert_eq. reflexivity. Qed.

Lemma kv_get_delete {V} k (ns : gmap string (Kv.entry V)) :
  Kv.get k (Kv.delete k ns) = None.
Proof. unfold Kv.get, Kv.delete. rewrite lookup_delete_eq. reflexivity. Qed.

Lemma append_cons c s t :
  String.append (String c s) t = String c (String.append s t).
Proof. reflexivity. Qed.

Lemma append_length s t :
  String.length (String.append s t) = (String.length s + String.length t)%nat.
Proof.
  induction s as [|c s IH]; [reflexivity|].
  rewrite append_cons. cbn [String.length Nat.add]. rewrite IH. reflexivity.
Qed.

Lemma append_empty_r s : String.append s "" = s.
Proof.
  induction s as [|c s IH]; [reflexivity|].
  rewrite append_cons, IH. reflexivity.
Qed.

Lemma join_empty_cons x l :
  Str.join "" (x :: l) = String.append x (Str.join "" l).
Proof.
  destruct l as [|y l]; [|reflexivity].
  cbn [Str.join]. rewrite append_empty_r. reflexivity.
Qed.

Lemma join_hex2_length l :
  String.length (Str.join "" (List.map Authorize.hex2 l)) = (2 * List.length l)%nat.
Proof.
  induction l as [|a l IH]; [reflexivity|].
  cbn [List.map]. rewrite join_empty_cons, append_length, IH.
  cbn [List.length Authorize.hex2 String.length]. lia.
Qed.

Lemma getRandomValues_length n entropy :
  List.length (Jwt.getRandomValues n entropy) = n.
Proof.
  unfold Jwt.getRandomValues.
  rewrite List.length_map, List.length_firstn, List.length_app, List.repeat_length. lia.
Qed.

Lemma generateId_length entropy : String.length (Authorize.generateId entropy) = 32%nat.
Proof.
  unfold Authorize.generateId. rewrite join_hex2_length, getRandomValues_length.
  reflexivity.
Qed.

(** The link of a request whose address the directory does not know:
    the first confirmation denies the request and keeps the mapping, so
    the second one runs the verification again. *)
Lemma confirm_denied_keeps_link :
  let out1 := @Authorize.confirmAuthorization MockCustomer.directory
                Scenario.magic_token [3%N] (Scenario.t0 + 1000)%Z
                (Scenario.after_init "nobody") in
  fst out1 = Err (Error "Customer not found in merchant system") /\
  option_map status (Kv.get Scenario.request_id (AUTH_REQUESTS (snd out1)))
    = Some denied /\
  Kv.get Scenario.magic_token (MAGIC_LINK_TOKENS (snd out1))
    = Some Scenario.request_id /\
  fst (@Authorize.confirmAuthorization MockCustomer.directory
         Scenario.magic_token [4%N] (Scenario.t0 + 2000)%Z (snd out1))
    = Err (Error "Customer not found in merchant system").
Proof. vm_compute. repeat split; reflexivity. Qed.

(** C2, as worded, does not hold: after [init] for the address [nobody]
    (no account), the first confirmation of the link leaves the request
    denied and the mapping in place. *)
Lemma confirm_once_claim_fails : ~ confirm_once_claim.
Proof.
  intros Hclaim.
  destruct confirm_denied_keeps_link as (_ & _ & Hkept & _).
  specialize (Hclaim MockCustomer.directory (Scenario.after_init "nobody")
                Scenario.magic_token Scenario.request_id
                [3%N] (Scenario.t0 + 1000)%Z [4%N] (Scenario.t0 + 2000)%Z).
  destruct Hclaim as (_ & Hgone & _); [vm_compute; reflexivity|].
  rewrite Hkept in Hgone. discriminate.
Qed.

(** C2, amended.  When the token maps to a stored request, the directory
    knows the request's address under a non-empty customer id, and the
    fresh code is not taken, the confirmation succeeds: the request is
    stored authorized with the code (thirty-two characters) and the
    customer id, the unused code row is in the table, and the mapping is
    deleted.  A second confirmation of the token then throws "Invalid or
    expired magic link" and leaves the stores as they are. *)
Theorem confirm_then_link_is_dead `{Directory}
        env token rid req cid e now e' now' :
  Kv.get token (MAGIC_LINK_TOKENS env) = Some rid ->
  rid <> "" ->
  Kv.get rid (AUTH_REQUESTS env) = Some req ->
  verifyEmail (email req) = Ok (mkVerification true (Some cid)) ->
  cid <> "" ->
  existsb (fun r => String.eqb (ac_code r) (Authorize.generateId e))
          (DB_auth_codes env) = false ->
  exists env1,
    Authorize.confirmAuthorization token e now env = (Ok tt, env1) /\
    (exists stored,
        Kv.get rid (AUTH_REQUESTS env1) = Some stored /\
        status stored = authorized /\
        code stored = Some (Authorize.generateId e) /\
        customer_id stored = Some cid) /\
    String.length (Authorize.generateId e) = 32%nat /\
    Db.first_unused_auth_code (Authorize.generateId e) (DB_auth_codes env1)
      <> None /\
    Kv.get token (MAGIC_LINK_TOKENS env1) = None /\
    Authorize.confirmAuthorization token e' now' env1
      = (Err (Error "Invalid or expired magic link"), env1).
Proof.
  intros Hm Hrid Hreq Hver Hcid Hfresh.
  unfold Authorize.confirmAuthorization. unfold_m.
  rewrite Hm, (truthy_nonempty _ Hrid). cbn [negb].
  rewrite Hreq, Hver. cbn [v_exists v_customerId].
  rewrite (truthy_nonempty _ Hcid). cbn [negb].
  unfold Db.insert_auth_code. cbn [ac_code]. rewrite Hfresh.
  unfold Store.with_auth_codes.
  cbn [AUTH_REQUESTS MAGIC_LINK_TOKENS DB_auth_codes DB_refresh_tokens JWT_SECRET].
  eexists. split; [reflexivity|].
  cbn [AUTH_REQUESTS MAGIC_LINK_TOKENS DB_auth_codes DB_refresh_tokens JWT_SECRET].
  rewrite kv_get_put, kv_get_delete.
  repeat split.
  - eexists. repeat split.
  - apply generateId_length.
  - unfold Db.first_unused_auth_code. rewrite find_append.
    destruct (List.find _ (DB_auth_codes env)); [discriminate|].
    cbn. rewrite String.eqb_refl. discriminate.
Qed.

Lemma confirm_then_link_is_dead_witness :
  exists env1,
    @Authorize.confirmAuthorization MockCustomer.directory
      Scenario.magic_token [3%N] (Scenario.t0 + 1000)%Z
      (Scenario.after_init "a@example.com") = (Ok tt, env1) /\
    (exists stored,
        Kv.get Scenario.request_id (AUTH_REQUESTS env1) = Some stored /\
        status stored = authorized /\
        code stored = Some (Authorize.generateId [3%N]) /\
        customer_id stored = Some "cust_b1p082") /\
    String.length (Authorize.generateId [3%N]) = 32%nat /\
    Db.first_unused_auth_code (Authorize.generateId [3%N]) (DB_auth_codes env1)
      <> None /\
    Kv.get Scenario.magic_token (MAGIC_LINK_TOKENS env1) = None /\
    @Authorize.confirmAuthorization MockCustomer.directory
      Scenario.magic_token [4%N] (Scenario.t0 + 2000)%Z env1
      = (Err (Error "Invalid or expired magic link"), env1).
Proof.
  refine (@confirm_then_link_is_dead MockCustomer.directory
            (Scenario.after_init "a@example.com") Scenario.magic_token
            Scenario.request_id (Scenario.stored_request "a@example.com")
            "cust_b1p082" [3%N] (Scenario.t0 + 1000)%Z
            [4%N] (Scenario.t0 + 2000)%Z _ _ _ _ _ _);
    try discriminate; vm_compute; reflexivity.
Defined.

(** ** Expiry at read time *)

(** Eleven minutes after [init], with the request and the link still in
    the store, the confirmation goes through and the code it mints can be
    exchanged. *)
Lemma confirm_accepts_lapsed_request :
  let late := (Scenario.t0 + 11 * 60 * 1000)%Z in
  let env := Scenario.after_init "a@example.com" in
  option_map expires_at (Kv.get Scenario.request_id (AUTH_REQUESTS env))
    = Some (Scenario.t0 + 600000)%Z /\
  fst (@Authorize.confirmAuthorization MockCustomer.directory
         Scenario.magic_token [3%N] late env) = Ok tt /\
  is_ok (fst (Token.exchangeCodeForTokens Scenario.auth_code Scenario.verifier
                "client-1" [5%N] (late + 1000)%Z
                (@run MockCustomer.directory
                   [(CallConfirm Scenario.magic_token [3%N], late)] env)))
  = true.
Proof. vm_compute. repeat split; reflexivity. Qed.

(** C3, as worded, does not hold: [confirmAuthorization] compares no
    timestamp, so it accepts a request whose [expires_at] has passed when
    the store still returns it. *)
Lemma expiry_compared_on_every_read_claim_fails :
  ~ expiry_compared_on_every_read_claim.
Proof.
  intros (_ & Hconfirm & _).
  destruct confirm_accepts_lapsed_request as (_ & Haccepted & _).
  specialize (Hconfirm MockCustomer.directory
                (Scenario.after_init "a@example.com") Scenario.magic_token
                Scenario.request_id (Scenario.stored_request "a@example.com")
                [3%N] (Scenario.t0 + 11 * 60 * 1000)%Z).
  rewrite Haccepted in Hconfirm.
  assert (is_ok (Ok tt : result unit) = false) as Habs;
    [apply Hconfirm; vm_compute; reflexivity | discriminate].
Qed.

Lemma verify_payload_expired token h p s secret now fields e :
  Str.split_on "."%char token = [h; p; s] ->
  Jwt.sign (Jwt.signing_input h p) secret = Ok s ->
  decoded p = Some (JObj fields) ->
  Js.lookup_field "exp" fields = Some (JNum e) ->
  e <> 0%Z ->
  (e < Jwt.seconds now)%Z ->
  Jwt.verifyJWT token secret now = Err (Error "JWT expired").
Proof.
  intros Hsplit Hsign Hdec Hexp Hnz Hlt.
  unfold Jwt.verifyJWT. rewrite Hsplit, Hsign.
  cbn [mbind result_bind]. rewrite String.eqb_refl. cbn [negb].
  unfold decoded in Hdec.
  destruct (Base64.base64urlDecode p) as [text|]; [|discriminate].
  rewrite Hdec. cbn [get_property mbind result_bind]. rewrite Hexp.
  cbn [Js.truthy Js.lt_number Js.to_number].
  apply Z.eqb_neq in Hnz. rewrite Hnz.
  apply Z.ltb_lt in Hlt. rewrite Hlt. reflexivity.
Qed.

(** What the amended statement leaves aside: [poll] checks the client
    before the expiry, and [verify] skips the comparison for an [exp] of
    zero. *)
Lemma poll_checks_client_first :
  fst (Authorize.pollAuthorization Scenario.request_id "client-2"
         (Scenario.t0 + 600001)%Z (Scenario.after_init "a@example.com"))
  = Err (Error "Invalid client_id").
Proof. vm_compute. reflexivity. Qed.

Lemma verify_skips_exp_zero :
  declared_exp Scenario.epoch = Some (JNum 0) /\
  Jwt.verifyJWT Scenario.epoch Scenario.secret Scenario.t0
  = Ok Scenario.epoch_claims.
Proof. vm_compute. split; reflexivity. Qed.

(** C3, amended.  The reads that compare a timestamp reject a lapsed
    artifact that the store still returns, and write nothing: [poll] for
    the client of the request answers [expired]; [exchange] throws
    "Authorization code expired" for an unused code; [refresh] throws
    "Refresh token expired"; [verify] throws "JWT expired" for a correctly
    signed token whose [exp] is a non-zero number of seconds in the
    past. *)
Theorem expiry_compared_where_read :
  (forall env rid now stored,
      Kv.get rid (AUTH_REQUESTS env) = Some stored ->
      (expires_at stored < now)%Z ->
      Authorize.pollAuthorization rid (client_id stored) now env
      = (Ok (mkPoll poll_expired None None), env)) /\
  (forall env code v c entropy now row,
      Db.first_unused_auth_code code (DB_auth_codes env) = Some row ->
      (ac_expires_at row < now)%Z ->
      Token.exchangeCodeForTokens code v c entropy now env
      = (Err (Error "Authorization code expired"), env)) /\
  (forall env tok c entropy now row,
      Db.first_refresh_token tok (DB_refresh_tokens env) = Some row ->
      (rt_expires_at row < now)%Z ->
      Token.refreshAccessToken tok c entropy now env
      = (Err (Error "Refresh token expired"), env)) /\
  (forall token h p s secret now fields exp,
      Str.split_on "."%char token = [h; p; s] ->
      Jwt.sign (Jwt.signing_input h p) secret = Ok s ->
      decoded p = Some (JObj fields) ->
      Js.lookup_field "exp" fields = Some (JNum exp) ->
      exp <> 0%Z ->
      (exp < Jwt.seconds now)%Z ->
      Jwt.verifyJWT token secret now = Err (Error "JWT expired")).
Proof.
  repeat split.
  - intros env rid now stored Hget Hlt.
    unfold Authorize.pollAuthorization. unfold_m. rewrite Hget.
    rewrite String.eqb_refl. cbn [negb].
    apply Z.ltb_lt in Hlt. rewrite Hlt. reflexivity.
  - intros env code v c entropy now row Hrow Hlt.
    unfold Token.exchangeCodeForTokens. unfold_m. rewrite Hrow.
    apply Z.ltb_lt in Hlt. rewrite Hlt. reflexivity.
  - intros env tok c entropy now row Hrow Hlt.
    unfold Token.refreshAccessToken. unfold_m. rewrite Hrow.
    apply Z.ltb_lt in Hlt. rewrite Hlt. reflexivity.
  - intros. eapply verify_payload_expired; eassumption.
Qed.

Lemma expiry_compared_where_read_witness :
  Authorize.pollAuthorization Scenario.request_id
    (client_id (Scenario.stored_request "a@example.com"))
    (Scenario.t0 + 600001)%Z (Scenario.after_init "a@example.com")
  = (Ok (mkPoll poll_expired None None), Scenario.after_init "a@example.com") /\
  Token.exchangeCodeForTokens Scenario.auth_code Scenario.verifier "client-1"
    [5%N] (Scenario.t0 + 301001)%Z Scenario.after_confirm
  = (Err (Error "Authorization code expired"), Scenario.after_confirm) /\
  Token.refreshAccessToken Scenario.refresh_1 "client-1" [7%N]
    (Scenario.t0 + 31 * 24 * 60 * 60 * 1000)%Z Scenario.after_exchange
  = (Err (Error "Refresh token expired"), Scenario.after_exchange) /\
  Jwt.verifyJWT Scenario.access Scenario.secret (Scenario.t0 + 3605000)%Z
  = Err (Error "JWT expired").
Proof.
  destruct expiry_compared_where_read as (Hpoll & Hexchange & Hrefresh & Hverify).
  split; [|split; [|split]].
  - refine (Hpoll (Scenario.after_init "a@example.com") Scenario.request_id
              (Scenario.t0 + 600001)%Z
              (Scenario.stored_request "a@example.com") _ _);
      vm_compute; reflexivity.
  - refine (Hexchange Scenario.after_confirm Scenario.auth_code
              Scenario.verifier "client-1" [5%N] (Scenario.t0 + 301001)%Z
              Scenario.code_row _ _); vm_compute; reflexivity.
  - refine (Hrefresh Scenario.after_exchange Scenario.refresh_1 "client-1"
              [7%N] (Scenario.t0 + 31 * 24 * 60 * 60 * 1000)%Z
              Scenario.refresh_row _ _); vm_compute; reflexivity.
  - refine (Hverify Scenario.access (Scenario.part 0) (Scenario.part 1)
              (Scenario.part 2) Scenario.secret (Scenario.t0 + 3605000)%Z
              Scenario.claims 1700003604%Z _ _ _ _ _ _);
      try discriminate; vm_compute; reflexivity.
Defined.

(** ** Scope gate of the dispatcher *)

Lemma route_guarded {W} (h : @Rpc.Handlers W) method required params customerId scopes w :
  In (method, required) dispatched ->
  exists operation,
    Rpc.routeMethod h method params customerId scopes w
    = Rpc.guarded scopes required operation w.
Proof.
  unfold dispatched. cbn [In].
  intros Hin.
  repeat (destruct Hin as [Hin|Hin];
          [injection Hin as <- <-; eexists; reflexivity|]).
  contradiction.
Qed.

Lemma not_granted items required :
  ~ In (JStr required) items ->
  Rpc.includes (Some (JArr items)) required = Ok false.
Proof.
  intros Hnot. unfold Rpc.includes. f_equal.
  induction items as [|x items IH]; [reflexivity|].
  cbn [existsb]. rewrite IH by (intros Hin; apply Hnot; right; exact Hin).
  destruct x as [| | |s| |]; try reflexivity.
  destruct (String.eqb s required) eqn:E; [|reflexivity].
  apply String.eqb_eq in E. subst s. exfalso. apply Hnot. left. reflexivity.
Qed.

(** C4.  When the verified token carries a scope array without the scope
    a dispatched method requires, the dispatcher answers with the error
    -32001 whose message names that scope, under the request's id.  The
    answer is the same for every table of handlers and the world of the
    data operations comes back untouched: no handler has run. *)
Theorem missing_scope_is_refused {W} (h : @Rpc.Handlers W)
        request token secret now w payload items required :
  Jwt.verifyAccessToken token secret now = Ok payload ->
  get_property "scopes" payload = Ok (Some (JArr items)) ->
  In (rpc_method request, required) dispatched ->
  ~ In (JStr required) items ->
  Rpc.handleRPCRequest h request token secret now w
  = (RpcFailure (rpc_id request) (missing_scope required), w).
Proof.
  intros Hverify Hscopes Hin Hnot.
  unfold Rpc.handleRPCRequest. rewrite Hverify.
  unfold Rpc.serve. rewrite Hscopes.
  destruct payload as [| | | | |fields]; try discriminate.
  cbn [get_property].
  match goal with
  | |- context [Rpc.routeMethod h ?m ?p ?c ?s w] =>
      destruct (route_guarded h m required p c s w Hin) as [operation ->]
  end.
  unfold Rpc.guarded, Rpc.checkScope.
  rewrite (not_granted _ _ Hnot). cbn [mbind result_bind negb].
  reflexivity.
Qed.

Lemma missing_scope_is_refused_witness :
  Rpc.handleRPCRequest counting (mkRequest (JNum 7) "scp.get_loyalty" None)
    Scenario.access Scenario.secret (Scenario.t0 + 5000)%Z 0%nat
  = (RpcFailure (JNum 7) (missing_scope "loyalty"), 0%nat).
Proof.
  refine (missing_scope_is_refused counting
            (mkRequest (JNum 7) "scp.get_loyalty" None)
            Scenario.access Scenario.secret (Scenario.t0 + 5000)%Z 0%nat
            (JObj Scenario.claims) [JStr "orders"] "loyalty" _ _ _ _).
  - vm_compute; reflexivity.
  - vm_compute; reflexivity.
  - cbn. tauto.
  - intros [Heq | []]. discriminate.
Defined.

Lemma scope_granted items required :
  In (JStr required) items ->
  Rpc.checkScope (Some (JArr items)) required = Ok tt.
Proof.
  intros Hin. unfold Rpc.checkScope, Rpc.includes. cbn [mbind result_bind].
  replace (existsb _ items) with true; [reflexivity|].
  symmetry. apply existsb_exists. exists (JStr required).
  split; [exact Hin|apply String.eqb_refl].
Qed.

Lemma serve_params {W} (h : @Rpc.Handlers W) request payload sub scopes w :
  get_property "sub" payload = Ok sub ->
  get_property "scopes" payload = Ok scopes ->
  Rpc.serve h request payload w
  = (let (out, w') :=
       Rpc.routeMethod h (rpc_method request) (params_of request) sub scopes w in
     (respond request out, w')).
Proof.
  intros Hsub Hscopes. unfold Rpc.serve. rewrite Hsub, Hscopes.
  unfold params_of, Methods.or_default.
  destruct (rpc_params request) as [p|];
    destruct (Rpc.routeMethod _ _ _ _ _ _) as [[r|e] w']; reflexivity.
Qed.

Lemma handle_granted {W} (h : @Rpc.Handlers W)
        request token secret now w payload sub items required :
  Jwt.verifyAccessToken token secret now = Ok payload ->
  get_property "sub" payload = Ok sub ->
  get_property "scopes" payload = Ok (Some (JArr items)) ->
  In (rpc_method request, required) dispatched ->
  In (JStr required) items ->
  exists run,
    operation_of h (rpc_method request) sub (params_of request) = Some run /\
    Rpc.handleRPCRequest h request token secret now w
    = (respond request (fst (run w)), snd (run w)).
Proof.
  intros Hverify Hsub Hscopes Hroute Hgranted.
  unfold Rpc.handleRPCRequest. rewrite Hverify.
  rewrite (serve_params h request payload sub (Some (JArr items)) w Hsub Hscopes).
  unfold dispatched in Hroute. cbn [In] in Hroute.
  unfold Rpc.routeMethod, operation_of, Rpc.guarded.
  repeat (destruct Hroute as [Heq | Hroute];
          [injection Heq as <- <-; cbn [String.eqb Ascii.eqb Bool.eqb andb];
           rewrite (scope_granted _ _ Hgranted);
           eexists; split; [reflexivity|];
           match goal with |- context [?f w] =>
             destruct (f w) as [out w']; reflexivity end|]).
  destruct Hroute.
Qed.

Lemma handle_refused {W} (h : @Rpc.Handlers W)
        request token secret now w payload sub items required :
  Jwt.verifyAccessToken token secret now = Ok payload ->
  get_property "sub" payload = Ok sub ->
  get_property "scopes" payload = Ok (Some (JArr items)) ->
  In (rpc_method request, required) dispatched ->
  ~ In (JStr required) items ->
  Rpc.handleRPCRequest h request token secret now w
  = (RpcFailure (rpc_id request) (missing_scope required), w).
Proof.
  intros Hverify Hsub Hscopes Hroute Hnot.
  unfold Rpc.handleRPCRequest. rewrite Hverify.
  rewrite (serve_params h request payload sub (Some (JArr items)) w Hsub Hscopes).
  destruct (route_guarded h (rpc_method request) required (params_of request)
              sub (Some (JArr items)) w Hroute) as [run ->].
  unfold Rpc.guarded, Rpc.checkScope.
  rewrite (not_granted _ _ Hnot). reflexivity.
Qed.

(** ** A token without [exp] *)

(** C10.  A token of three parts whose third part is the signature of the
    first two, and whose payload decodes to a value without an [exp]
    property, is accepted by [verify] at every time [now]: the comparison
    is skipped and the payload is returned.  The dispatcher then answers
    as the scopes of the token say, at every time: a request for a
    dispatched method whose scope the token carries gets the outcome of
    the operation of that method, run for the subject of the token, and
    one whose scope it lacks gets the refusal that names the scope. *)
Theorem token_without_exp_never_expires {W} (h : @Rpc.Handlers W)
        token hd p s secret payload now :
  Str.split_on "."%char token = [hd; p; s] ->
  Jwt.sign (Jwt.signing_input hd p) secret = Ok s ->
  decoded p = Some payload ->
  get_property "exp" payload = Ok None ->
  Jwt.verifyJWT token secret now = Ok payload /\
  forall request items required w,
    get_property "scopes" payload = Ok (Some (JArr items)) ->
    In (rpc_method request, required) dispatched ->
    exists sub,
      get_property "sub" payload = Ok sub /\
      (In (JStr required) items ->
       exists run,
         operation_of h (rpc_method request) sub (params_of request)
         = Some run /\
         Rpc.handleRPCRequest h request token secret now w
         = (respond request (fst (run w)), snd (run w))) /\
      (~ In (JStr required) items ->
       Rpc.handleRPCRequest h request token secret now w
       = (RpcFailure (rpc_id request) (missing_scope required), w)).
Proof.
  intros Hsplit Hsign Hdec Hexp.
  assert (Hverify : Jwt.verifyJWT token secret now = Ok payload).
  { unfold Jwt.verifyJWT. rewrite Hsplit, Hsign.
    cbn [mbind result_bind]. rewrite String.eqb_refl. cbn [negb].
    unfold decoded in Hdec.
    destruct (Base64.base64urlDecode p) as [text|]; [|discriminate].
    rewrite Hdec, Hexp. reflexivity. }
  split; [exact Hverify|].
  intros request items required w Hscopes Hroute.
  assert (Hsub : exists sub, get_property "sub" payload = Ok sub).
  { destruct payload; try discriminate; eexists; reflexivity. }
  destruct Hsub as [sub Hsub]. exists sub. split; [exact Hsub|]. split.
  - intros Hin.
    exact (handle_granted h request token secret now w payload sub items
             required Hverify Hsub Hscopes Hroute Hin).
  - intros Hnot.
    exact (handle_refused h request token secret now w payload sub items
             required Hverify Hsub Hscopes Hroute Hnot).
Qed.

Lemma token_without_exp_never_expires_witness :
  Jwt.verifyJWT Scenario.eternal Scenario.secret Scenario.year_3000
  = Ok Scenario.eternal_claims /\
  forall request items required w,
    get_property "scopes" Scenario.eternal_claims = Ok (Some (JArr items)) ->
    In (rpc_method request, required) dispatched ->
    exists sub,
      get_property "sub" Scenario.eternal_claims = Ok sub /\
      (In (JStr required) items ->
       exists run,
         operation_of counting (rpc_method request) sub (params_of request)
         = Some run /\
         Rpc.handleRPCRequest counting request Scenario.eternal
           Scenario.secret Scenario.year_3000 w
         = (respond request (fst (run w)), snd (run w))) /\
      (~ In (JStr required) items ->
       Rpc.handleRPCRequest counting request Scenario.eternal
         Scenario.secret Scenario.year_3000 w
       = (RpcFailure (rpc_id request) (missing_scope required), w)).
Proof.
  refine (token_without_exp_never_expires counting Scenario.eternal
            (Scenario.part 0) Scenario.eternal_part
            (nth 2 (Str.split_on "."%char Scenario.eternal) "")
            Scenario.secret Scenario.eternal_claims Scenario.year_3000
            _ _ _ _); vm_compute; reflexivity.
Defined.

(** In the year 3000 the dispatcher runs [get_orders] for that token. *)
Lemma eternal_token_served :
  Scenario.eternal =
  String.append "eyJhbGciOiJIUzI1NiIsInR5cCI6IkpXVCJ9."
    (String.append
       "eyJzdWIiOiJjdXN0X2IxcDA4MiIsInNjb3BlcyI6WyJvcmRlcnMiXX0"
       ".qVX6xv4_sMsBsPoMIfwOpOkG3df4sxLzkz2gSJ6a2k4") /\
  Rpc.handleRPCRequest counting (mkRequest (JNum 1) "scp.get_orders" None)
    Scenario.eternal Scenario.secret Scenario.year_3000 0%nat
  = (RpcResult (JNum 1) JNull, 1%nat).
Proof. vm_compute. split; reflexivity. Qed.

(** ** Refresh: scopes and rotation *)

Lemma refresh_inv tok c e now env r env1 :
  Token.refreshAccessToken tok c e now env = (Ok r, env1) ->
  exists row access,
    Db.first_refresh_token tok (DB_refresh_tokens env) = Some row /\
    (rt_expires_at row <? now)%Z = false /\
    String.eqb (rt_client_id row) c = true /\
    Jwt.generateAccessToken (rt_cordial_contact_id row) (rt_customer_email row)
      (rt_scopes row) (JWT_SECRET env) now = Ok access /\
    r = mkTokens access (Jwt.generateRefreshToken e) "Bearer" 3600
          (Str.join " " (rt_scopes row)) None None /\
    Db.rotate_refresh_token (Jwt.generateRefreshToken e) now tok
      (DB_refresh_tokens env) = Ok (DB_refresh_tokens env1) /\
    DB_auth_codes env1 = DB_auth_codes env /\
    AUTH_REQUESTS env1 = AUTH_REQUESTS env /\
    MAGIC_LINK_TOKENS env1 = MAGIC_LINK_TOKENS env /\
    JWT_SECRET env1 = JWT_SECRET env.
Proof.
  unfold Token.refreshAccessToken. unfold_m.
  destruct (Db.first_refresh_token tok (DB_refresh_tokens env)) as [row|] eqn:Hrow;
    [|discriminate].
  destruct (rt_expires_at row <? now)%Z eqn:Hexp; [discriminate|].
  destruct (String.eqb (rt_client_id row) c) eqn:Hc; cbn [negb]; [|discriminate].
  destruct (Jwt.generateAccessToken _ _ _ _ _) as [access|err] eqn:Htok;
    [|discriminate].
  destruct (Db.rotate_refresh_token _ _ _ _) as [t|err] eqn:Hrot; [|discriminate].
  intros Heq. injection Heq as <- <-.
  exists row, access. cbn. auto 12.
Qed.

Lemma rotate_inv new now old t t' :
  Db.rotate_refresh_token new now old t = Ok t' ->
  t' = List.map (fun r => if String.eqb (rt_token r) old
                          then Db.set_token new now r else r) t.
Proof.
  unfold Db.rotate_refresh_token.
  destruct (_ && _ && _); [discriminate|]. intros [= <-]. reflexivity.
Qed.

Lemma rotate_scopes new now old t :
  List.map rt_scopes
    (List.map (fun r => if String.eqb (rt_token r) old
                        then Db.set_token new now r else r) t)
  = List.map rt_scopes t.
Proof.
  induction t as [|r t IH]; [reflexivity|].
  cbn [List.map]. rewrite IH. destruct (String.eqb (rt_token r) old); reflexivity.
Qed.

Lemma rotate_frame new now old t :
  Forall2 (rotated old new now) t
    (List.map (fun r => if String.eqb (rt_token r) old
                        then Db.set_token new now r else r) t).
Proof.
  induction t as [|r t IH]; [constructor|].
  cbn [List.map]. constructor; [|exact IH].
  unfold rotated. destruct (String.eqb (rt_token r) old) eqn:E.
  - apply String.eqb_eq in E. cbn. repeat split; congruence.
  - apply String.eqb_neq in E. repeat split; congruence.
Qed.

Lemma rotate_old_gone new now old t :
  new <> old ->
  Db.first_refresh_token old
    (List.map (fun r => if String.eqb (rt_token r) old
                        then Db.set_token new now r else r) t) = None.
Proof.
  intros Hne. unfold Db.first_refresh_token.
  induction t as [|r t IH]; [reflexivity|].
  cbn [List.map List.find].
  destruct (String.eqb (rt_token r) old) eqn:E.
  - cbn [Db.set_token rt_token].
    apply String.eqb_neq in Hne. rewrite Hne. exact IH.
  - rewrite E. exact IH.
Qed.

(** The grant itself: a successful exchange answers with the scopes of
    the code row and stores them in the row of the refresh token it
    returns. *)
Lemma exchange_stores_granted_scopes code v c e now env r env1 :
  Token.exchangeCodeForTokens code v c e now env = (Ok r, env1) ->
  exists granted stored,
    Db.first_unused_auth_code code (DB_auth_codes env) = Some granted /\
    scope r = Str.join " " (ac_scopes granted) /\
    Db.first_refresh_token (refresh_token r) (DB_refresh_tokens env1)
    = Some stored /\
    rt_scopes stored = ac_scopes granted.
Proof.
  intros Hrun.
  destruct (exchange_inv _ _ _ _ _ _ _ _ Hrun)
    as (row & tok & Hrow & _ & _ & _ & _ & -> & _ & _ & _ & _ & Hins).
  exists row. eexists. split; [exact Hrow|]. split; [reflexivity|].
  cbn [refresh_token]. unfold Db.insert_refresh_token in Hins.
  destruct (existsb _ (DB_refresh_tokens env)) eqn:Hdup; [discriminate|].
  injection Hins as <-. unfold Db.first_refresh_token.
  rewrite find_append.
  destruct (List.find _ (DB_refresh_tokens env)) as [found|] eqn:Hfound.
  - apply find_some in Hfound. destruct Hfound as [Hin Heq].
    assert (Hex : existsb (fun r => String.eqb (rt_token r)
                     (Jwt.generateRefreshToken e)) (DB_refresh_tokens env) = true)
      by (apply existsb_exists; exists found; split; assumption).
    cbn [rt_token] in Hdup. rewrite Hex in Hdup. discriminate.
  - cbn [List.find rt_token]. rewrite String.eqb_refl. split; reflexivity.
Qed.

(** The claims [verify] reads back from the access token of the refresh
    of the run carry the scopes of the row. *)
Lemma refreshed_token_claims :
  Jwt.verifyJWT (access_token (Scenario.issued Scenario.refresh_run))
    Scenario.secret (Scenario.t0 + 7000)%Z
  = Ok (Jwt.TokenPayload "cust_b1p082" "a@example.com" ["orders"]
          1700000006 1700003606).
Proof. vm_compute. reflexivity. Qed.

(** Rotation relies on the generated value being new: were the entropy of
    a refresh to give back the presented value, the refresh would succeed
    and that value would still resolve. *)
Lemma rotation_needs_a_new_value :
  let out := Token.refreshAccessToken Scenario.refresh_1 "client-1" [5%N]
               (Scenario.t0 + 6000)%Z Scenario.after_exchange in
  refresh_token (Scenario.issued out) = Scenario.refresh_1 /\
  is_ok (fst out) = true /\
  Db.first_refresh_token Scenario.refresh_1 (DB_refresh_tokens (snd out))
  <> None.
Proof. vm_compute. repeat split; discriminate. Qed.

(** C6, as worded, does not hold: the code never compares the generated
    value with the presented one, so on that refresh, which succeeds, the
    presented value still finds its row. *)
Lemma refresh_rotation_claim_fails : ~ refresh_rotation_claim.
Proof.
  intros Hclaim.
  destruct rotation_needs_a_new_value as (_ & _ & Hkept).
  apply Hkept.
  refine (proj1 (proj2 (proj2
            (Hclaim Scenario.refresh_1 "client-1" [5%N] (Scenario.t0 + 6000)%Z
               Scenario.after_exchange
               (Scenario.issued
                  (Token.refreshAccessToken Scenario.refresh_1 "client-1"
                     [5%N] (Scenario.t0 + 6000)%Z Scenario.after_exchange))
               (snd (Token.refreshAccessToken Scenario.refresh_1 "client-1"
                       [5%N] (Scenario.t0 + 6000)%Z Scenario.after_exchange))
               "client-1" [8%N] (Scenario.t0 + 7000)%Z "" "" _)))).
  vm_compute. reflexivity.
Qed.

(** C6, amended.  A successful refresh that generated a value other than
    the one presented rewrites the table in place: row for row the table is the
    old one, the row found under the old value now carrying the new value
    and [last_used], every other column and every other row unchanged;
    the codes table is untouched.  The old value then resolves to no row:
    a later refresh with it throws "Invalid refresh token", which the
    token route answers with 400 [invalid_grant], writing nothing. *)
Theorem refresh_rotates_in_place tok c e now env r env1 c' e' now' code' v' :
  Token.refreshAccessToken tok c e now env = (Ok r, env1) ->
  refresh_token r <> tok ->
  Forall2 (rotated tok (refresh_token r) now)
          (DB_refresh_tokens env) (DB_refresh_tokens env1) /\
  List.length (DB_refresh_tokens env1) = List.length (DB_refresh_tokens env) /\
  Db.first_refresh_token tok (DB_refresh_tokens env1) = None /\
  DB_auth_codes env1 = DB_auth_codes env /\
  Token.refreshAccessToken tok c' e' now' env1
  = (Err (Error "Invalid refresh token"), env1) /\
  post_token (mkBody "refresh_token" code' v' c' tok) e' now' env1
  = (TokenFailure 400 "invalid_grant" "Invalid refresh token", env1).
Proof.
  intros Hrun Hfresh.
  destruct (refresh_inv _ _ _ _ _ _ _ Hrun)
    as (row & access & Hrow & _ & _ & Haccess & -> & Hrot & Hcodes & _).
  cbn [refresh_token] in *.
  rewrite (rotate_inv _ _ _ _ _ Hrot).
  assert (Hgone : Db.first_refresh_token tok
            (List.map (fun r => if String.eqb (rt_token r) tok
                                then Db.set_token (Jwt.generateRefreshToken e) now r
                                else r) (DB_refresh_tokens env)) = None)
    by (apply rotate_old_gone, Hfresh).
  assert (Hfail : Token.refreshAccessToken tok c' e' now' env1
                  = (Err (Error "Invalid refresh token"), env1)).
  { unfold Token.refreshAccessToken. unfold_m.
    rewrite (rotate_inv _ _ _ _ _ Hrot), Hgone. reflexivity. }
  repeat split.
  - apply rotate_frame.
  - apply List.length_map.
  - exact Hgone.
  - exact Hcodes.
  - exact Hfail.
  - unfold post_token. cbn [grant_type body_refresh_token body_client_id].
    replace (String.eqb "refresh_token" "authorization_code") with false
      by reflexivity.
    replace (String.eqb "refresh_token" "refresh_token") with true
      by reflexivity.
    rewrite Hfail. reflexivity.
Qed.

Lemma refresh_rotates_in_place_witness :
  Forall2 (rotated Scenario.refresh_1
             (refresh_token (Scenario.issued Scenario.refresh_run))
             (Scenario.t0 + 6000)%Z)
          (DB_refresh_tokens Scenario.after_exchange)
          (DB_refresh_tokens Scenario.after_refresh) /\
  List.length (DB_refresh_tokens Scenario.after_refresh)
  = List.length (DB_refresh_tokens Scenario.after_exchange) /\
  Db.first_refresh_token Scenario.refresh_1
    (DB_refresh_tokens Scenario.after_refresh) = None /\
  DB_auth_codes Scenario.after_refresh = DB_auth_codes Scenario.after_exchange /\
  Token.refreshAccessToken Scenario.refresh_1 "client-1" [8%N]
    (Scenario.t0 + 7000)%Z Scenario.after_refresh
  = (Err (Error "Invalid refresh token"), Scenario.after_refresh) /\
  post_token (mkBody "refresh_token" "" "" "client-1" Scenario.refresh_1)
    [8%N] (Scenario.t0 + 7000)%Z Scenario.after_refresh
  = (TokenFailure 400 "invalid_grant" "Invalid refresh token",
     Scenario.after_refresh).
Proof.
  refine (refresh_rotates_in_place Scenario.refresh_1 "client-1" [7%N]
            (Scenario.t0 + 6000)%Z Scenario.after_exchange
            (Scenario.issued Scenario.refresh_run) Scenario.after_refresh
            "client-1" [8%N] (Scenario.t0 + 7000)%Z "" "" _ _).
  - vm_compute; reflexivity.
  - vm_compute. discriminate.
Defined.

(** ** The token codec: header and expiry *)

Lemma dot_free_append a b :
  dot_free (String.append a b) = dot_free a && dot_free b.
Proof.
  induction a as [|c a IH]; [reflexivity|].
  rewrite append_cons. cbn [dot_free]. rewrite IH. apply andb_assoc.
Qed.

Lemma split_dot_free s : dot_free s = true -> Str.split_on "."%char s = [s].
Proof.
  induction s as [|c s IH]; [reflexivity|].
  cbn [dot_free Str.split_on]. intros [Hc Hs]%andb_prop.
  apply negb_true_iff in Hc. rewrite Hc, (IH Hs). reflexivity.
Qed.

Lemma split_at_dot a b :
  dot_free a = true ->
  Str.split_on "."%char (String.append a (String "."%char b))
  = a :: Str.split_on "."%char b.
Proof.
  induction a as [|c a IH]; [reflexivity|].
  cbn [dot_free]. intros [Hc Ha]%andb_prop.
  rewrite append_cons. cbn [Str.split_on].
  apply negb_true_iff in Hc. rewrite Hc, (IH Ha). reflexivity.
Qed.

Lemma append_assoc a b c :
  String.append (String.append a b) c = String.append a (String.append b c).
Proof.
  induction a as [|x a IH]; [reflexivity|].
  rewrite !append_cons, IH. reflexivity.
Qed.

Lemma dot_append x : String.append "." x = String "."%char x.
Proof. reflexivity. Qed.

Lemma split_three h p s :
  dot_free h = true -> dot_free p = true -> dot_free s = true ->
  Str.split_on "."%char
    (String.append (Jwt.signing_input h p) (String.append "." s)) = [h; p; s].
Proof.
  intros Hh Hp Hs. unfold Jwt.signing_input.
  rewrite !append_assoc, !dot_append.
  rewrite (split_at_dot _ _ Hh), (split_at_dot _ _ Hp), (split_dot_free _ Hs).
  reflexivity.
Qed.

Lemma digit_dot_free n : Ascii.eqb (Base64.digit n) "."%char = false.
Proof.
  unfold Base64.digit. generalize (N.to_nat n) as k. intros k.
  do 64 (destruct k as [|k]; [reflexivity|]). reflexivity.
Qed.

Lemma btoa_dot_free l : dot_free (Base64.btoa_bytes l) = true.
Proof.
  remember (List.length l) as n eqn:Hn.
  revert l Hn. induction n as [n IH] using lt_wf_ind. intros l Hn.
  destruct l as [|a [|b [|c rest]]]; cbn [Base64.btoa_bytes dot_free];
    rewrite ?digit_dot_free; cbn [negb andb]; try reflexivity.
  apply (IH (List.length rest)); [subst n; cbn [List.length]; lia|reflexivity].
Qed.

Lemma replace_dot_free c rep s :
  dot_free rep = true -> dot_free s = true ->
  dot_free (Str.replace_all_char c rep s) = true.
Proof.
  intros Hrep. induction s as [|a s IH]; [reflexivity|].
  cbn [dot_free Str.replace_all_char]. intros [Ha Hs]%andb_prop.
  destruct (Ascii.eqb a c).
  - rewrite dot_free_append, Hrep, (IH Hs). reflexivity.
  - cbn [dot_free]. rewrite Ha, (IH Hs). reflexivity.
Qed.

Lemma sign_dot_free data secret s :
  Jwt.sign data secret = Ok s -> dot_free s = true.
Proof.
  unfold Jwt.sign. destruct secret; [discriminate|]. intros [= <-].
  unfold Base64.base64urlEncode_buf, Base64.url_safe.
  repeat apply replace_dot_free; try reflexivity. apply btoa_dot_free.
Qed.

Lemma assemble_verify h p secret t now :
  dot_free h = true -> dot_free p = true ->
  assemble h p secret = Ok t ->
  Jwt.verifyJWT t secret now
  = match decoded p with
    | None =>
        match Base64.base64urlDecode p with
        | None => Err (HostError "InvalidCharacterError")
        | Some _ => Err (HostError "SyntaxError")
        end
    | Some payload =>
        match get_property "exp" payload with
        | Err e => Err e
        | Ok exp =>
            if Js.truthy exp &&
               match exp with
               | Some e => Js.lt_number e (Jwt.seconds now)
               | None => false
               end
            then Err (Error "JWT expired") else Ok payload
        end
    end.
Proof.
  intros Hh Hp. unfold assemble.
  destruct (Jwt.sign (Jwt.signing_input h p) secret) as [s|err] eqn:Hsign;
    cbn [mbind result_bind]; [|discriminate].
  intros [= <-]. unfold Jwt.verifyJWT.
  rewrite (split_three _ _ _ Hh Hp (sign_dot_free _ _ _ Hsign)), Hsign.
  cbn [mbind result_bind]. rewrite String.eqb_refl. cbn [negb].
  unfold decoded.
  destruct (Base64.base64urlDecode p) as [text|]; [|reflexivity].
  destruct (Json.parse text) as [payload|]; [|reflexivity].
  destruct (get_property "exp" payload); reflexivity.
Qed.

Lemma base64urlEncode_dot_free s : dot_free (Base64.base64urlEncode s) = true.
Proof.
  unfold Base64.base64urlEncode, Base64.url_safe, Base64.btoa.
  repeat apply replace_dot_free; try reflexivity. apply btoa_dot_free.
Qed.

(** In particular for the tokens [createJWT] makes: the same claims under
    any other header object, signed the same way, verify as they do. *)
Lemma other_header_same_verdict other payload secret now relabelled regular :
  assemble (Base64.base64urlEncode (Json.stringify other))
           (Base64.base64urlEncode (Json.stringify payload)) secret
  = Ok relabelled ->
  Jwt.createJWT payload secret = Ok regular ->
  Jwt.verifyJWT relabelled secret now = Jwt.verifyJWT regular secret now.
Proof.
  intros Hother Hregular.
  rewrite (assemble_verify _ _ _ _ now (base64urlEncode_dot_free _)
             (base64urlEncode_dot_free _) Hother).
  rewrite (assemble_verify _ _ _ _ now (base64urlEncode_dot_free _)
             (base64urlEncode_dot_free _) Hregular).
  reflexivity.
Qed.

(** The access token of the run, relabelled HS512 and signed again with
    HMAC-SHA-256, verifies. *)
Lemma relabelled_token_accepted :
  Scenario.relabelled =
  String.append "eyJhbGciOiJIUzUxMiIsInR5cCI6IkpXVCJ9."
    (String.append
       "eyJzdWIiOiJjdXN0X2IxcDA4MiIsImVtYWlsIjoiYUBleGFtcGxlLmNvbSIsInNjb3BlcyI6WyJvcmRlcnMiXSwidHlwZSI6ImFjY2Vzc190b2tlbiIsImlhdCI6MTcwMDAwMDAwNCwiZXhwIjoxNzAwMDAzNjA0fQ"
       ".89_-ismaxzcwqKk9yhSfldlQWkrp8pke3Kc0XvtJSo0") /\
  declared_alg Scenario.relabelled = Some "HS512" /\
  Jwt.verifyJWT Scenario.relabelled Scenario.secret (Scenario.t0 + 5000)%Z
  = Ok (JObj Scenario.claims).
Proof. vm_compute. repeat split; reflexivity. Qed.

(** C7, as worded, does not hold: [verifyJWT] never decodes the header,
    so the relabelled token is accepted. *)
Lemma other_alg_rejected_claim_fails : ~ other_alg_rejected_claim.
Proof.
  intros Hclaim.
  destruct relabelled_token_accepted as (_ & Halg & Hok).
  assert (Habs : is_ok (Jwt.verifyJWT Scenario.relabelled Scenario.secret
                          (Scenario.t0 + 5000)%Z) = false)
    by (apply (Hclaim _ _ _ "HS512"); [exact Halg | discriminate]).
  rewrite Hok in Habs. discriminate Habs.
Qed.

(** C7, amended.  The header is signed over but not read: two tokens
    that carry the same payload part and are each signed, as [sign] signs,
    over their own first two parts get the same verdict from [verify],
    whatever their headers declare.  A token relabelled with another
    algorithm is thus accepted exactly when the HS256 token of the same
    claims is. *)
Theorem declared_alg_is_not_read h1 h2 p secret now t1 t2 :
  dot_free h1 = true -> dot_free h2 = true -> dot_free p = true ->
  assemble h1 p secret = Ok t1 ->
  assemble h2 p secret = Ok t2 ->
  Jwt.verifyJWT t1 secret now = Jwt.verifyJWT t2 secret now.
Proof.
  intros H1 H2 Hp Ht1 Ht2.
  rewrite (assemble_verify _ _ _ _ now H1 Hp Ht1).
  rewrite (assemble_verify _ _ _ _ now H2 Hp Ht2). reflexivity.
Qed.


Lemma declared_alg_is_not_read_witness :
  Jwt.verifyJWT Scenario.relabelled Scenario.secret (Scenario.t0 + 5000)%Z
  = Jwt.verifyJWT Scenario.access Scenario.secret (Scenario.t0 + 5000)%Z.
Proof.
  refine (declared_alg_is_not_read Scenario.hs512_header (Scenario.part 0)
            (Scenario.part 1) Scenario.secret (Scenario.t0 + 5000)%Z
            Scenario.relabelled Scenario.access _ _ _ _ _);
    vm_compute; reflexivity.
Defined.

(** The access token of the run, two hours on and checked under another
    secret: its [exp] has passed, and the error is the signature's. *)
Lemma expired_token_with_bad_signature :
  declared_exp Scenario.access = Some (JNum 1700003604) /\
  (1700003604 < Jwt.seconds (Scenario.t0 + 2 * 3600 * 1000))%Z /\
  Jwt.verifyJWT Scenario.access "another-secret"
    (Scenario.t0 + 2 * 3600 * 1000)%Z
  = Err (Error "Invalid JWT signature").
Proof. vm_compute. repeat split; reflexivity. Qed.

(** C8, as worded, does not hold: the signature is compared before the
    payload is decoded, so an expired token with a bad signature fails on
    the signature. *)
Lemma expired_whatever_the_signature_claim_fails :
  ~ expired_whatever_the_signature_claim.
Proof.
  intros Hclaim.
  destruct expired_token_with_bad_signature as (Hexp & Hpast & Hbad).
  pose proof (eq_trans (eq_sym Hbad)
                (Hclaim Scenario.access "another-secret"
                   (Scenario.t0 + 2 * 3600 * 1000)%Z 1700003604%Z Hexp Hpast))
    as Habs.
  discriminate Habs.
Qed.

(** C8, amended.  Under a non-empty secret, a three-part token whose
    payload carries a non-zero [exp] in the past never verifies: it fails
    with "JWT expired" when its third part is the expected signature and
    with "Invalid JWT signature" when it is not. *)
Theorem expired_token_never_verifies token h p s secret now fields exp :
  Str.split_on "."%char token = [h; p; s] ->
  secret <> "" ->
  decoded p = Some (JObj fields) ->
  Js.lookup_field "exp" fields = Some (JNum exp) ->
  exp <> 0%Z ->
  (exp < Jwt.seconds now)%Z ->
  exists expected,
    Jwt.sign (Jwt.signing_input h p) secret = Ok expected /\
    Jwt.verifyJWT token secret now
    = Err (Error (if String.eqb s expected
                  then "JWT expired" else "Invalid JWT signature")).
Proof.
  intros Hsplit Hsecret Hdec Hexp Hnz Hlt.
  destruct (Jwt.sign (Jwt.signing_input h p) secret) as [expected|err] eqn:Hsign.
  - exists expected. split; [reflexivity|].
    destruct (String.eqb s expected) eqn:Heq.
    + apply String.eqb_eq in Heq. subst expected.
      eapply verify_payload_expired; eassumption.
    + unfold Jwt.verifyJWT. rewrite Hsplit, Hsign.
      cbn [mbind result_bind]. rewrite Heq. reflexivity.
  - unfold Jwt.sign in Hsign. destruct secret; [contradiction|discriminate].
Qed.

Lemma expired_token_never_verifies_witness :
  exists expected,
    Jwt.sign (Jwt.signing_input (Scenario.part 0) (Scenario.part 1))
      "another-secret" = Ok expected /\
    Jwt.verifyJWT Scenario.access "another-secret"
      (Scenario.t0 + 2 * 3600 * 1000)%Z
    = Err (Error (if String.eqb (Scenario.part 2) expected
                  then "JWT expired" else "Invalid JWT signature")).
Proof.
  refine (expired_token_never_verifies Scenario.access (Scenario.part 0)
            (Scenario.part 1) (Scenario.part 2) "another-secret"
            (Scenario.t0 + 2 * 3600 * 1000)%Z Scenario.claims 1700003604%Z
            _ _ _ _ _ _); try discriminate; vm_compute; reflexivity.
Defined.

(** ** The fold of the intent log *)

Lemma map_get_set_same {V} x (v : V) m :
  Intents.map_get x (Intents.map_set x v m) = Some v.
Proof.
  induction m as [|[k w] m IH]; cbn [Intents.map_set Intents.map_get].
  - rewrite String.eqb_refl. reflexivity.
  - destruct (String.eqb k x) eqn:E; cbn [Intents.map_get].
    + rewrite String.eqb_refl. reflexivity.
    + rewrite E. exact IH.
Qed.

Lemma map_get_set_other {V} x y (v : V) m :
  String.eqb y x = false ->
  Intents.map_get x (Intents.map_set y v m) = Intents.map_get x m.
Proof.
  intros Hne. induction m as [|[k w] m IH]; cbn [Intents.map_set Intents.map_get].
  - rewrite Hne. reflexivity.
  - destruct (String.eqb k y) eqn:E; cbn [Intents.map_get].
    + apply String.eqb_eq in E. subst k. rewrite Hne. reflexivity.
    + rewrite IH. reflexivity.
Qed.

Lemma map_get_alter_same {V} x (f : V -> V) m :
  Intents.map_get x (Intents.map_alter f x m)
  = option_map f (Intents.map_get x m).
Proof.
  induction m as [|[k w] m IH]; [reflexivity|].
  cbn [Intents.map_alter Intents.map_get].
  destruct (String.eqb k x) eqn:E; cbn [Intents.map_get]; rewrite E;
    [reflexivity|exact IH].
Qed.

Lemma map_get_alter_other {V} x y (f : V -> V) m :
  String.eqb y x = false ->
  Intents.map_get x (Intents.map_alter f y m) = Intents.map_get x m.
Proof.
  intros Hne. induction m as [|[k w] m IH]; [reflexivity|].
  cbn [Intents.map_alter Intents.map_get].
  destruct (String.eqb k y) eqn:E; cbn [Intents.map_get].
  - apply String.eqb_eq in E. subst k. rewrite Hne. reflexivity.
  - rewrite IH. reflexivity.
Qed.

Lemma group_step_entry x m a :
  Intents.map_get x (Intents.group_step m a)
  = entry_step x (Intents.map_get x m) a.
Proof.
  unfold Intents.group_step, entry_step, about.
  destruct (Intents.intent_id_of a) as [y|]; [|reflexivity].
  destruct (String.eqb y x) eqn:Hyx.
  - apply String.eqb_eq in Hyx. subst y. cbn [andb].
    destruct (Str.truthy x); cbn [negb]; [|reflexivity].
    destruct (String.eqb (action a) "scp_intent_created").
    + apply map_get_set_same.
    + unfold Intents.map_has.
      destruct (Intents.map_get x m) as [g|] eqn:Hg.
      * rewrite map_get_alter_same, Hg. reflexivity.
      * exact Hg.
  - cbn [andb].
    destruct (Str.truthy y); cbn [negb]; [|reflexivity].
    destruct (String.eqb (action a) "scp_intent_created").
    + apply map_get_set_other, Hyx.
    + destruct (Intents.map_has y m); [|reflexivity].
      apply map_get_alter_other, Hyx.
Qed.

Lemma group_entry_fold x l m :
  Intents.map_get x (fold_left Intents.group_step l m)
  = fold_left (entry_step x) l (Intents.map_get x m).
Proof.
  revert m. induction l as [|a l IH]; intros m; [reflexivity|].
  cbn [fold_left]. rewrite IH, group_step_entry. reflexivity.
Qed.

Lemma entry_fold_filter x l g :
  fold_left (entry_step x) l g
  = fold_left (entry_step x) (List.filter (about x) l) g.
Proof.
  revert g. induction l as [|a l IH]; intros g; [reflexivity|].
  cbn [fold_left List.filter].
  destruct (about x a) eqn:Ha; cbn [fold_left].
  - apply IH.
  - rewrite IH. unfold entry_step at 2. rewrite Ha. reflexivity.
Qed.

Lemma keys_map_set_in {V} k (v : V) m y :
  In y (keys (Intents.map_set k v m)) -> y = k \/ In y (keys m).
Proof.
  induction m as [|[k' w] m IH]; cbn [Intents.map_set].
  - cbn. intros [<-|[]]. left. reflexivity.
  - destruct (String.eqb k' k) eqn:E.
    + apply String.eqb_eq in E. subst k'. cbn. tauto.
    + cbn. intros [<-|Hy]; [tauto|]. destruct (IH Hy); tauto.
Qed.

Lemma keys_map_set {V} k (v : V) m :
  List.NoDup (keys m) -> List.NoDup (keys (Intents.map_set k v m)).
Proof.
  induction m as [|[k' w] m IH]; cbn [Intents.map_set].
  - intros _. cbn. constructor; [intros []|constructor].
  - intros Hnd. cbn in Hnd. inversion Hnd as [|? ? Hnotin Hnd']. subst.
    destruct (String.eqb k' k) eqn:E.
    + apply String.eqb_eq in E. subst k'. cbn. constructor; assumption.
    + cbn. constructor; [|apply IH, Hnd'].
      intros Hin. destruct (keys_map_set_in _ _ _ _ Hin) as [->|Hin'].
      * rewrite String.eqb_refl in E. discriminate.
      * exact (Hnotin Hin').
Qed.

Lemma keys_map_alter {V} k (f : V -> V) m :
  keys (Intents.map_alter f k m) = keys m.
Proof.
  induction m as [|[k' w] m IH]; [reflexivity|].
  cbn [Intents.map_alter]. destruct (String.eqb k' k); cbn [keys List.map fst].
  - reflexivity.
  - f_equal. exact IH.
Qed.

Lemma group_step_nodup m a :
  List.NoDup (keys m) -> List.NoDup (keys (Intents.group_step m a)).
Proof.
  intros Hnd. unfold Intents.group_step.
  destruct (Intents.intent_id_of a) as [y|]; [|exact Hnd].
  destruct (Str.truthy y); cbn [negb]; [|exact Hnd].
  destruct (String.eqb (action a) "scp_intent_created").
  - apply keys_map_set, Hnd.
  - destruct (Intents.map_has y m); [|exact Hnd].
    rewrite keys_map_alter. exact Hnd.
Qed.

Lemma group_nodup l : List.NoDup (keys (Intents.group l)).
Proof.
  unfold Intents.group.
  assert (H : forall m, List.NoDup (keys m) ->
                        List.NoDup (keys (fold_left Intents.group_step l m))).
  { induction l as [|a l IH]; intros m Hnd; [exact Hnd|].
    cbn [fold_left]. apply IH, group_step_nodup, Hnd. }
  apply H. constructor.
Qed.

Lemma filter_key {V} x (v : V) m :
  List.NoDup (keys m) ->
  Intents.map_get x m = Some v ->
  List.filter (fun kv => String.eqb (fst kv) x) m = [(x, v)].
Proof.
  induction m as [|[k w] m IH]; [discriminate|].
  cbn [keys List.map fst Intents.map_get List.filter].
  intros Hnd. inversion Hnd as [|? ? Hnotin Hnd']. subst.
  destruct (String.eqb k x) eqn:E.
  - intros [= ->]. apply String.eqb_eq in E. subst k. f_equal.
    clear IH Hnd Hnd'.
    induction m as [|[k' w'] m IH]; [reflexivity|].
    cbn [List.filter fst]. cbn [keys List.map fst] in Hnotin.
    destruct (String.eqb k' x) eqn:E'.
    + apply String.eqb_eq in E'. subst k'. exfalso. apply Hnotin. left.
      reflexivity.
    + apply IH. intros Hin. apply Hnotin. right. exact Hin.
  - intros Hget. exact (IH Hnd' Hget).
Qed.

Lemma filter_intents customerId x m :
  List.filter (fun i => String.eqb (i_intent_id i) x)
    (List.map (fun kv => Intents.intent_of customerId (fst kv) (snd kv)) m)
  = List.map (fun kv => Intents.intent_of customerId (fst kv) (snd kv))
      (List.filter (fun kv => String.eqb (fst kv) x) m).
Proof.
  induction m as [|[k g] m IH]; [reflexivity|].
  cbn [List.map List.filter fst snd].
  replace (i_intent_id (Intents.intent_of customerId k g)) with k
    by (unfold Intents.intent_of; destruct (Intents.latest_status _ _);
        reflexivity).
  destruct (String.eqb k x); cbn [List.map fst snd]; rewrite IH; reflexivity.
Qed.

(** The intent of [x] is rebuilt from the activities that name [x]
    alone. *)
Lemma transform_entry customerId x log g :
  fold_left (entry_step x) (List.filter (about x) log) None = Some g ->
  List.filter (fun i => String.eqb (i_intent_id i) x)
    (Intents.transformIntentsToSCP customerId log)
  = [Intents.intent_of customerId x g].
Proof.
  intros Hg. unfold Intents.transformIntentsToSCP.
  rewrite filter_intents.
  rewrite (filter_key x g).
  - reflexivity.
  - apply group_nodup.
  - unfold Intents.group. rewrite group_entry_fold, entry_fold_filter.
    exact Hg.
Qed.

(** C9.  In a log whose activities naming intent [x] end with, in this
    order, its creation, an update carrying the status [fulfilled] and an
    update carrying no status (earlier activities of [x] may come before
    the creation, and activities of other intents anywhere in between),
    the fold yields exactly one intent for [x]; its status is [fulfilled]
    and its [updated_at] is the timestamp of the update that carried the
    status, not that of the last update.  Its three milestones are there
    in log order. *)
Theorem fold_keeps_last_carried_status customerId x log earlier c u1 u2 :
  x <> "" ->
  List.filter (about x) log = earlier ++ [c; u1; u2] ->
  action c = "scp_intent_created" ->
  action u1 = "scp_intent_updated" ->
  Intents.field d_status u1 = Some "fulfilled" ->
  action u2 = "scp_intent_updated" ->
  Intents.field d_status u2 = None ->
  exists intent,
    List.filter (fun i => String.eqb (i_intent_id i) x)
      (Intents.transformIntentsToSCP customerId log) = [intent] /\
    i_status intent = "fulfilled" /\
    i_updated_at intent = timestamp u1 /\
    i_created_at intent = timestamp c /\
    List.map m_timestamp (i_milestones intent)
    = [timestamp c; timestamp u1; timestamp u2].
Proof.
  intros Hx Hlog Hc Hu1 Hs1 Hu2 Hs2.
  assert (Hc' : about x c = true /\ about x u1 = true /\ about x u2 = true).
  { assert (Hall : List.Forall (fun a => about x a = true)
                     (earlier ++ [c; u1; u2])).
    { rewrite <- Hlog. apply List.Forall_forall. intros a Ha.
      apply filter_In in Ha. apply Ha. }
    apply List.Forall_app in Hall. destruct Hall as [_ Hall].
    inversion Hall as [|? ? Hin1 Hall1]. inversion Hall1 as [|? ? Hin2 Hall2].
    inversion Hall2 as [|? ? Hin3 _]. auto. }
  destruct Hc' as (Hac & Ha1 & Ha2).
  exists (Intents.intent_of customerId x (Intents.mkGroup c [u1; u2])).
  split.
  - apply transform_entry. rewrite Hlog, fold_left_app. cbn [fold_left].
    unfold entry_step at 3. rewrite Hac, Hc, (truthy_nonempty _ Hx).
    unfold entry_step. rewrite Ha1, Ha2, Hu1, Hu2, (truthy_nonempty _ Hx).
    reflexivity.
  - unfold Intents.intent_of, Intents.latest_status.
    cbn [Intents.created Intents.updates fold_left Intents.status_step].
    unfold Intents.status_step. rewrite Hs1, Hs2. cbn [Str.truthy].
    cbn. auto.
Qed.

Lemma fold_keeps_last_carried_status_witness :
  exists intent,
    List.filter (fun i => String.eqb (i_intent_id i) "intent_A")
      (Intents.transformIntentsToSCP "cust_b1p082" Scenario.activities)
    = [intent] /\
    i_status intent = "fulfilled" /\
    i_updated_at intent = timestamp (Scenario.activity 2) /\
    i_created_at intent = timestamp (Scenario.activity 0) /\
    List.map m_timestamp (i_milestones intent)
    = [timestamp (Scenario.activity 0); timestamp (Scenario.activity 2);
       timestamp (Scenario.activity 4)].
Proof.
  refine (fold_keeps_last_carried_status "cust_b1p082" "intent_A"
            Scenario.activities [] (Scenario.activity 0) (Scenario.activity 2)
            (Scenario.activity 4) _ _ _ _ _ _ _);
    try discriminate; vm_compute; reflexivity.
Defined.

(** * Further properties

    ** The authorization flow *)

Lemma kv_get_put_ne {V} k k' (v : V) ttl now ns :
  k <> k' -> Kv.get k' (Kv.put k v ttl now ns) = Kv.get k' ns.
Proof.
  intros Hne. unfold Kv.get, Kv.put. rewrite lookup_insert_ne by exact Hne.
  reflexivity.
Qed.

Lemma generateId_truthy e : Str.truthy (Authorize.generateId e) = true.
Proof.
  pose proof (generateId_length e) as Hl.
  destruct (Authorize.generateId e); [discriminate|reflexivity].
Qed.

(** The outcomes of a confirmation. *)
Lemma confirm_cases `{Directory} token e now env :
  let out := Authorize.confirmAuthorization token e now env in
  (is_ok (fst out) = false /\ snd out = env) \/
  (exists rid req,
      Kv.get token (MAGIC_LINK_TOKENS env) = Some rid /\
      Kv.get rid (AUTH_REQUESTS env) = Some req /\
      out = (Err (Error "Customer not found in merchant system"),
             mkEnv (Kv.put rid (Authorize.set_denied req) 600 now
                      (AUTH_REQUESTS env))
                   (MAGIC_LINK_TOKENS env) (DB_auth_codes env)
                   (DB_refresh_tokens env) (JWT_SECRET env))) \/
  (exists rid req cid,
      Kv.get token (MAGIC_LINK_TOKENS env) = Some rid /\
      Kv.get rid (AUTH_REQUESTS env) = Some req /\
      verifyEmail (email req) = Ok (mkVerification true (Some cid)) /\
      Str.truthy cid = true /\
      existsb (fun r => String.eqb (ac_code r) (Authorize.generateId e))
              (DB_auth_codes env) = false /\
      out = (Ok tt,
             mkEnv (Kv.put rid
                      (Authorize.set_authorized (Authorize.generateId e) cid req)
                      600 now (AUTH_REQUESTS env))
                   (Kv.delete token (MAGIC_LINK_TOKENS env))
                   (DB_auth_codes env ++
                    [mkAuthCode (Authorize.generateId e) (email req) cid
                       (client_id req) (scopes req) (code_challenge req)
                       (now + 5 * 60 * 1000)%Z false now])
                   (DB_refresh_tokens env) (JWT_SECRET env))).
Proof.
  cbv zeta.
  unfold Authorize.confirmAuthorization, Authorize.deny. unfold_m.
  destruct (Kv.get token (MAGIC_LINK_TOKENS env)) as [rid|] eqn:Hm;
    [|left; split; reflexivity].
  destruct (Str.truthy rid) eqn:Hrid; cbn [negb]; [|left; split; reflexivity].
  destruct (Kv.get rid (AUTH_REQUESTS env)) as [req|] eqn:Hreq;
    [|left; split; reflexivity].
  destruct (verifyEmail (email req)) as [[ex [cid|]]|err] eqn:Hver;
    cbn [v_exists v_customerId].
  - destruct ex.
    + destruct (Str.truthy cid) eqn:Hcid; cbn [negb].
      * unfold Db.insert_auth_code. cbn [ac_code].
        destruct (existsb _ (DB_auth_codes env)) eqn:Hdup.
        -- left. split; reflexivity.
        -- right. right. exists rid, req, cid. auto 10.
      * right. left. exists rid, req. auto.
    + right. left. exists rid, req. auto.
  - destruct ex; right; left; exists rid, req; auto.
  - right. left. exists rid, req. auto.
Qed.

(** X1.  A confirmation that throws mints nothing: both tables and the
    link mappings are as before, and every request that is authorized
    afterwards was stored authorized, unchanged, before. *)
Theorem failed_confirm_mints_nothing `{Directory} token e now env err env1 :
  Authorize.confirmAuthorization token e now env = (Err err, env1) ->
  DB_auth_codes env1 = DB_auth_codes env /\
  DB_refresh_tokens env1 = DB_refresh_tokens env /\
  MAGIC_LINK_TOKENS env1 = MAGIC_LINK_TOKENS env /\
  (forall rid stored,
      Kv.get rid (AUTH_REQUESTS env1) = Some stored ->
      status stored = authorized ->
      Kv.get rid (AUTH_REQUESTS env) = Some stored).
Proof.
  intros Hout.
  destruct (confirm_cases token e now env)
    as [[_ Hsame] | [(rid & req & Hm & Hreq & Heq) | (rid & req & cid & _ & _ & _ & _ & _ & Heq)]].
  - rewrite Hout in Hsame. cbn in Hsame. subst env1. auto.
  - rewrite Hout in Heq. injection Heq as _ ->. cbn.
    repeat split. intros rid' stored Hget Hst.
    destruct (decide (rid = rid')) as [<-|Hne].
    + rewrite kv_get_put in Hget. injection Hget as <-. discriminate.
    + rewrite kv_get_put_ne in Hget by exact Hne. exact Hget.
  - rewrite Hout in Heq. discriminate.
Qed.

Lemma failed_confirm_mints_nothing_witness :
  let env := Scenario.after_init "nobody" in
  let env1 := snd (@Authorize.confirmAuthorization MockCustomer.directory
                     Scenario.magic_token [3%N] (Scenario.t0 + 1000)%Z env) in
  DB_auth_codes env1 = DB_auth_codes env /\
  DB_refresh_tokens env1 = DB_refresh_tokens env /\
  MAGIC_LINK_TOKENS env1 = MAGIC_LINK_TOKENS env /\
  (forall rid stored,
      Kv.get rid (AUTH_REQUESTS env1) = Some stored ->
      status stored = authorized ->
      Kv.get rid (AUTH_REQUESTS env) = Some stored).
Proof.
  refine (@failed_confirm_mints_nothing MockCustomer.directory
            Scenario.magic_token [3%N] (Scenario.t0 + 1000)%Z
            (Scenario.after_init "nobody")
            (Error "Customer not found in merchant system") _ _).
  vm_compute. reflexivity.
Defined.


Lemma backs_mark_used c row stored t :
  In row t -> backs row stored ->
  exists row', In row' (Db.mark_used c t) /\ backs row' stored.
Proof.
  intros Hin Hb.
  exists (if String.eqb (ac_code row) c then Db.set_used row else row).
  split.
  - unfold Db.mark_used.
    apply (in_map (fun r => if String.eqb (ac_code r) c then Db.set_used r else r)),
      Hin.
  - destruct (String.eqb (ac_code row) c); exact Hb.
Qed.

Lemma kv_get_evict {V} k now (ns : gmap string (Kv.entry V)) v :
  Kv.get k (Kv.evict now ns) = Some v -> Kv.get k ns = Some v.
Proof.
  unfold Kv.get, Kv.evict. intros Hget.
  destruct (filter _ ns !! k) as [en|] eqn:E; [|discriminate].
  apply map_lookup_filter_Some in E as [E _]. rewrite E. exact Hget.
Qed.

Lemma init_requests request e1 e2 mail now env :
  AUTH_REQUESTS (snd (Authorize.initAuthorization request e1 e2 mail now env))
  = Kv.put (Authorize.generateId e1)
      (mkStored (Authorize.generateId e1) (req_email request) None
         (req_client_id request) (req_client_name request)
         (req_scopes request) (req_code_challenge request)
         pending None now (now + 10 * 60 * 1000)%Z)
      600 now (AUTH_REQUESTS env).
Proof.
  unfold Authorize.initAuthorization. unfold_m. cbn.
  destruct mail; reflexivity.
Qed.

Lemma post_token_requests body entropy now env :
  AUTH_REQUESTS (snd (post_token body entropy now env)) = AUTH_REQUESTS env.
Proof.
  unfold post_token, Token.exchangeCodeForTokens, Token.refreshAccessToken.
  unfold_m. unfold Store.with_auth_codes, Store.with_refresh_tokens.
  repeat (break_match; cbn; try reflexivity).
Qed.

Lemma backed_step `{Directory} call now env :
  backed env -> backed (step call now env).
Proof.
  intros Hb. destruct call; cbn [step].
  - intros rid stored Hget Hst. rewrite init_requests in Hget.
    rewrite init_auth_codes.
    destruct (decide (Authorize.generateId e1 = rid)) as [<-|Hne].
    + rewrite kv_get_put in Hget. injection Hget as <-. discriminate.
    + rewrite kv_get_put_ne in Hget by exact Hne. exact (Hb _ _ Hget Hst).
  - rewrite poll_env. exact Hb.
  - destruct (confirm_cases magicToken entropy now env)
      as [[_ ->] | [(rid & req & _ & _ & ->) | (rid & req & cid & _ & Hreq & _ & _ & _ & ->)]];
      [exact Hb| |]; intros rid' stored Hget Hst; cbn in Hget |- *.
    + destruct (decide (rid = rid')) as [<-|Hne].
      * rewrite kv_get_put in Hget. injection Hget as <-. discriminate.
      * rewrite kv_get_put_ne in Hget by exact Hne. exact (Hb _ _ Hget Hst).
    + destruct (decide (rid = rid')) as [<-|Hne].
      * rewrite kv_get_put in Hget. injection Hget as <-.
        eexists. split; [apply in_or_app; right; left; reflexivity|].
        repeat split.
      * rewrite kv_get_put_ne in Hget by exact Hne.
        destruct (Hb _ _ Hget Hst) as (row & Hin & Hrow).
        exists row. split; [apply in_or_app; left; exact Hin|exact Hrow].
  - intros rid stored Hget Hst. rewrite post_token_requests in Hget.
    destruct (Hb _ _ Hget Hst) as (row & Hin & Hrow).
    destruct (post_token_auth_codes body entropy now env) as [-> | ->].
    + exists row. auto.
    + eapply backs_mark_used; eassumption.
  - exact Hb.
  - intros rid stored Hget Hst. cbn in Hget |- *.
    apply kv_get_evict in Hget. exact (Hb _ _ Hget Hst).
Qed.

Lemma backed_run `{Directory} calls env :
  backed env -> backed (run calls env).
Proof.
  revert env. induction calls as [|[call now] calls IH]; intros env Hb;
    [exact Hb|].
  cbn [run]. apply IH, backed_step, Hb.
Qed.

Lemma backed_fresh secret : backed (fresh_store secret).
Proof. intros rid stored Hget. discriminate Hget. Qed.

(** X2.  In every state reached from empty stores by any sequence of
    calls, a poll that hands out a code hands out the code of a stored
    authorized request that has not lapsed, to the client that made the
    request; the code is the key of a row of [auth_codes] with the same
    client, scopes, challenge and address. *)
Theorem polled_code_is_backed `{Directory} secret calls rid c now resp env :
  Authorize.pollAuthorization rid c now (run calls (fresh_store secret))
  = (Ok resp, env) ->
  poll_code resp <> None ->
  exists code row,
    poll_code resp = Some code /\
    poll_status resp = poll_authorized /\
    In row (DB_auth_codes env) /\
    ac_code row = code /\
    ac_client_id row = c /\
    (exists stored,
        Kv.get rid (AUTH_REQUESTS env) = Some stored /\
        (now <= expires_at stored)%Z /\
        ac_scopes row = scopes stored /\
        ac_code_challenge row = code_challenge stored /\
        ac_customer_email row = email stored).
Proof.
  intros Hpoll Hcode.
  pose proof (backed_run calls _ (backed_fresh secret)) as Hb.
  pose proof (poll_env rid c now (run calls (fresh_store secret))) as Henv.
  rewrite Hpoll in Henv. cbn in Henv. subst env.
  revert Hpoll. unfold Authorize.pollAuthorization. unfold_m.
  destruct (Kv.get rid (AUTH_REQUESTS _)) as [stored|] eqn:Hget.
  2:{ intros Heq. injection Heq as <-. contradiction Hcode. reflexivity. }
  destruct (String.eqb (client_id stored) c) eqn:Hc; cbn [negb]; [|discriminate].
  destruct (expires_at stored <? now)%Z eqn:Hexp.
  { intros Heq. injection Heq as <-. contradiction Hcode. reflexivity. }
  destruct (status stored) eqn:Hst.
  1,3: destruct (code stored); intros Heq; injection Heq as <-;
       contradiction Hcode; reflexivity.
  destruct (code stored) as [k|] eqn:Hk.
  2:{ intros Heq; injection Heq as <-; contradiction Hcode; reflexivity. }
  destruct (Str.truthy k).
  2:{ intros Heq; injection Heq as <-; contradiction Hcode; reflexivity. }
  intros Heq. injection Heq as <-. cbn.
  destruct (Hb _ _ Hget Hst) as (row & Hin & Hcd & Hcl & Hsc & Hch & Hem & _).
  rewrite Hk in Hcd. injection Hcd as ->.
  apply String.eqb_eq in Hc. apply Z.ltb_ge in Hexp.
  exists (ac_code row), row. repeat split; try assumption.
  - congruence.
  - exists stored. auto.
Qed.

Lemma polled_code_is_backed_witness :
  exists code row,
    poll_code (mkPoll poll_authorized (Some Scenario.auth_code) None) = Some code /\
    poll_status (mkPoll poll_authorized (Some Scenario.auth_code) None)
    = poll_authorized /\
    In row (DB_auth_codes Scenario.after_confirm) /\
    ac_code row = code /\
    ac_client_id row = "client-1" /\
    (exists stored,
        Kv.get Scenario.request_id (AUTH_REQUESTS Scenario.after_confirm)
        = Some stored /\
        (Scenario.t0 + 2000 <= expires_at stored)%Z /\
        ac_scopes row = scopes stored /\
        ac_code_challenge row = code_challenge stored /\
        ac_customer_email row = email stored).
Proof.
  refine (@polled_code_is_backed MockCustomer.directory Scenario.secret
            [(CallInit (Scenario.request "a@example.com") [1%N] [2%N] (Ok tt),
              Scenario.t0);
             (CallConfirm Scenario.magic_token [3%N], (Scenario.t0 + 1000)%Z)]
            Scenario.request_id "client-1" (Scenario.t0 + 2000)%Z
            (mkPoll poll_authorized (Some Scenario.auth_code) None)
            Scenario.after_confirm _ _).
  - vm_compute. reflexivity.
  - discriminate.
Defined.

(** What an authorization request leaves in the stores, whatever the
    outcome of the mail. *)
Lemma init_env request e1 e2 mail now env :
  snd (Authorize.initAuthorization request e1 e2 mail now env)
  = mkEnv (Kv.put (Authorize.generateId e1)
             (mkStored (Authorize.generateId e1) (req_email request) None
                (req_client_id request) (req_client_name request)
                (req_scopes request) (req_code_challenge request)
                pending None now (now + 10 * 60 * 1000)%Z)
             600 now (AUTH_REQUESTS env))
          (Kv.put (Authorize.generateId e2) (Authorize.generateId e1) 600 now
             (MAGIC_LINK_TOKENS env))
          (DB_auth_codes env) (DB_refresh_tokens env) (JWT_SECRET env).
Proof.
  unfold Authorize.initAuthorization. unfold_m. cbn.
  destruct mail; reflexivity.
Qed.

(** X3.  Whatever the outcome of the mail, an initialization leaves the
    request stored and the link mapped to it, and touches neither table;
    it answers with the mail's error or with the request id.  Until the
    request lapses a poll by the requesting client answers [pending] with
    the seconds left and no code, and a poll by any other client throws
    "Invalid client_id". *)
Theorem init_then_poll_is_pending request e1 e2 mail now env c t :
  let out := Authorize.initAuthorization request e1 e2 mail now env in
  (t <= now + 600000)%Z ->
  c <> req_client_id request ->
  fst out = (_ ← mail; Ok (mkInit (Authorize.generateId e1) true 600 2)) /\
  Kv.get (Authorize.generateId e2) (MAGIC_LINK_TOKENS (snd out))
  = Some (Authorize.generateId e1) /\
  DB_auth_codes (snd out) = DB_auth_codes env /\
  DB_refresh_tokens (snd out) = DB_refresh_tokens env /\
  Authorize.pollAuthorization (Authorize.generateId e1) (req_client_id request)
    t (snd out)
  = (Ok (mkPoll poll_pending None (Some ((now + 600000 - t) / 1000)%Z)), snd out) /\
  Authorize.pollAuthorization (Authorize.generateId e1) c t (snd out)
  = (Err (Error "Invalid client_id"), snd out).
Proof.
  intros out Ht Hc. subst out.
  rewrite init_env.
  split; [|split; [|split; [|split; [|split]]]].
  - unfold Authorize.initAuthorization. unfold_m. cbn. destruct mail; reflexivity.
  - cbn. apply kv_get_put.
  - reflexivity.
  - reflexivity.
  - unfold Authorize.pollAuthorization. unfold_m. cbn [AUTH_REQUESTS].
    rewrite kv_get_put. cbn [client_id expires_at status code].
    rewrite String.eqb_refl. cbn [negb].
    replace (now + 10 * 60 * 1000 <? t)%Z with false
      by (symmetry; apply Z.ltb_ge; lia).
    repeat f_equal. 
  - unfold Authorize.pollAuthorization. unfold_m. cbn [AUTH_REQUESTS].
    rewrite kv_get_put. cbn [client_id].
    destruct (String.eqb (req_client_id request) c) eqn:E; [|reflexivity].
    apply String.eqb_eq in E. congruence.
Qed.

Lemma init_then_poll_is_pending_witness :
  let out := Authorize.initAuthorization (Scenario.request "a@example.com")
               [1%N] [2%N] (Ok tt) Scenario.t0 Scenario.empty in
  fst out = (_ ← Ok tt; Ok (mkInit (Authorize.generateId [1%N]) true 600 2)) /\
  Kv.get (Authorize.generateId [2%N]) (MAGIC_LINK_TOKENS (snd out))
  = Some (Authorize.generateId [1%N]) /\
  DB_auth_codes (snd out) = DB_auth_codes Scenario.empty /\
  DB_refresh_tokens (snd out) = DB_refresh_tokens Scenario.empty /\
  Authorize.pollAuthorization (Authorize.generateId [1%N])
    (req_client_id (Scenario.request "a@example.com"))
    (Scenario.t0 + 2000)%Z (snd out)
  = (Ok (mkPoll poll_pending None
           (Some ((Scenario.t0 + 600000 - (Scenario.t0 + 2000)) / 1000)%Z)),
     snd out) /\
  Authorize.pollAuthorization (Authorize.generateId [1%N]) "client-2"
    (Scenario.t0 + 2000)%Z (snd out)
  = (Err (Error "Invalid client_id"), snd out).
Proof.
  refine (init_then_poll_is_pending (Scenario.request "a@example.com")
            [1%N] [2%N] (Ok tt) Scenario.t0 Scenario.empty "client-2"
            (Scenario.t0 + 2000)%Z _ _).
  - vm_compute. discriminate.
  - discriminate.
Defined.

Lemma first_unused_fresh row t :
  existsb (fun r => String.eqb (ac_code r) (ac_code row)) t = false ->
  ac_used row = false ->
  Db.first_unused_auth_code (ac_code row) (t ++ [row]) = Some row.
Proof.
  intros Hfresh Hused. unfold Db.first_unused_auth_code. rewrite find_append.
  destruct (List.find _ t) as [r|] eqn:Hfind.
  - apply List.find_some in Hfind as [Hin Hr].
    apply andb_prop in Hr as [Hr _].
    assert (existsb (fun r => String.eqb (ac_code r) (ac_code row)) t = true)
      as Hex by (apply existsb_exists; exists r; auto).
    congruence.
  - cbn. rewrite String.eqb_refl, Hused. reflexivity.
Qed.

Lemma sign_nonempty data secret :
  secret <> "" -> exists s, Jwt.sign data secret = Ok s.
Proof.
  intros Hs. unfold Jwt.sign. destruct secret; [contradiction|].
  eexists. reflexivity.
Qed.

Lemma generateAccessToken_nonempty cid em sc secret now :
  secret <> "" -> exists t, Jwt.generateAccessToken cid em sc secret now = Ok t.
Proof.
  intros Hs. unfold Jwt.generateAccessToken, Jwt.createJWT.
  destruct (sign_nonempty
              (Jwt.signing_input
                 (Base64.base64urlEncode (Json.stringify Jwt.header))
                 (Base64.base64urlEncode
                    (Json.stringify
                       (Jwt.TokenPayload cid em sc (Jwt.seconds now)
                          (Jwt.seconds now + 3600))))) secret Hs) as [s Hsig].
  unfold mbind, result_bind. rewrite Hsig. eexists. reflexivity.
Qed.

(** X4.  The whole flow, from any state of the stores, for an address,
    scopes and a customer id whose code units are all below 256 (on any
    other [btoa] throws while the access token is signed): a
    request is initialized, its link is followed, the client polls and
    exchanges the code.  When the directory knows the address with a
    non-empty customer id, the verifier matches the challenge of the request, the secret is
    not empty, the two generated values are not already keys of their
    tables, the poll comes within ten minutes of the request and the
    exchange within five minutes of the confirmation, then the
    confirmation succeeds, the poll answers [authorized] with the code,
    and the exchange returns a bearer token pair whose scope is the
    requested scopes joined by spaces, with the customer id and the
    address; the refresh token is stored with these scopes for thirty
    days. *)
Theorem authorization_flow_end_to_end `{Directory}
        request e1 e2 e3 e4 cid v env t0 t1 t2 t3 :
  verifyEmail (req_email request) = Ok (mkVerification true (Some cid)) ->
  cid <> "" ->
  Jwt.verifyPKCE v (req_code_challenge request) = true ->
  JWT_SECRET env <> "" ->
  existsb (fun r => String.eqb (ac_code r) (Authorize.generateId e3))
          (DB_auth_codes env) = false ->
  existsb (fun r => String.eqb (rt_token r) (Jwt.generateRefreshToken e4))
          (DB_refresh_tokens env) = false ->
  (t2 <= t0 + 600000)%Z ->
  (t3 <= t1 + 300000)%Z ->
  let env1 :=
    snd (Authorize.initAuthorization request e1 e2 (Ok tt) t0 env) in
  let env2 :=
    snd (Authorize.confirmAuthorization (Authorize.generateId e2) e3 t1 env1) in
  let out :=
    Token.exchangeCodeForTokens (Authorize.generateId e3) v
      (req_client_id request) e4 t3 env2 in
  fst (Authorize.confirmAuthorization (Authorize.generateId e2) e3 t1 env1)
  = Ok tt /\
  Authorize.pollAuthorization (Authorize.generateId e1) (req_client_id request)
    t2 env2
  = (Ok (mkPoll poll_authorized (Some (Authorize.generateId e3)) None), env2) /\
  exists access,
    Jwt.generateAccessToken cid (req_email request) (req_scopes request)
      (JWT_SECRET env) t3 = Ok access /\
    fst out
    = Ok (mkTokens access (Jwt.generateRefreshToken e4) "Bearer" 3600
            (Str.join " " (req_scopes request))
            (Some cid) (Some (req_email request))) /\
    Db.first_refresh_token (Jwt.generateRefreshToken e4)
      (DB_refresh_tokens (snd out))
    = Some (mkRefreshToken (Jwt.generateRefreshToken e4) (req_email request)
              cid (req_client_id request) (req_scopes request)
              (t3 + 30 * 24 * 60 * 60 * 1000)%Z t3 None).
Proof.
  intros Hver Hcid Hpkce Hsecret Hcode Htok Ht2 Ht3 env1 env2 out.
  assert (Hconfirm :
    Authorize.confirmAuthorization (Authorize.generateId e2) e3 t1 env1
    = (Ok tt,
       mkEnv (Kv.put (Authorize.generateId e1)
                (mkStored (Authorize.generateId e1) (req_email request)
                   (Some cid) (req_client_id request)
                   (req_client_name request) (req_scopes request)
                   (req_code_challenge request) authorized
                   (Some (Authorize.generateId e3)) t0 (t0 + 10 * 60 * 1000)%Z)
                600 t1 (AUTH_REQUESTS env1))
             (Kv.delete (Authorize.generateId e2) (MAGIC_LINK_TOKENS env1))
             (DB_auth_codes env ++
              [mkAuthCode (Authorize.generateId e3) (req_email request) cid
                 (req_client_id request) (req_scopes request)
                 (req_code_challenge request) (t1 + 5 * 60 * 1000)%Z false t1])
             (DB_refresh_tokens env) (JWT_SECRET env))).
  { subst env1. rewrite init_env.
    unfold Authorize.confirmAuthorization. unfold_m.
    cbn [AUTH_REQUESTS MAGIC_LINK_TOKENS].
    rewrite kv_get_put, generateId_truthy. cbn [negb AUTH_REQUESTS].
    rewrite kv_get_put. cbn [email]. rewrite Hver. cbn [v_exists v_customerId].
    rewrite (truthy_nonempty _ Hcid). cbn [negb].
    unfold Db.insert_auth_code.
    cbn [ac_code DB_auth_codes]. rewrite Hcode. reflexivity. }
  subst env2. rewrite Hconfirm. cbn [fst snd].
  split; [reflexivity|]. split.
  - unfold Authorize.pollAuthorization. unfold_m. cbn [AUTH_REQUESTS].
    rewrite kv_get_put. cbn [client_id expires_at status code].
    rewrite String.eqb_refl. cbn [negb].
    replace (t0 + 10 * 60 * 1000 <? t2)%Z with false
      by (symmetry; apply Z.ltb_ge; lia).
    rewrite generateId_truthy. reflexivity.
  - destruct (generateAccessToken_nonempty cid (req_email request)
                (req_scopes request) (JWT_SECRET env) t3 Hsecret)
      as [access Haccess].
    exists access. split; [exact Haccess|].
    subst out. rewrite Hconfirm. cbn [snd].
    unfold Token.exchangeCodeForTokens. unfold_m. cbn [DB_auth_codes].
    rewrite (first_unused_fresh
               (mkAuthCode (Authorize.generateId e3) (req_email request) cid
                  (req_client_id request) (req_scopes request)
                  (req_code_challenge request) (t1 + 5 * 60 * 1000)%Z false t1))
      by (cbn [ac_code ac_used]; auto).
    cbn [ac_expires_at ac_client_id ac_code_challenge ac_scopes
         ac_cordial_contact_id ac_customer_email].
    replace (t1 + 5 * 60 * 1000 <? t3)%Z with false
      by (symmetry; apply Z.ltb_ge; lia).
    rewrite String.eqb_refl, Hpkce. cbn [negb].
    unfold Store.with_auth_codes. cbn [JWT_SECRET DB_refresh_tokens].
    rewrite Haccess.
    unfold Db.insert_refresh_token. cbn [rt_token]. rewrite Htok.
    unfold Store.with_refresh_tokens. cbn [fst snd DB_refresh_tokens].
    split; [reflexivity|].
    unfold Db.first_refresh_token. rewrite find_append.
    destruct (List.find _ (DB_refresh_tokens env)) as [r|] eqn:Hfind.
    + apply List.find_some in Hfind as [Hin Hr].
      assert (existsb (fun r => String.eqb (rt_token r)
                                  (Jwt.generateRefreshToken e4))
                (DB_refresh_tokens env) = true) as Hex
          by (apply existsb_exists; exists r; auto).
      congruence.
    + cbn. rewrite String.eqb_refl. reflexivity.
Qed.

Lemma authorization_flow_end_to_end_witness :
  let env1 :=
    snd (Authorize.initAuthorization (Scenario.request "a@example.com")
           [1%N] [2%N] (Ok tt) Scenario.t0 Scenario.empty) in
  let env2 :=
    snd (@Authorize.confirmAuthorization MockCustomer.directory
           (Authorize.generateId [2%N]) [3%N] (Scenario.t0 + 1000)%Z env1) in
  let out :=
    Token.exchangeCodeForTokens (Authorize.generateId [3%N]) Scenario.verifier
      (req_client_id (Scenario.request "a@example.com")) [5%N]
      (Scenario.t0 + 4000)%Z env2 in
  fst (@Authorize.confirmAuthorization MockCustomer.directory
         (Authorize.generateId [2%N]) [3%N] (Scenario.t0 + 1000)%Z env1)
  = Ok tt /\
  Authorize.pollAuthorization (Authorize.generateId [1%N])
    (req_client_id (Scenario.request "a@example.com"))
    (Scenario.t0 + 2000)%Z env2
  = (Ok (mkPoll poll_authorized (Some (Authorize.generateId [3%N])) None), env2) /\
  exists access,
    Jwt.generateAccessToken "cust_b1p082"
      (req_email (Scenario.request "a@example.com"))
      (req_scopes (Scenario.request "a@example.com"))
      (JWT_SECRET Scenario.empty) (Scenario.t0 + 4000)%Z = Ok access /\
    fst out
    = Ok (mkTokens access (Jwt.generateRefreshToken [5%N]) "Bearer" 3600
            (Str.join " " (req_scopes (Scenario.request "a@example.com")))
            (Some "cust_b1p082")
            (Some (req_email (Scenario.request "a@example.com")))) /\
    Db.first_refresh_token (Jwt.generateRefreshToken [5%N])
      (DB_refresh_tokens (snd out))
    = Some (mkRefreshToken (Jwt.generateRefreshToken [5%N])
              (req_email (Scenario.request "a@example.com"))
              "cust_b1p082"
              (req_client_id (Scenario.request "a@example.com"))
              (req_scopes (Scenario.request "a@example.com"))
              (Scenario.t0 + 4000 + 30 * 24 * 60 * 60 * 1000)%Z
              (Scenario.t0 + 4000)%Z None).
Proof.
  refine (@authorization_flow_end_to_end MockCustomer.directory
            (Scenario.request "a@example.com") [1%N] [2%N] [3%N] [5%N]
            "cust_b1p082" Scenario.verifier Scenario.empty
            Scenario.t0 (Scenario.t0 + 1000)%Z (Scenario.t0 + 2000)%Z
            (Scenario.t0 + 4000)%Z _ _ _ _ _ _ _ _).
  - vm_compute. reflexivity.
  - discriminate.
  - vm_compute. reflexivity.
  - discriminate.
  - reflexivity.
  - reflexivity.
  - vm_compute. discriminate.
  - vm_compute. discriminate.
Defined.


(** X5.  An exchange that fails either throws one of its own four
    refusals and writes nothing, so the code stays redeemable, or fails
    after the code was marked used: then the code is spent although no
    token was issued.  The late failure is the signing of the access
    token, or the insertion of a refresh token value already in the
    table.  For a code row whose strings have all their code units below
    256 the signing throws only for an empty secret (on a code unit above
    255 [btoa] throws at this point as well). *)
Theorem exchange_failure_modes code v c e now env err env1 :
  Token.exchangeCodeForTokens code v c e now env = (Err err, env1) ->
  (In (err_message err) exchange_refusals /\ env1 = env) \/
  (exists row,
      Db.first_unused_auth_code code (DB_auth_codes env) = Some row /\
      env1 = Store.with_auth_codes (Db.mark_used code (DB_auth_codes env)) env /\
      Db.first_unused_auth_code code (DB_auth_codes env1) = None /\
      ((Jwt.generateAccessToken (ac_cordial_contact_id row)
          (ac_customer_email row) (ac_scopes row) (JWT_SECRET env) now
        = Err err /\
        JWT_SECRET env = "") \/
       existsb (fun r => String.eqb (rt_token r) (Jwt.generateRefreshToken e))
               (DB_refresh_tokens env) = true)).
Proof.
  unfold Token.exchangeCodeForTokens, exchange_refusals. unfold_m.
  destruct (Db.first_unused_auth_code code (DB_auth_codes env)) as [row|] eqn:Hrow.
  2:{ intros Heq. injection Heq as <- <-. left. cbn. auto. }
  destruct (ac_expires_at row <? now)%Z.
  { intros Heq. injection Heq as <- <-. left. cbn. auto. }
  destruct (String.eqb (ac_client_id row) c); cbn [negb].
  2:{ intros Heq. injection Heq as <- <-. left. cbn. auto. }
  destruct (Jwt.verifyPKCE v (ac_code_challenge row)); cbn [negb].
  2:{ intros Heq. injection Heq as <- <-. left. cbn. auto 6. }
  cbn [JWT_SECRET Store.with_auth_codes].
  destruct (Jwt.generateAccessToken _ _ _ _ _) as [tok|err'] eqn:Htok.
  - cbn [DB_refresh_tokens Store.with_auth_codes].
    unfold Db.insert_refresh_token. cbn [rt_token].
    destruct (existsb _ (DB_refresh_tokens env)) eqn:Hdup; [|discriminate].
    intros Heq. injection Heq as <- <-. right. exists row.
    split; [reflexivity|]. split; [reflexivity|]. split; [|right; reflexivity].
    apply first_unused_mark_used.
  - intros Heq. injection Heq as <- <-. right. exists row.
    split; [reflexivity|]. split; [reflexivity|].
    split; [apply first_unused_mark_used|]. left.
    split; [exact Htok|].
    destruct (JWT_SECRET env) eqn:Hs; [reflexivity|].
    destruct (generateAccessToken_nonempty (ac_cordial_contact_id row)
                (ac_customer_email row) (ac_scopes row) (String a s) now)
      as [t Ht]; [discriminate|]. congruence.
Qed.

Lemma exchange_failure_modes_witness :
  (In (err_message (Error "Invalid code_verifier")) exchange_refusals /\
   Scenario.after_confirm = Scenario.after_confirm) \/
  (exists row,
      Db.first_unused_auth_code Scenario.auth_code
        (DB_auth_codes Scenario.after_confirm) = Some row /\
      Scenario.after_confirm
      = Store.with_auth_codes
          (Db.mark_used Scenario.auth_code (DB_auth_codes Scenario.after_confirm))
          Scenario.after_confirm /\
      Db.first_unused_auth_code Scenario.auth_code
        (DB_auth_codes Scenario.after_confirm) = None /\
      ((Jwt.generateAccessToken (ac_cordial_contact_id row)
          (ac_customer_email row) (ac_scopes row)
          (JWT_SECRET Scenario.after_confirm) (Scenario.t0 + 4000)%Z
        = Err (Error "Invalid code_verifier") /\
        JWT_SECRET Scenario.after_confirm = "") \/
       existsb (fun r => String.eqb (rt_token r) (Jwt.generateRefreshToken [5%N]))
               (DB_refresh_tokens Scenario.after_confirm) = true)).
Proof.
  refine (exchange_failure_modes Scenario.auth_code "a-wrong-verifier"
            "client-1" [5%N] (Scenario.t0 + 4000)%Z Scenario.after_confirm
            (Error "Invalid code_verifier") Scenario.after_confirm _).
  vm_compute. reflexivity.
Defined.

(** Revocation. *)
Lemma first_refresh_delete_same tok t :
  Db.first_refresh_token tok (Db.delete_refresh_token tok t) = None.
Proof.
  unfold Db.first_refresh_token, Db.delete_refresh_token.
  induction t as [|r t IH]; [reflexivity|]. cbn.
  destruct (String.eqb (rt_token r) tok) eqn:E; cbn; [exact IH|].
  rewrite E. exact IH.
Qed.

Lemma first_refresh_delete_other tok tok' t :
  tok' <> tok ->
  Db.first_refresh_token tok' (Db.delete_refresh_token tok t)
  = Db.first_refresh_token tok' t.
Proof.
  intros Hne. unfold Db.first_refresh_token, Db.delete_refresh_token.
  induction t as [|r t IH]; [reflexivity|]. cbn.
  destruct (String.eqb (rt_token r) tok) eqn:E; cbn.
  - apply String.eqb_eq in E.
    destruct (String.eqb (rt_token r) tok') eqn:E'; [|exact IH].
    apply String.eqb_eq in E'. congruence.
  - destruct (String.eqb (rt_token r) tok'); [reflexivity|exact IH].
Qed.

Lemma delete_absent tok t :
  Db.first_refresh_token tok t = None -> Db.delete_refresh_token tok t = t.
Proof.
  unfold Db.first_refresh_token, Db.delete_refresh_token.
  induction t as [|r t IH]; [reflexivity|]. cbn.
  destruct (String.eqb (rt_token r) tok); [discriminate|]. cbn.
  intros Hn. rewrite IH by exact Hn. reflexivity.
Qed.

(** X6.  Revocation always succeeds; afterwards the token refreshes
    nothing ("Invalid refresh token"), every other token is found as
    before, a second revocation changes nothing, and revoking a value that
    is not in the table changes nothing.  The codes and the transient
    stores are not touched. *)
Theorem revoked_token_cannot_refresh token env c e now :
  let env1 := snd (Token.revokeToken token env) in
  Token.revokeToken token env = (Ok tt, env1) /\
  Token.refreshAccessToken token c e now env1
  = (Err (Error "Invalid refresh token"), env1) /\
  (forall other,
      other <> token ->
      Db.first_refresh_token other (DB_refresh_tokens env1)
      = Db.first_refresh_token other (DB_refresh_tokens env)) /\
  Token.revokeToken token env1 = (Ok tt, env1) /\
  (Db.first_refresh_token token (DB_refresh_tokens env) = None -> env1 = env) /\
  DB_auth_codes env1 = DB_auth_codes env /\
  AUTH_REQUESTS env1 = AUTH_REQUESTS env /\
  MAGIC_LINK_TOKENS env1 = MAGIC_LINK_TOKENS env.
Proof.
  intros env1. subst env1.
  unfold Token.revokeToken, Token.refreshAccessToken. unfold_m.
  unfold Store.with_refresh_tokens.
  cbn [fst snd DB_refresh_tokens DB_auth_codes AUTH_REQUESTS MAGIC_LINK_TOKENS
       JWT_SECRET].
  split; [reflexivity|]. split.
  { rewrite first_refresh_delete_same. reflexivity. }
  split.
  { intros other Hne. apply first_refresh_delete_other, Hne. }
  split.
  { rewrite (delete_absent token (Db.delete_refresh_token token _))
      by apply first_refresh_delete_same.
    reflexivity. }
  split; [|auto].
  intros Habsent. rewrite (delete_absent _ _ Habsent). destruct env; reflexivity.
Qed.

Lemma revoked_token_cannot_refresh_witness :
  let env1 := snd (Token.revokeToken Scenario.refresh_1 Scenario.after_exchange) in
  Token.revokeToken Scenario.refresh_1 Scenario.after_exchange = (Ok tt, env1) /\
  Token.refreshAccessToken Scenario.refresh_1 "client-1" [7%N]
    (Scenario.t0 + 6000)%Z env1
  = (Err (Error "Invalid refresh token"), env1) /\
  (forall other,
      other <> Scenario.refresh_1 ->
      Db.first_refresh_token other (DB_refresh_tokens env1)
      = Db.first_refresh_token other (DB_refresh_tokens Scenario.after_exchange)) /\
  Token.revokeToken Scenario.refresh_1 env1 = (Ok tt, env1) /\
  (Db.first_refresh_token Scenario.refresh_1
     (DB_refresh_tokens Scenario.after_exchange) = None ->
   env1 = Scenario.after_exchange) /\
  DB_auth_codes env1 = DB_auth_codes Scenario.after_exchange /\
  AUTH_REQUESTS env1 = AUTH_REQUESTS Scenario.after_exchange /\
  MAGIC_LINK_TOKENS env1 = MAGIC_LINK_TOKENS Scenario.after_exchange.
Proof.
  exact (revoked_token_cannot_refresh Scenario.refresh_1 Scenario.after_exchange
           "client-1" [7%N] (Scenario.t0 + 6000)%Z).
Defined.

(** Refresh after refresh. *)
Lemma first_refresh_rotated new now tok t row :
  Db.first_refresh_token tok t = Some row ->
  new = tok \/ existsb (fun r => String.eqb (rt_token r) new) t = false ->
  Db.first_refresh_token new
    (List.map (fun r => if String.eqb (rt_token r) tok
                        then Db.set_token new now r else r) t)
  = Some (Db.set_token new now row).
Proof.
  unfold Db.first_refresh_token.
  induction t as [|r t IH]; [discriminate|]. cbn [List.find List.map existsb].
  intros Hfind Hnew.
  destruct (String.eqb (rt_token r) tok) eqn:E.
  - injection Hfind as <-. cbn [Db.set_token rt_token].
    rewrite String.eqb_refl. reflexivity.
  - assert (String.eqb (rt_token r) new = false) as E'.
    { destruct Hnew as [-> | Hnew]; [exact E|].
      apply orb_false_elim in Hnew as [Hnew _]. exact Hnew. }
    rewrite E'. apply IH; [exact Hfind|].
    destruct Hnew as [-> | Hnew]; [left; reflexivity|right].
    apply orb_false_elim in Hnew as [_ Hnew]. exact Hnew.
Qed.

Lemma first_refresh_exists tok t row :
  Db.first_refresh_token tok t = Some row ->
  existsb (fun r => String.eqb (rt_token r) tok) t = true.
Proof.
  unfold Db.first_refresh_token. intros Hfind.
  apply List.find_some in Hfind as [Hin Hr].
  apply existsb_exists. exists row. auto.
Qed.

Lemma generateAccessToken_empty cid em sc now :
  is_ok (Jwt.generateAccessToken cid em sc "" now) = false.
Proof. reflexivity. Qed.

Lemma refresh_success tok c e now env row :
  Db.first_refresh_token tok (DB_refresh_tokens env) = Some row ->
  (now <= rt_expires_at row)%Z ->
  rt_client_id row = c ->
  JWT_SECRET env <> "" ->
  Jwt.generateRefreshToken e = tok \/
  existsb (fun r => String.eqb (rt_token r) (Jwt.generateRefreshToken e))
          (DB_refresh_tokens env) = false ->
  exists access,
    Token.refreshAccessToken tok c e now env
    = (Ok (mkTokens access (Jwt.generateRefreshToken e) "Bearer" 3600
             (Str.join " " (rt_scopes row)) None None),
       Store.with_refresh_tokens
         (List.map (fun r => if String.eqb (rt_token r) tok
                             then Db.set_token (Jwt.generateRefreshToken e) now r
                             else r) (DB_refresh_tokens env)) env).
Proof.
  intros Hrow Hexp Hc Hsecret Hnew.
  destruct (generateAccessToken_nonempty (rt_cordial_contact_id row)
              (rt_customer_email row) (rt_scopes row) (JWT_SECRET env) now
              Hsecret) as [access Haccess].
  exists access.
  unfold Token.refreshAccessToken. unfold_m. rewrite Hrow.
  replace (rt_expires_at row <? now)%Z with false
    by (symmetry; apply Z.ltb_ge; lia).
  rewrite Hc, String.eqb_refl. cbn [negb]. rewrite Haccess.
  unfold Db.rotate_refresh_token.
  rewrite (first_refresh_exists _ _ _ Hrow). cbn [andb].
  destruct Hnew as [-> | ->].
  - rewrite String.eqb_refl. reflexivity.
  - rewrite andb_false_r. reflexivity.
Qed.

(** X7.  After a successful refresh the new value finds the rotated row.
    Up to the expiry of that row, which no refresh moves, the same client
    can refresh again with the new value (unless the next generated value
    is already a key) and gets the same scope; after it, the refresh
    throws "Refresh token expired". *)
Theorem refresh_chain_keeps_expiry tok c e now env r env1 :
  Token.refreshAccessToken tok c e now env = (Ok r, env1) ->
  exists row,
    Db.first_refresh_token tok (DB_refresh_tokens env) = Some row /\
    Db.first_refresh_token (refresh_token r) (DB_refresh_tokens env1)
    = Some (Db.set_token (refresh_token r) now row) /\
    (forall e' now',
        (now' <= rt_expires_at row)%Z ->
        existsb (fun x => String.eqb (rt_token x) (Jwt.generateRefreshToken e'))
                (DB_refresh_tokens env1) = false ->
        exists r' env2,
          Token.refreshAccessToken (refresh_token r) c e' now' env1
          = (Ok r', env2) /\
          scope r' = scope r /\
          option_map rt_expires_at
            (Db.first_refresh_token (refresh_token r') (DB_refresh_tokens env2))
          = Some (rt_expires_at row)) /\
    (forall e' now',
        (rt_expires_at row < now')%Z ->
        Token.refreshAccessToken (refresh_token r) c e' now' env1
        = (Err (Error "Refresh token expired"), env1)).
Proof.
  intros Hrefresh.
  destruct (refresh_inv _ _ _ _ _ _ _ Hrefresh)
    as (row & access & Hrow & Hexp & Hc & Haccess & -> & Hrot & _ & _ & _ & Hsec).
  cbn [refresh_token scope].
  exists row. split; [exact Hrow|].
  assert (Hnew : Jwt.generateRefreshToken e = tok \/
                 existsb (fun x => String.eqb (rt_token x)
                                     (Jwt.generateRefreshToken e))
                         (DB_refresh_tokens env) = false).
  { revert Hrot. unfold Db.rotate_refresh_token.
    rewrite (first_refresh_exists _ _ _ Hrow). cbn [andb].
    destruct (String.eqb (Jwt.generateRefreshToken e) tok) eqn:E.
    - apply String.eqb_eq in E. auto.
    - cbn [negb andb]. destruct (existsb _ _); [discriminate|auto]. }
  assert (Hfound :
    Db.first_refresh_token (Jwt.generateRefreshToken e) (DB_refresh_tokens env1)
    = Some (Db.set_token (Jwt.generateRefreshToken e) now row)).
  { rewrite (rotate_inv _ _ _ _ _ Hrot).
    apply first_refresh_rotated; assumption. }
  split; [exact Hfound|].
  assert (Hsecret : JWT_SECRET env1 <> "").
  { rewrite Hsec. intros Hempty. rewrite Hempty in Haccess.
    pose proof (generateAccessToken_empty (rt_cordial_contact_id row)
                  (rt_customer_email row) (rt_scopes row) now) as Hno.
    rewrite Haccess in Hno. discriminate. }
  apply String.eqb_eq in Hc. split.
  - intros e' now' Hlive Hfresh.
    destruct (refresh_success (Jwt.generateRefreshToken e) c e' now' env1
                (Db.set_token (Jwt.generateRefreshToken e) now row)
                Hfound Hlive Hc Hsecret (or_intror Hfresh))
      as [access' Hsecond].
    do 2 eexists. split; [exact Hsecond|].
    cbn [scope refresh_token Db.set_token rt_scopes]. split; [reflexivity|].
    unfold Store.with_refresh_tokens. cbn [DB_refresh_tokens].
    rewrite (first_refresh_rotated _ _ _ _ _ Hfound (or_intror Hfresh)).
    reflexivity.
  - intros e' now' Hlate.
    unfold Token.refreshAccessToken. unfold_m. rewrite Hfound.
    cbn [Db.set_token rt_expires_at].
    replace (rt_expires_at row <? now')%Z with true
      by (symmetry; apply Z.ltb_lt; lia).
    reflexivity.
Qed.

Lemma refresh_chain_keeps_expiry_witness :
  exists row,
    Db.first_refresh_token Scenario.refresh_1
      (DB_refresh_tokens Scenario.after_exchange) = Some row /\
    Db.first_refresh_token (refresh_token (Scenario.issued Scenario.refresh_run))
      (DB_refresh_tokens Scenario.after_refresh)
    = Some (Db.set_token (refresh_token (Scenario.issued Scenario.refresh_run))
              (Scenario.t0 + 6000)%Z row) /\
    (forall e' now',
        (now' <= rt_expires_at row)%Z ->
        existsb (fun x => String.eqb (rt_token x) (Jwt.generateRefreshToken e'))
                (DB_refresh_tokens Scenario.after_refresh) = false ->
        exists r' env2,
          Token.refreshAccessToken
            (refresh_token (Scenario.issued Scenario.refresh_run)) "client-1"
            e' now' Scenario.after_refresh
          = (Ok r', env2) /\
          scope r' = scope (Scenario.issued Scenario.refresh_run) /\
          option_map rt_expires_at
            (Db.first_refresh_token (refresh_token r') (DB_refresh_tokens env2))
          = Some (rt_expires_at row)) /\
    (forall e' now',
        (rt_expires_at row < now')%Z ->
        Token.refreshAccessToken
          (refresh_token (Scenario.issued Scenario.refresh_run)) "client-1"
          e' now' Scenario.after_refresh
        = (Err (Error "Refresh token expired"), Scenario.after_refresh)).
Proof.
  refine (refresh_chain_keeps_expiry Scenario.refresh_1 "client-1" [7%N]
            (Scenario.t0 + 6000)%Z Scenario.after_exchange
            (Scenario.issued Scenario.refresh_run) Scenario.after_refresh _).
  vm_compute. reflexivity.
Defined.

(** ** The intent log read back *)

Lemma intent_of_id customerId k g :
  i_intent_id (Intents.intent_of customerId k g) = k.
Proof.
  unfold Intents.intent_of. destruct (Intents.latest_status _ _). reflexivity.
Qed.

Lemma intent_of_customer customerId k g :
  i_customer_id (Intents.intent_of customerId k g) = customerId.
Proof.
  unfold Intents.intent_of. destruct (Intents.latest_status _ _). reflexivity.
Qed.

Lemma intent_ids_keys customerId log :
  intent_ids customerId log = keys (Intents.group log).
Proof.
  unfold intent_ids, Intents.transformIntentsToSCP, keys.
  rewrite List.map_map. apply List.map_ext. intros [k g]. apply intent_of_id.
Qed.

Lemma map_get_keys {V} x (m : list (string * V)) :
  In x (keys m) <-> Intents.map_get x m <> None.
Proof.
  induction m as [|[k v] m IH]; cbn [keys List.map fst Intents.map_get In].
  - split; [intros []|intros Hn; apply Hn; reflexivity].
  - destruct (String.eqb k x) eqn:E.
    + apply String.eqb_eq in E. split; [discriminate|auto].
    + rewrite <- IH. unfold keys. split; [|auto].
      intros [->|Hin]; [|exact Hin]. rewrite String.eqb_refl in E. discriminate.
Qed.

(** The fold of the entry of [x] has a group exactly when an activity
    created [x]. *)
Lemma entry_fold_some x l g0 :
  fold_left (entry_step x) l g0 <> None <->
  (g0 <> None \/
   (Str.truthy x = true /\ exists a, In a l /\ creates x a)).
Proof.
  revert g0. induction l as [|a l IH]; intros g0; cbn [fold_left].
  - split; [auto|]. intros [Hg|(_ & a & [] & _)]. exact Hg.
  - rewrite IH. unfold entry_step at 1, about, creates.
    destruct (Intents.intent_id_of a) as [y|] eqn:Hy.
    + destruct (String.eqb y x) eqn:Hyx; cbn [andb].
      * apply String.eqb_eq in Hyx. subst y.
        destruct (Str.truthy x) eqn:Hx.
        -- destruct (String.eqb (action a) "scp_intent_created") eqn:Ha.
           ++ apply String.eqb_eq in Ha. split.
              ** intros _. right. split; [reflexivity|].
                 exists a. cbn. auto.
              ** intros _. left. discriminate.
           ++ split.
              ** intros [Hg|(_ & b & Hb & Hc)].
                 --- left. destruct g0; [discriminate|contradiction].
                 --- right. split; [reflexivity|]. exists b. cbn. auto.
              ** intros [Hg|(_ & b & [<-|Hb] & Hc1 & Hc2)].
                 --- left. destruct g0; [discriminate|contradiction].
                 --- rewrite Hc1 in Ha. discriminate.
                 --- right. split; [reflexivity|]. exists b. auto.
        -- split.
           ++ intros [Hg|(Hf & _)]; [auto|discriminate].
           ++ intros [Hg|(Hf & _)]; [auto|discriminate].
      * split.
        -- intros [Hg|(Hx & b & Hb & Hc)]; [auto|].
           right. split; [exact Hx|]. exists b. cbn. auto.
        -- intros [Hg|(Hx & b & [<-|Hb] & Hc1 & Hc2)]; [auto| |].
           ++ rewrite Hy in Hc2. injection Hc2 as ->.
              rewrite String.eqb_refl in Hyx. discriminate.
           ++ right. split; [exact Hx|]. exists b. auto.
    + split.
      * intros [Hg|(Hx & b & Hb & Hc)]; [auto|].
        right. split; [exact Hx|]. exists b. cbn. auto.
      * intros [Hg|(Hx & b & [<-|Hb] & Hc1 & Hc2)]; [auto| |].
        -- rewrite Hy in Hc2. discriminate.
        -- right. split; [exact Hx|]. exists b. auto.
Qed.

Lemma listed_created customerId log x :
  In x (intent_ids customerId log) <->
  x <> "" /\ exists a, In a log /\ creates x a.
Proof.
  rewrite intent_ids_keys, map_get_keys. unfold Intents.group.
  rewrite group_entry_fold. cbn [Intents.map_get].
  rewrite entry_fold_some. split.
  - intros [Hn|(Hx & Hex)]; [contradiction Hn; reflexivity|].
    split; [|exact Hex]. intros ->. discriminate.
  - intros (Hx & Hex). right. split; [apply truthy_nonempty, Hx|exact Hex].
Qed.

Lemma keys_map_set_order {V} x (v : V) m :
  keys (Intents.map_set x v m)
  = if existsb (String.eqb x) (keys m) then keys m else keys m ++ [x].
Proof.
  induction m as [|[k w] m IH]; [reflexivity|].
  cbn [Intents.map_set keys List.map fst existsb].
  rewrite (String.eqb_sym x k).
  destruct (String.eqb k x) eqn:E; cbn [orb keys List.map fst].
  - apply String.eqb_eq in E. subst k. reflexivity.
  - fold (keys (Intents.map_set x v m)). fold (keys m). rewrite IH.
    destruct (existsb (String.eqb x) (keys m)); reflexivity.
Qed.

Lemma group_keys_order l :
  forall m,
    keys (fold_left Intents.group_step l m)
    = keys m ++ first_created (keys m) l.
Proof.
  induction l as [|a l IH]; intros m; cbn [fold_left first_created].
  - rewrite app_nil_r. reflexivity.
  - rewrite IH. unfold Intents.group_step.
    destruct (Intents.intent_id_of a) as [x|]; [|reflexivity].
    destruct (Str.truthy x); cbn [negb andb]; [|reflexivity].
    destruct (String.eqb (action a) "scp_intent_created"); cbn [andb].
    + rewrite keys_map_set_order.
      destruct (existsb (String.eqb x) (keys m)); cbn [negb].
      * reflexivity.
      * rewrite <- app_assoc. reflexivity.
    + destruct (Intents.map_has x m); [|reflexivity].
      rewrite keys_map_alter. reflexivity.
Qed.

(** X8.  The intents a log folds into come out in the order in which
    their ids were first created, each id once; the ids are not empty and
    every intent belongs to the customer asked for. *)
Theorem intents_listed_once_in_creation_order customerId log :
  intent_ids customerId log = first_created [] log /\
  List.NoDup (intent_ids customerId log) /\
  List.Forall (fun i => i_customer_id i = customerId /\ i_intent_id i <> "")
    (Intents.transformIntentsToSCP customerId log) /\
  (forall x, List.length (intent_named x customerId log) <= 1)%nat.
Proof.
  split; [|split; [|split]].
  - rewrite intent_ids_keys. unfold Intents.group.
    rewrite group_keys_order. reflexivity.
  - rewrite intent_ids_keys. apply group_nodup.
  - apply List.Forall_forall. intros i Hi.
    assert (In (i_intent_id i) (intent_ids customerId log)) as Hin
      by (unfold intent_ids; apply in_map, Hi).
    apply listed_created in Hin as [Hx _].
    split; [|exact Hx].
    unfold Intents.transformIntentsToSCP in Hi.
    apply in_map_iff in Hi as ([k g] & <- & _). apply intent_of_customer.
  - intros x. unfold intent_named, Intents.transformIntentsToSCP.
    rewrite filter_intents, length_map.
    destruct (Intents.map_get x (Intents.group log)) as [g|] eqn:Hg.
    + rewrite (filter_key x g _ (group_nodup log) Hg). cbn. lia.
    + assert (~ In x (keys (Intents.group log))) as Hnot
        by (rewrite map_get_keys; intros Hn; apply Hn, Hg).
      replace (List.filter _ (Intents.group log)) with (@nil (string * Intents.Group));
        [cbn; lia|].
      symmetry. clear Hg. revert Hnot. generalize (Intents.group log).
      induction l as [|[k g] l IH]; [reflexivity|].
      cbn [keys List.map fst In List.filter]. intros Hnot.
      destruct (String.eqb k x) eqn:E.
      * apply String.eqb_eq in E. exfalso. apply Hnot. auto.
      * apply IH. intros Hin. apply Hnot. right. exact Hin.
Qed.

(** X9.  An intent is listed exactly when its id is not empty and some
    activity of the log created it: updates alone make no intent. *)
Theorem intent_listed_iff_created customerId log x :
  In x (intent_ids customerId log) <->
  x <> "" /\ exists a, In a log /\ creates x a.
Proof. apply listed_created. Qed.


Lemma latest_status_last_carried ups acc :
  fold_left Intents.status_step ups acc
  = match last_carried ups with
    | Some u => (carried u, timestamp u)
    | None => acc
    end.
Proof.
  unfold last_carried.
  induction ups as [|u ups IH] using rev_ind; [reflexivity|].
  rewrite fold_left_app, rev_app_distr. cbn [fold_left rev app List.find].
  rewrite IH. unfold Intents.status_step at 1, carries_status.
  destruct (Intents.field d_status u) as [s|] eqn:E;
    cbn [Intents.truthy_string]; [|reflexivity].
  destruct (Str.truthy s); [|reflexivity].
  unfold carried. rewrite E. reflexivity.
Qed.

Lemma entry_fold_updates x c acc ups :
  Str.truthy x = true ->
  List.Forall (fun u => about x u = true) ups ->
  List.Forall (fun u => action u <> "scp_intent_created") ups ->
  fold_left (entry_step x) ups (Some (Intents.mkGroup c acc))
  = Some (Intents.mkGroup c (acc ++ ups)).
Proof.
  intros Hx Hab Hup. revert acc.
  induction ups as [|u ups IH]; intros acc.
  - rewrite app_nil_r. reflexivity.
  - inversion Hab as [|? ? Hu Hab']. inversion Hup as [|? ? Hnc Hup']. subst.
    cbn [fold_left]. unfold entry_step at 2. rewrite Hu, Hx. cbn [andb].
    destruct (String.eqb (action u) "scp_intent_created") eqn:E.
    + apply String.eqb_eq in E. contradiction.
    + cbn [Intents.created Intents.updates].
      rewrite (IH Hab' Hup'), <- app_assoc. reflexivity.
Qed.

Lemma entry_fold_created x c earlier g0 :
  Str.truthy x = true ->
  about x c = true ->
  action c = "scp_intent_created" ->
  fold_left (entry_step x) (earlier ++ [c]) g0 = Some (Intents.mkGroup c []).
Proof.
  intros Hx Hc Ha. rewrite fold_left_app. cbn [fold_left].
  unfold entry_step. rewrite Hc, Hx, Ha. reflexivity.
Qed.

Lemma filter_all {A} (f : A -> bool) l :
  List.Forall (fun a => f a = true) (List.filter f l).
Proof.
  apply List.Forall_forall. intros a Ha. apply filter_In in Ha. apply Ha.
Qed.

(** X10.  The intent of [x] is built from the last creation of [x] and
    the updates after it: its status and [updated_at] come from the last
    of these updates that carries a status ("created" and the creation
    time when none does), and its milestones are the creation and these
    updates in log order.  What came before the last creation is
    dropped. *)
Theorem status_is_last_carried_since_creation customerId x log earlier c ups :
  x <> "" ->
  List.filter (about x) log = earlier ++ c :: ups ->
  action c = "scp_intent_created" ->
  List.Forall (fun u => action u <> "scp_intent_created") ups ->
  exists intent,
    intent_named x customerId log = [intent] /\
    i_created_at intent = timestamp c /\
    (i_status intent, i_updated_at intent)
    = match last_carried ups with
      | Some u => (carried u, timestamp u)
      | None => ("created", timestamp c)
      end /\
    List.map m_timestamp (i_milestones intent)
    = timestamp c :: List.map timestamp ups /\
    List.map m_event (i_milestones intent)
    = "created"
      :: List.map (fun u => Str.replace_first "scp_intent_" "" (action u)) ups.
Proof.
  intros Hx Hlog Hc Hups.
  pose proof (filter_all (about x) log) as Hall. rewrite Hlog in Hall.
  apply List.Forall_app in Hall as [_ Hall].
  inversion Hall as [|? ? Hac Hab]. subst.
  exists (Intents.intent_of customerId x (Intents.mkGroup c ups)).
  split.
  - apply transform_entry. rewrite Hlog.
    change (earlier ++ c :: ups) with (earlier ++ [c] ++ ups).
    rewrite app_assoc, fold_left_app.
    rewrite (entry_fold_created x c earlier None (truthy_nonempty _ Hx) Hac Hc).
    apply (entry_fold_updates x c [] ups (truthy_nonempty _ Hx) Hab Hups).
  - unfold Intents.intent_of, Intents.latest_status.
    cbn [Intents.created Intents.updates].
    rewrite latest_status_last_carried.
    destruct (last_carried ups) as [u|];
      cbn [i_created_at i_status i_updated_at i_milestones List.map
           m_timestamp m_event];
      rewrite !List.map_map; cbn [m_timestamp m_event]; auto.
Qed.

Lemma status_is_last_carried_since_creation_witness :
  exists intent,
    intent_named "intent_A" "cust_b1p082" Scenario.activities = [intent] /\
    i_created_at intent = timestamp (Scenario.activity 0) /\
    (i_status intent, i_updated_at intent)
    = match last_carried [Scenario.activity 2; Scenario.activity 4] with
      | Some u => (carried u, timestamp u)
      | None => ("created", timestamp (Scenario.activity 0))
      end /\
    List.map m_timestamp (i_milestones intent)
    = timestamp (Scenario.activity 0)
      :: List.map timestamp [Scenario.activity 2; Scenario.activity 4] /\
    List.map m_event (i_milestones intent)
    = "created"
      :: List.map (fun u => Str.replace_first "scp_intent_" "" (action u))
           [Scenario.activity 2; Scenario.activity 4].
Proof.
  refine (status_is_last_carried_since_creation "cust_b1p082" "intent_A"
            Scenario.activities [] (Scenario.activity 0)
            [Scenario.activity 2; Scenario.activity 4] _ _ _ _).
  - discriminate.
  - vm_compute. reflexivity.
  - vm_compute. reflexivity.
  - repeat constructor; vm_compute; discriminate.
Defined.

Lemma filter_key_none {V} x (m : list (string * V)) :
  Intents.map_get x m = None ->
  List.filter (fun kv => String.eqb (fst kv) x) m = [].
Proof.
  induction m as [|[k v] m IH]; [reflexivity|].
  cbn [Intents.map_get List.filter fst].
  destruct (String.eqb k x); [discriminate|exact IH].
Qed.

Lemma intent_named_get x customerId log :
  intent_named x customerId log
  = match Intents.map_get x (Intents.group log) with
    | Some g => [Intents.intent_of customerId x g]
    | None => []
    end.
Proof.
  unfold intent_named, Intents.transformIntentsToSCP. rewrite filter_intents.
  destruct (Intents.map_get x (Intents.group log)) as [g|] eqn:Hg.
  - rewrite (filter_key x g _ (group_nodup log) Hg). reflexivity.
  - rewrite (filter_key_none x _ Hg). reflexivity.
Qed.

Lemma group_snoc l a :
  Intents.group (l ++ [a]) = Intents.group_step (Intents.group l) a.
Proof. unfold Intents.group. rewrite fold_left_app. reflexivity. Qed.

Lemma getIntents_createIntent customerId d ts log :
  IntentLog.getIntents customerId (IntentLog.createIntent customerId d ts log)
  = IntentLog.getIntents customerId log ++
    [mkActivity "scp_intent_created" ts
       (Some (mkData (d_intent_id d) (Some "created") (Some "ai_assistant")
                (d_base_intent d) (d_mechanism d) (d_ai_assistant d)
                (d_ai_session_id d) (d_expires_at d) (d_context d)
                (d_visibility d) None None))].
Proof.
  unfold IntentLog.getIntents, IntentLog.createIntent.
  rewrite lookup_insert_eq. reflexivity.
Qed.

Lemma getIntents_updateIntent customerId oid st ms ctx ts log :
  IntentLog.getIntents customerId
    (IntentLog.updateIntent customerId oid st ms ctx ts log)
  = IntentLog.getIntents customerId log ++
    [mkActivity "scp_intent_updated" ts
       (Some (mkData oid st (Some "ai_assistant") None None None None None
                ctx None None ms))].
Proof.
  unfold IntentLog.getIntents, IntentLog.updateIntent.
  rewrite lookup_insert_eq. reflexivity.
Qed.

Lemma getIntents_other_create customerId other d ts log :
  other <> customerId ->
  IntentLog.getIntents other (IntentLog.createIntent customerId d ts log)
  = IntentLog.getIntents other log.
Proof.
  intros Hne. unfold IntentLog.getIntents, IntentLog.createIntent.
  rewrite lookup_insert_ne by congruence. reflexivity.
Qed.

Lemma getIntents_other_update customerId other oid st ms ctx ts log :
  other <> customerId ->
  IntentLog.getIntents other
    (IntentLog.updateIntent customerId oid st ms ctx ts log)
  = IntentLog.getIntents other log.
Proof.
  intros Hne. unfold IntentLog.getIntents, IntentLog.updateIntent.
  rewrite lookup_insert_ne by congruence. reflexivity.
Qed.

Lemma intent_named_other x y customerId l a :
  Intents.intent_id_of a = Some x ->
  y <> x ->
  intent_named y customerId (l ++ [a]) = intent_named y customerId l.
Proof.
  intros Ha Hne. rewrite !intent_named_get, group_snoc, group_step_entry.
  unfold entry_step, about. rewrite Ha.
  destruct (String.eqb x y) eqn:E; [|reflexivity].
  apply String.eqb_eq in E. congruence.
Qed.

(** X11.  An update that names no intent, or an intent that is not
    listed, is stored but changes nothing in what is read back. *)
Theorem update_of_unknown_intent_is_dropped customerId oid st ms ctx ts log :
  (forall x, oid = Some x ->
             ~ In x (intent_ids customerId
                       (IntentLog.getIntents customerId log))) ->
  Intents.transformIntentsToSCP customerId
    (IntentLog.getIntents customerId
       (IntentLog.updateIntent customerId oid st ms ctx ts log))
  = Intents.transformIntentsToSCP customerId
      (IntentLog.getIntents customerId log).
Proof.
  intros Hunknown. rewrite getIntents_updateIntent.
  unfold Intents.transformIntentsToSCP. rewrite group_snoc.
  unfold Intents.group_step. cbn [Intents.intent_id_of data d_intent_id action].
  destruct oid as [x|]; [|reflexivity].
  destruct (Str.truthy x); cbn [negb]; [|reflexivity].
  cbn [String.eqb Ascii.eqb Bool.eqb andb].
  change (String.eqb "scp_intent_updated" "scp_intent_created") with false.
  cbn iota.
  specialize (Hunknown x eq_refl).
  rewrite intent_ids_keys, map_get_keys in Hunknown.
  unfold Intents.map_has.
  destruct (Intents.map_get x _); [|reflexivity].
  contradiction Hunknown. discriminate.
Qed.

Lemma update_of_unknown_intent_is_dropped_witness :
  Intents.transformIntentsToSCP "cust_b1p082"
    (IntentLog.getIntents "cust_b1p082"
       (IntentLog.updateIntent "cust_b1p082" (Some "intent_Z")
          (Some "fulfilled") None None "2024-01-06T09:00:00.000Z"
          Scenario.intent_log))
  = Intents.transformIntentsToSCP "cust_b1p082"
      (IntentLog.getIntents "cust_b1p082" Scenario.intent_log).
Proof.
  refine (update_of_unknown_intent_is_dropped "cust_b1p082" (Some "intent_Z")
            (Some "fulfilled") None None "2024-01-06T09:00:00.000Z"
            Scenario.intent_log _).
  intros x Hx. injection Hx as <-. vm_compute. intuition discriminate.
Defined.

(** X12.  After [createIntent] with a non-empty id the intent is read
    back with status "created", created and updated at the time of the
    call, and a single milestone; the other intents of the customer and
    the logs of the other customers are as before. *)
Theorem created_intent_is_listed customerId d ts log x :
  d_intent_id d = Some x ->
  x <> "" ->
  let log' := IntentLog.createIntent customerId d ts log in
  (exists intent,
      intent_named x customerId (IntentLog.getIntents customerId log')
      = [intent] /\
      i_status intent = "created" /\
      i_created_at intent = ts /\
      i_updated_at intent = ts /\
      List.map m_event (i_milestones intent) = ["created"] /\
      List.map m_source (i_milestones intent) = ["ai_assistant"] /\
      i_base_intent intent = Intents.or_else (d_base_intent d) "" /\
      i_expires_at intent = d_expires_at d) /\
  (forall y, y <> x ->
             intent_named y customerId (IntentLog.getIntents customerId log')
             = intent_named y customerId (IntentLog.getIntents customerId log)) /\
  (forall other, other <> customerId ->
                 IntentLog.getIntents other log'
                 = IntentLog.getIntents other log).
Proof.
  intros Hid Hx log'. subst log'. rewrite getIntents_createIntent.
  split; [|split].
  - eexists. split.
    + rewrite intent_named_get, group_snoc, group_step_entry.
      unfold entry_step, about.
      cbn [Intents.intent_id_of data d_intent_id action].
      rewrite Hid, String.eqb_refl, (truthy_nonempty _ Hx). cbn [andb].
      rewrite String.eqb_refl. reflexivity.
    + unfold Intents.intent_of.
      cbn [Intents.created Intents.updates Intents.latest_status fold_left
           timestamp List.map].
      cbn. auto 10.
  - intros y Hy. apply (intent_named_other x); [|exact Hy].
    cbn. exact Hid.
  - intros other Hne. apply getIntents_other_create, Hne.
Qed.

Lemma created_intent_is_listed_witness :
  let log' := IntentLog.createIntent "cust_b1p082"
                (Scenario.intent_data "intent_A") "2024-01-07T09:00:00.000Z"
                Scenario.intent_log in
  (exists intent,
      intent_named "intent_A" "cust_b1p082"
        (IntentLog.getIntents "cust_b1p082" log') = [intent] /\
      i_status intent = "created" /\
      i_created_at intent = "2024-01-07T09:00:00.000Z" /\
      i_updated_at intent = "2024-01-07T09:00:00.000Z" /\
      List.map m_event (i_milestones intent) = ["created"] /\
      List.map m_source (i_milestones intent) = ["ai_assistant"] /\
      i_base_intent intent
      = Intents.or_else (d_base_intent (Scenario.intent_data "intent_A")) "" /\
      i_expires_at intent = d_expires_at (Scenario.intent_data "intent_A")) /\
  (forall y, y <> "intent_A" ->
             intent_named y "cust_b1p082"
               (IntentLog.getIntents "cust_b1p082" log')
             = intent_named y "cust_b1p082"
                 (IntentLog.getIntents "cust_b1p082" Scenario.intent_log)) /\
  (forall other, other <> "cust_b1p082" ->
                 IntentLog.getIntents other log'
                 = IntentLog.getIntents other Scenario.intent_log).
Proof.
  refine (created_intent_is_listed "cust_b1p082"
            (Scenario.intent_data "intent_A") "2024-01-07T09:00:00.000Z"
            Scenario.intent_log "intent_A" _ _).
  - reflexivity.
  - discriminate.
Defined.

(** X13.  After [updateIntent] on a listed intent the intent has one
    more milestone; its status and [updated_at] are those of the update
    when it carries a status and are unchanged when it carries none.  The
    other intents and the other customers are as before. *)
Theorem update_moves_status customerId x st ms ctx ts log intent :
  intent_named x customerId (IntentLog.getIntents customerId log) = [intent] ->
  let log' := IntentLog.updateIntent customerId (Some x) st ms ctx ts log in
  (exists intent',
      intent_named x customerId (IntentLog.getIntents customerId log')
      = [intent'] /\
      (i_status intent', i_updated_at intent')
      = (if Intents.truthy_string st
         then (default "" st, ts)
         else (i_status intent, i_updated_at intent)) /\
      i_created_at intent' = i_created_at intent /\
      List.map m_timestamp (i_milestones intent')
      = List.map m_timestamp (i_milestones intent) ++ [ts] /\
      List.map m_event (i_milestones intent')
      = List.map m_event (i_milestones intent) ++ ["updated"]) /\
  (forall y, y <> x ->
             intent_named y customerId (IntentLog.getIntents customerId log')
             = intent_named y customerId (IntentLog.getIntents customerId log)) /\
  (forall other, other <> customerId ->
                 IntentLog.getIntents other log'
                 = IntentLog.getIntents other log).
Proof.
  intros Hnamed log'. subst log'. rewrite getIntents_updateIntent.
  split; [|split].
  - assert (Hx : x <> "").
    { assert (In x (intent_ids customerId (IntentLog.getIntents customerId log)))
        as Hin.
      { unfold intent_named in Hnamed. unfold intent_ids.
        assert (In intent (List.filter
                  (fun i => String.eqb (i_intent_id i) x)
                  (Intents.transformIntentsToSCP customerId
                     (IntentLog.getIntents customerId log)))) as Hi
            by (rewrite Hnamed; left; reflexivity).
        apply filter_In in Hi as [Hi Hid]. apply String.eqb_eq in Hid.
        rewrite <- Hid. apply in_map, Hi. }
      apply listed_created in Hin. apply Hin. }
    rewrite intent_named_get in Hnamed.
    destruct (Intents.map_get x (Intents.group _)) as [g|] eqn:Hg;
      [|discriminate].
    injection Hnamed as <-.
    eexists. split.
    + rewrite intent_named_get, group_snoc, group_step_entry, Hg.
      unfold entry_step, about.
      cbn [Intents.intent_id_of data d_intent_id action].
      rewrite String.eqb_refl, (truthy_nonempty _ Hx). cbn [andb].
      change (String.eqb "scp_intent_updated" "scp_intent_created") with false.
      cbn iota. reflexivity.
    + unfold Intents.intent_of, Intents.latest_status.
      cbn [Intents.created Intents.updates].
      rewrite fold_left_app. cbn [fold_left].
      destruct (fold_left Intents.status_step (Intents.updates g) _)
        as [s0 t0] eqn:Hfold.
      unfold Intents.status_step, Intents.field.
      cbn [data d_status timestamp].
      destruct st as [s|]; cbn [Intents.truthy_string default].
      * destruct (Str.truthy s);
          cbn [i_status i_updated_at i_created_at i_milestones List.map
               m_timestamp m_event];
          rewrite !List.map_app; cbn; auto.
      * cbn [i_status i_updated_at i_created_at i_milestones List.map
             m_timestamp m_event];
          rewrite !List.map_app; cbn; auto.
  - intros y Hy. apply (intent_named_other x); [reflexivity|exact Hy].
  - intros other Hne. apply getIntents_other_update, Hne.
Qed.

Lemma update_moves_status_witness :
  let log' := IntentLog.updateIntent "cust_b1p082" (Some "intent_B")
                (Some "active") None None "2024-01-06T09:00:00.000Z"
                Scenario.intent_log in
  let intent := Intents.intent_of "cust_b1p082" "intent_B"
                  (Intents.mkGroup (Scenario.activity 1) [Scenario.activity 3]) in
  (exists intent',
      intent_named "intent_B" "cust_b1p082"
        (IntentLog.getIntents "cust_b1p082" log') = [intent'] /\
      (i_status intent', i_updated_at intent')
      = (if Intents.truthy_string (Some "active")
         then (default "" (Some "active"), "2024-01-06T09:00:00.000Z")
         else (i_status intent, i_updated_at intent)) /\
      i_created_at intent' = i_created_at intent /\
      List.map m_timestamp (i_milestones intent')
      = List.map m_timestamp (i_milestones intent)
        ++ ["2024-01-06T09:00:00.000Z"] /\
      List.map m_event (i_milestones intent')
      = List.map m_event (i_milestones intent) ++ ["updated"]) /\
  (forall y, y <> "intent_B" ->
             intent_named y "cust_b1p082"
               (IntentLog.getIntents "cust_b1p082" log')
             = intent_named y "cust_b1p082"
                 (IntentLog.getIntents "cust_b1p082" Scenario.intent_log)) /\
  (forall other, other <> "cust_b1p082" ->
                 IntentLog.getIntents other log'
                 = IntentLog.getIntents other Scenario.intent_log).
Proof.
  refine (update_moves_status "cust_b1p082" "intent_B" (Some "active") None None
            "2024-01-06T09:00:00.000Z" Scenario.intent_log
            (Intents.intent_of "cust_b1p082" "intent_B"
               (Intents.mkGroup (Scenario.activity 1) [Scenario.activity 3])) _).
  vm_compute. reflexivity.
Defined.

(** ** The data methods and the dispatcher *)

Lemma lookup_field_snoc_other k k' v fields :
  String.eqb k k' = false ->
  Js.lookup_field k (fields ++ [(k', v)]) = Js.lookup_field k fields.
Proof.
  intros Hne. induction fields as [|[k0 v0] fields IH].
  - cbn. rewrite Hne. reflexivity.
  - cbn [app Js.lookup_field]. rewrite IH. reflexivity.
Qed.

Lemma lookup_field_snoc_same k v fields :
  Js.lookup_field k (fields ++ [(k, v)]) = Some v.
Proof.
  induction fields as [|[k0 v0] fields IH].
  - cbn. rewrite String.eqb_refl. reflexivity.
  - cbn [app Js.lookup_field]. rewrite IH. reflexivity.
Qed.

Lemma firstn_min {A} n (l : list A) :
  firstn (Nat.min n (List.length l)) l = firstn n l.
Proof.
  destruct (Nat.le_gt_cases n (List.length l)) as [Hle|Hgt].
  - rewrite Nat.min_l by exact Hle. reflexivity.
  - rewrite Nat.min_r by lia. rewrite !firstn_all2 by lia. reflexivity.
Qed.

Lemma slice_first {A} n (l : list A) :
  (0 <= n)%Z -> Methods.slice 0 n l = firstn (Z.to_nat n) l.
Proof.
  intros Hn. unfold Methods.slice, Methods.relative.
  replace (n <? 0)%Z with false by (symmetry; apply Z.ltb_ge; lia).
  cbn [Z.ltb Z.compare Z.to_nat Nat.min skipn]. rewrite Nat.sub_0_r.
  apply firstn_min.
Qed.

Lemma firstn_length_lt {A} n (l : list A) :
  (List.length (firstn n l) < List.length l)%nat <-> (n < List.length l)%nat.
Proof. rewrite length_firstn. lia. Qed.

Lemma status_in_strings statuses status :
  Methods.status_in (List.map JStr statuses) status
  = existsb (String.eqb status) statuses.
Proof.
  unfold Methods.status_in. induction statuses as [|s statuses IH];
    [reflexivity|].
  cbn [List.map existsb]. rewrite IH, (String.eqb_sym s). reflexivity.
Qed.


(** X14.  Without a status filter and with a positive limit (ten when
    none is given), [get_intents] returns the first [limit] intents of the
    customer whatever [offset] says: the offset is echoed in the
    pagination and never applied.  [has_more] is true exactly when
    intents were left out. *)
Theorem get_intents_returns_the_first_page customerId fields offset n log :
  Methods.or_default (Js.lookup_field "limit" fields) (JNum 10) = JNum n ->
  (0 < n)%Z ->
  Js.truthy (Js.lookup_field "status" fields) = false ->
  let page :=
    Methods.getIntentsMethod customerId
      (JObj (fields ++ [("offset", offset)])) log in
  let all := Intents.transformIntentsToSCP customerId
               (IntentLog.getIntents customerId log) in
  page_intents page = firstn (Z.to_nat n) all /\
  pg_total (page_pagination page) = List.length all /\
  pg_limit (page_pagination page) = JNum n /\
  pg_offset (page_pagination page)
  = Methods.or_default (Some offset) (JNum 0) /\
  (pg_has_more (page_pagination page) = true <->
   (List.length (page_intents page) < List.length all)%nat).
Proof.
  intros Hlimit Hn Hstatus page all. subst page all.
  unfold Methods.getIntentsMethod, Methods.param.
  rewrite !lookup_field_snoc_other by reflexivity.
  rewrite lookup_field_snoc_same, Hlimit.
  cbn [page_intents page_pagination pg_total pg_limit pg_offset pg_has_more].
  set (all := Intents.transformIntentsToSCP _ _).
  assert (Hall :
    match Js.lookup_field "status" fields with
    | Some st =>
        if Js.truthy (Some st)
        then List.filter
               (fun i => Methods.status_in
                           match st with JArr items => items | _ => [st] end
                           (i_status i)) all
        else all
    | None => all
    end = all).
  { destruct (Js.lookup_field "status" fields) as [st|]; [|reflexivity].
    rewrite Hstatus. reflexivity. }
  rewrite Hall.
  unfold Methods.to_index, Js.lt_number. cbn [Js.to_number].
  rewrite slice_first by lia.
  repeat split; try reflexivity.
  - intros Hmore. apply firstn_length_lt. apply Z.ltb_lt in Hmore. lia.
  - intros Hlt. apply (proj1 (firstn_length_lt _ _)) in Hlt. apply Z.ltb_lt. lia.
Qed.

Lemma get_intents_returns_the_first_page_witness :
  let page :=
    Methods.getIntentsMethod "cust_b1p082"
      (JObj ([("limit", JNum 1)] ++ [("offset", JNum 1)]))
      Scenario.intent_log in
  let all := Intents.transformIntentsToSCP "cust_b1p082"
               (IntentLog.getIntents "cust_b1p082" Scenario.intent_log) in
  page_intents page = firstn (Z.to_nat 1) all /\
  pg_total (page_pagination page) = List.length all /\
  pg_limit (page_pagination page) = JNum 1 /\
  pg_offset (page_pagination page)
  = Methods.or_default (Some (JNum 1)) (JNum 0) /\
  (pg_has_more (page_pagination page) = true <->
   (List.length (page_intents page) < List.length all)%nat).
Proof.
  refine (get_intents_returns_the_first_page "cust_b1p082"
            [("limit", JNum 1)] (JNum 1) 1 Scenario.intent_log _ _ _);
    reflexivity.
Defined.

Lemma in_firstn {A} (x : A) n l : In x (firstn n l) -> In x l.
Proof.
  revert l. induction n as [|n IH]; intros [|a l]; cbn; try tauto.
  intros [->|Hin]; [left; reflexivity|right; apply IH, Hin].
Qed.

Lemma in_slice {A} (x : A) a b l : In x (Methods.slice a b l) -> In x l.
Proof.
  unfold Methods.slice. intros Hin. apply in_firstn in Hin.
  rewrite <- (firstn_skipn (Methods.relative a (List.length l)) l).
  apply in_or_app. right. exact Hin.
Qed.

(** X15.  A status filter, one non-empty string or an array of strings,
    keeps the intents of the customer whose status is one of those asked
    for, before the limit applies and in the order of the fold; the total
    counts the kept intents; an empty array keeps none. *)
Theorem get_intents_status_filter customerId params statuses log :
  asks_for (Methods.param "status" params) statuses ->
  let page := Methods.getIntentsMethod customerId params log in
  let limit := Methods.or_default (Methods.param "limit" params) (JNum 10) in
  page_intents page
  = Methods.slice 0 (Methods.to_index limit)
      (intents_matching statuses customerId log) /\
  pg_total (page_pagination page)
  = List.length (intents_matching statuses customerId log) /\
  List.Forall (fun i => In (i_status i) statuses /\ i_customer_id i = customerId)
    (page_intents page) /\
  (statuses = [] -> page_intents page = []).
Proof.
  intros Hasks page limit.
  assert (Hpage :
    page_intents page
    = Methods.slice 0 (Methods.to_index limit)
        (intents_matching statuses customerId log) /\
    pg_total (page_pagination page)
    = List.length (intents_matching statuses customerId log)).
  { subst page limit. unfold Methods.getIntentsMethod.
    cbn [page_intents page_pagination pg_total].
    destruct Hasks as [-> | (s & Hs & -> & ->)].
    - cbn [Js.truthy]. unfold intents_matching.
      rewrite (List.filter_ext _ _
                 (fun i => status_in_strings statuses (i_status i))).
      auto.
    - cbn [Js.truthy]. rewrite (truthy_nonempty _ Hs). unfold intents_matching.
      rewrite (List.filter_ext _ _
                 (fun i => status_in_strings [s] (i_status i))).
      auto. }
  destruct Hpage as [Hintents Htotal].
  split; [exact Hintents|]. split; [exact Htotal|]. split.
  - rewrite Hintents. apply List.Forall_forall. intros i Hi.
    assert (In i (intents_matching statuses customerId log)) as Hin.
    { apply in_slice in Hi. exact Hi. }
    unfold intents_matching in Hin. apply filter_In in Hin as [Hin Hex].
    apply existsb_exists in Hex as (s & Hs & Heq).
    apply String.eqb_eq in Heq. split; [congruence|].
    unfold Intents.transformIntentsToSCP in Hin.
    apply in_map_iff in Hin as ([k g] & <- & _).
    unfold Intents.intent_of. destruct (Intents.latest_status _ _). reflexivity.
  - intros ->. rewrite Hintents. unfold intents_matching. cbn [existsb].
    replace (List.filter (fun _ => false) _) with (@nil SCPIntent).
    + unfold Methods.slice. cbn [skipn List.length].
      rewrite skipn_nil. apply firstn_nil.
    + symmetry. generalize (Intents.transformIntentsToSCP customerId
                              (IntentLog.getIntents customerId log)).
      induction l as [|a l IH]; [reflexivity|exact IH].
Qed.

Lemma get_intents_status_filter_witness :
  let params := JObj [("status", JStr "fulfilled")] in
  let page := Methods.getIntentsMethod "cust_b1p082" params
                Scenario.intent_log in
  let limit := Methods.or_default (Methods.param "limit" params) (JNum 10) in
  page_intents page
  = Methods.slice 0 (Methods.to_index limit)
      (intents_matching ["fulfilled"] "cust_b1p082" Scenario.intent_log) /\
  pg_total (page_pagination page)
  = List.length (intents_matching ["fulfilled"] "cust_b1p082" Scenario.intent_log) /\
  List.Forall (fun i => In (i_status i) ["fulfilled"] /\
                        i_customer_id i = "cust_b1p082")
    (page_intents page) /\
  (["fulfilled"] = [] -> page_intents page = []).
Proof.
  refine (get_intents_status_filter "cust_b1p082"
            (JObj [("status", JStr "fulfilled")]) ["fulfilled"]
            Scenario.intent_log _).
  right. exists "fulfilled". repeat split. discriminate.
Defined.


(** X16.  When the verified token carries the scope a dispatched method
    requires, the dispatcher answers with the outcome of that method's
    operation, run on the subject of the token and the parameters of the
    request, under the request's id. *)
Theorem granted_scope_reaches_the_handler {W} (h : @Rpc.Handlers W)
        request token secret now w payload sub items required :
  Jwt.verifyAccessToken token secret now = Ok payload ->
  get_property "sub" payload = Ok sub ->
  get_property "scopes" payload = Ok (Some (JArr items)) ->
  In (rpc_method request, required) dispatched ->
  In (JStr required) items ->
  exists run,
    operation_of h (rpc_method request) sub (params_of request) = Some run /\
    Rpc.handleRPCRequest h request token secret now w
    = (respond request (fst (run w)), snd (run w)).
Proof. apply handle_granted. Qed.

Lemma granted_scope_reaches_the_handler_witness :
  exists run,
    operation_of counting
      (rpc_method (mkRequest (JNum 7) "scp.get_orders" None))
      (Some (JStr "cust_b1p082"))
      (params_of (mkRequest (JNum 7) "scp.get_orders" None)) = Some run /\
    Rpc.handleRPCRequest counting (mkRequest (JNum 7) "scp.get_orders" None)
      Scenario.access Scenario.secret (Scenario.t0 + 5000)%Z 0%nat
    = (respond (mkRequest (JNum 7) "scp.get_orders" None) (fst (run 0%nat)),
       snd (run 0%nat)).
Proof.
  refine (granted_scope_reaches_the_handler counting
            (mkRequest (JNum 7) "scp.get_orders" None)
            Scenario.access Scenario.secret (Scenario.t0 + 5000)%Z 0%nat
            (Jwt.TokenPayload "cust_b1p082" "a@example.com" ["orders"]
               1700000004 1700003604)
            (Some (JStr "cust_b1p082")) [JStr "orders"] "orders" _ _ _ _ _).
  - vm_compute. reflexivity.
  - reflexivity.
  - reflexivity.
  - left. reflexivity.
  - left. reflexivity.
Defined.

(** X17.  A method that is not dispatched is answered -32601 "Method
    not found" whatever scopes the verified token carries; no operation
    runs. *)
Theorem unknown_method_is_not_found {W} (h : @Rpc.Handlers W)
        request token secret now w payload :
  Jwt.verifyAccessToken token secret now = Ok payload ->
  payload <> JNull ->
  ~ In (rpc_method request) (List.map fst dispatched) ->
  Rpc.handleRPCRequest h request token secret now w
  = (RpcFailure (rpc_id request) (mkRpcError (-32601) "Method not found" None),
     w).
Proof.
  intros Hverify Hnull Hunknown.
  unfold Rpc.handleRPCRequest. rewrite Hverify.
  assert (exists sub scopes,
             get_property "sub" payload = Ok sub /\
             get_property "scopes" payload = Ok scopes) as (sub & scopes & Hs & Hc).
  { destruct payload; try (do 2 eexists; split; reflexivity).
    contradiction Hnull. reflexivity. }
  rewrite (serve_params h request payload sub scopes w Hs Hc).
  unfold Rpc.routeMethod.
  cbn [dispatched List.map fst In] in Hunknown.
  repeat match goal with
         | |- context [String.eqb (rpc_method request) ?m] =>
             let E := fresh "E" in
             destruct (String.eqb (rpc_method request) m) eqn:E;
             [apply String.eqb_eq in E; exfalso; apply Hunknown;
              rewrite E; tauto|]
         end.
  reflexivity.
Qed.

Lemma unknown_method_is_not_found_witness :
  Rpc.handleRPCRequest counting (mkRequest (JNum 9) "scp.delete_orders" None)
    Scenario.access Scenario.secret (Scenario.t0 + 5000)%Z 0%nat
  = (RpcFailure (rpc_id (mkRequest (JNum 9) "scp.delete_orders" None))
       (mkRpcError (-32601) "Method not found" None), 0%nat).
Proof.
  refine (unknown_method_is_not_found counting
            (mkRequest (JNum 9) "scp.delete_orders" None)
            Scenario.access Scenario.secret (Scenario.t0 + 5000)%Z 0%nat
            (Jwt.TokenPayload "cust_b1p082" "a@example.com" ["orders"]
               1700000004 1700003604) _ _ _).
  - vm_compute. reflexivity.
  - discriminate.
  - vm_compute. intuition discriminate.
Defined.

Lemma verify_error_code token secret now err :
  Jwt.verifyJWT token secret now = Err err -> err_code err = None.
Proof.
  unfold Jwt.verifyJWT, Jwt.sign, get_property, mbind, result_bind.
  repeat (break_match; try discriminate);
    intros Heq; injection Heq as <-; reflexivity.
Qed.

(** X18.  When the token does not verify no operation runs: the world
    is unchanged and the answer is a failure under the request's id with
    the message of the verification error, and the code -32000 for each of
    the three errors [verifyJWT] throws itself. *)
Theorem unverified_token_reaches_no_handler {W} (h : @Rpc.Handlers W)
        request token secret now w err :
  Jwt.verifyAccessToken token secret now = Err err ->
  snd (Rpc.handleRPCRequest h request token secret now w) = w /\
  exists body,
    fst (Rpc.handleRPCRequest h request token secret now w)
    = RpcFailure (rpc_id request) body /\
    rpc_message body = err_message err /\
    (In (err_message err) verify_refusals -> rpc_code body = (-32000)%Z).
Proof.
  intros Hverify. pose proof (verify_error_code _ _ _ _ Hverify) as Hcode.
  unfold Rpc.handleRPCRequest. rewrite Hverify.
  cbn [fst snd]. split; [reflexivity|].
  eexists. split; [reflexivity|]. cbn [rpc_message rpc_code].
  split; [reflexivity|].
  intros Hin. unfold Rpc.getErrorCode. rewrite Hcode.
  unfold verify_refusals in Hin. cbn [In] in Hin.
  destruct Hin as [<- | [<- | [<- | []]]]; reflexivity.
Qed.

Lemma unverified_token_reaches_no_handler_witness :
  snd (Rpc.handleRPCRequest counting (mkRequest (JNum 7) "scp.get_orders" None)
         Scenario.access Scenario.secret (Scenario.t0 + 3605000)%Z 0%nat)
  = 0%nat /\
  exists body,
    fst (Rpc.handleRPCRequest counting
           (mkRequest (JNum 7) "scp.get_orders" None)
           Scenario.access Scenario.secret (Scenario.t0 + 3605000)%Z 0%nat)
    = RpcFailure (rpc_id (mkRequest (JNum 7) "scp.get_orders" None)) body /\
    rpc_message body = err_message (Error "JWT expired") /\
    (In (err_message (Error "JWT expired")) verify_refusals ->
     rpc_code body = (-32000)%Z).
Proof.
  refine (unverified_token_reaches_no_handler counting
            (mkRequest (JNum 7) "scp.get_orders" None)
            Scenario.access Scenario.secret (Scenario.t0 + 3605000)%Z 0%nat
            (Error "JWT expired") _).
  vm_compute. reflexivity.
Defined.

(** X19.  [get_orders] first looks the customer up by id, and a lookup
    that throws ends the call with that exception.  Otherwise, with a
    non-negative offset and a positive limit (0 and 25 when none is
    given), it returns the orders from [offset] on, at most [limit] of
    them; [has_more] is true exactly when orders remain after the page. *)
Theorem get_orders_returns_the_asked_page {MockOrder ScpOrder : Type}
        (to_scp : MockOrder -> ScpOrder) customerId params o n mockOrders :
  Methods.or_default (Methods.param "offset" params) (JNum 0) = JNum o ->
  Methods.or_default (Methods.param "limit" params) (JNum 25) = JNum n ->
  (0 <= o)%Z ->
  (0 < n)%Z ->
  match MockCustomer.getCustomerById customerId with
  | Err e => Methods.getOrders to_scp customerId params mockOrders = Err e
  | Ok _ =>
      exists page,
        Methods.getOrders to_scp customerId params mockOrders = Ok page /\
        page_orders page
        = List.map to_scp
            (firstn (Z.to_nat n) (skipn (Z.to_nat o) mockOrders)) /\
        pg_total (orders_pagination page) = List.length mockOrders /\
        (pg_has_more (orders_pagination page) = true <->
         (o + n < Z.of_nat (List.length mockOrders))%Z) /\
        (pg_has_more (orders_pagination page) = false ->
         List.map to_scp (skipn (Z.to_nat o) mockOrders) = page_orders page)
  end.
Proof.
  intros Hoffset Hlimit Ho Hn.
  unfold Methods.getOrders.
  destruct (MockCustomer.getCustomerById customerId) as [customer|e];
    cbn [mbind result_bind]; [|reflexivity].
  eexists. split; [reflexivity|]. rewrite Hoffset, Hlimit.
  cbn [page_orders orders_pagination pg_total pg_has_more].
  unfold Methods.add. cbn [Methods.is_numeric andb].
  unfold Methods.to_index, Js.lt_number. cbn [Js.to_number].
  assert (Hslice :
    Methods.slice o (o + n) mockOrders
    = firstn (Z.to_nat n) (skipn (Z.to_nat o) mockOrders)).
  { unfold Methods.slice, Methods.relative.
    replace (o <? 0)%Z with false by (symmetry; apply Z.ltb_ge; lia).
    replace (o + n <? 0)%Z with false by (symmetry; apply Z.ltb_ge; lia).
    destruct (Nat.le_gt_cases (Z.to_nat o) (List.length mockOrders)) as [Hle|Hgt].
    - rewrite (Nat.min_l (Z.to_nat o)) by exact Hle.
      rewrite <- (firstn_min (Z.to_nat n)), length_skipn. f_equal. lia.
    - rewrite (Nat.min_r (Z.to_nat o)) by lia.
      rewrite !skipn_all2 by lia. rewrite !firstn_nil. reflexivity. }
  rewrite Hslice, length_map, length_firstn, length_skipn.
  split; [reflexivity|]. split; [reflexivity|]. split.
  - rewrite Z.ltb_lt. lia.
  - intros Hmore. apply Z.ltb_ge in Hmore. f_equal.
    symmetry. apply firstn_all2. rewrite length_skipn. lia.
Qed.

Lemma get_orders_returns_the_asked_page_witness :
  exists page,
    Methods.getOrders (fun x : nat => x) "cust_61kgv6"
      (JObj [("offset", JNum 2); ("limit", JNum 2)]) [10; 11; 12; 13; 14]%nat
    = Ok page /\
    page_orders page
    = List.map (fun x : nat => x)
        (firstn (Z.to_nat 2) (skipn (Z.to_nat 2) [10; 11; 12; 13; 14]%nat)) /\
    pg_total (orders_pagination page) = List.length [10; 11; 12; 13; 14]%nat /\
    (pg_has_more (orders_pagination page) = true <->
     (2 + 2 < Z.of_nat (List.length [10; 11; 12; 13; 14]%nat))%Z) /\
    (pg_has_more (orders_pagination page) = false ->
     List.map (fun x : nat => x) (skipn (Z.to_nat 2) [10; 11; 12; 13; 14]%nat)
     = page_orders page).
Proof.
  refine (get_orders_returns_the_asked_page (fun x : nat => x) "cust_61kgv6"
            (JObj [("offset", JNum 2); ("limit", JNum 2)]) 2 2
            [10; 11; 12; 13; 14]%nat _ _ _ _);
    first [reflexivity | lia].
Defined.

(** For the customer of the run the lookup throws: the seventh seed of
    the address made from the id exceeds 69984. *)
Lemma get_orders_of_the_run_throws :
  MockCustomer.customer_id_of_email "a@example.com" = "cust_b1p082" /\
  MockCustomer.preferences_seed
    (MockCustomer.hashEmail "customer_b1p082@example.com") = 146646%Z /\
  Methods.getOrders (fun x : nat => x) "cust_b1p082" (JObj []) []
  = Err (HostError "TypeError: Cannot read properties of undefined").
Proof. vm_compute. repeat split; reflexivity. Qed.

(** ** Base64url *)

Lemma below_spec (P : N -> bool) k :
  forallb P (numbers_below k) = true -> forall n, (n < N.of_nat k)%N -> P n = true.
Proof.
  intros Hall n Hn. rewrite forallb_forall in Hall. apply Hall.
  unfold numbers_below. rewrite <- (N2Nat.id n). apply in_map, in_seq. lia.
Qed.

Lemma below_spec2 (P : N -> N -> bool) j k :
  forallb (fun a => forallb (P a) (numbers_below k)) (numbers_below j) = true ->
  forall a b, (a < N.of_nat j)%N -> (b < N.of_nat k)%N -> P a b = true.
Proof.
  intros Hall a b Ha Hb.
  apply (below_spec (P a) k); [|exact Hb].
  apply (below_spec (fun a => forallb (P a) (numbers_below k)) j Hall a Ha).
Qed.

Lemma list_ind3 {A} (P : list A -> Prop) :
  P [] -> (forall a, P [a]) -> (forall a b, P [a; b]) ->
  (forall a b c rest, P rest -> P (a :: b :: c :: rest)) ->
  forall l, P l.
Proof.
  intros H0 H1 H2 H3.
  fix IH 1. intros [|a [|b [|c rest]]];
    [exact H0 | apply H1 | apply H2 | apply H3, IH].
Qed.

(** Facts on bytes, checked on every byte. *)
Lemma digit_facts n :
  (n < 64)%N ->
  Base64.value (Base64.digit n) = Some n /\
  Ascii.eqb (Base64.digit n) "="%char = false /\
  Base64.is_space (Base64.digit n) = false /\
  Ascii.eqb (url_digit n) "="%char = false /\
  (if Ascii.eqb (url_digit n) "-"%char then "+"%char
   else if Ascii.eqb (url_digit n) "_"%char then "/"%char
   else url_digit n) = Base64.digit n.
Proof.
  intros Hn.
  pose proof (below_spec
    (fun n =>
       match Base64.value (Base64.digit n) with
       | Some m => N.eqb m n
       | None => false
       end
       && negb (Ascii.eqb (Base64.digit n) "="%char)
       && negb (Base64.is_space (Base64.digit n))
       && negb (Ascii.eqb (url_digit n) "="%char)
       && Ascii.eqb (if Ascii.eqb (url_digit n) "-"%char then "+"%char
                     else if Ascii.eqb (url_digit n) "_"%char then "/"%char
                     else url_digit n) (Base64.digit n))
    64 ltac:(vm_compute; reflexivity) n Hn) as H.
  cbv beta in H.
  repeat (apply andb_prop in H as [H ?]).
  repeat split.
  - destruct (Base64.value _) as [m|]; [|discriminate].
    apply N.eqb_eq in H. congruence.
  - apply negb_true_iff. assumption.
  - apply negb_true_iff. assumption.
  - apply negb_true_iff. assumption.
  - apply Ascii.eqb_eq. assumption.
Qed.

Lemma sextet_facts a b :
  (a < 256)%N -> (b < 256)%N ->
  (N.shiftr a 2 < 64)%N /\
  (N.shiftl (N.land a 3) 4 < 64)%N /\
  (N.lor (N.shiftl (N.land a 3) 4) (N.shiftr b 4) < 64)%N /\
  (N.shiftl (N.land b 15) 2 < 64)%N /\
  (N.lor (N.shiftl (N.land a 15) 2) (N.shiftr b 6) < 64)%N /\
  (N.land b 63 < 64)%N.
Proof.
  intros Ha Hb.
  pose proof (below_spec2
    (fun a b =>
       (N.shiftr a 2 <? 64)%N
       && (N.shiftl (N.land a 3) 4 <? 64)%N
       && (N.lor (N.shiftl (N.land a 3) 4) (N.shiftr b 4) <? 64)%N
       && (N.shiftl (N.land b 15) 2 <? 64)%N
       && (N.lor (N.shiftl (N.land a 15) 2) (N.shiftr b 6) <? 64)%N
       && (N.land b 63 <? 64)%N)
    256 256 ltac:(vm_compute; reflexivity) a b Ha Hb) as H.
  cbv beta in H.
  repeat (apply andb_prop in H as [H ?]).
  repeat split; apply N.ltb_lt; assumption.
Qed.

Lemma sextets_below l : octets l -> List.Forall (fun n => (n < 64)%N) (sextets l).
Proof.
  unfold octets. induction l as [|a|a b|a b c rest IH] using list_ind3;
    intros Hl; cbn [sextets].
  - constructor.
  - inversion Hl as [|? ? Ha _]; subst.
    destruct (sextet_facts a a Ha Ha) as (H1 & H2 & _).
    repeat constructor; assumption.
  - inversion Hl as [|? ? Ha Hl']; subst. inversion Hl' as [|? ? Hb _]; subst.
    destruct (sextet_facts a b Ha Hb) as (H1 & _ & H3 & H4 & _).
    repeat constructor; assumption.
  - inversion Hl as [|? ? Ha Hl']; subst. inversion Hl' as [|? ? Hb Hl'']; subst.
    inversion Hl'' as [|? ? Hc Hrest]; subst.
    destruct (sextet_facts a b Ha Hb) as (H1 & _ & H3 & _).
    destruct (sextet_facts b c Hb Hc) as (_ & _ & _ & _ & H5 & H6).
    repeat (constructor; [assumption|]). apply IH, Hrest.
Qed.

Lemma sextets_length_mod l :
  Nat.modulo (List.length (sextets l)) 4 <> 1%nat.
Proof.
  induction l as [|a|a b|a b c rest IH] using list_ind3; cbn [sextets List.length].
  - discriminate.
  - discriminate.
  - discriminate.
  - change (S (S (S (S (List.length (sextets rest))))))
      with (4 + List.length (sextets rest))%nat.
    rewrite Nat.add_comm.
    replace (List.length (sextets rest) + 4)%nat
      with (List.length (sextets rest) + 1 * 4)%nat by lia.
    rewrite Nat.Div0.mod_add. exact IH.
Qed.

Lemma url_safe_digit c s :
  Ascii.eqb c "="%char = false ->
  Base64.url_safe (String c s)
  = String (if Ascii.eqb c "+"%char then "-"%char
            else if Ascii.eqb c "/"%char then "_"%char else c)
           (Base64.url_safe s).
Proof.
  intros Hc. unfold Base64.url_safe. cbn [Str.replace_all_char].
  destruct (Ascii.eqb c "+"%char) eqn:Hplus.
  - rewrite append_cons. cbn [Str.replace_all_char Ascii.eqb Bool.eqb].
    reflexivity.
  - cbn [Str.replace_all_char].
    destruct (Ascii.eqb c "/"%char) eqn:Hslash.
    + rewrite append_cons. cbn [Str.replace_all_char Ascii.eqb Bool.eqb].
      reflexivity.
    + cbn [Str.replace_all_char]. rewrite Hc. reflexivity.
Qed.

Lemma url_safe_padding s :
  Base64.url_safe (String "="%char s) = Base64.url_safe s.
Proof. reflexivity. Qed.

Lemma encode_sextets l :
  octets l ->
  Base64.url_safe (Base64.btoa_bytes l)
  = string_of_list_ascii (List.map url_digit (sextets l)).
Proof.
  intros Hl. pose proof (sextets_below l Hl) as Hs. clear Hl. revert Hs.
  induction l as [|a|a b|a b c rest IH] using list_ind3;
    cbn [sextets Base64.btoa_bytes List.map string_of_list_ascii]; intros Hs.
  - reflexivity.
  - inversion Hs as [|? ? H1 Hs1]; subst. inversion Hs1 as [|? ? H2 _]; subst.
    rewrite !url_safe_digit by (apply digit_facts; assumption).
    reflexivity.
  - inversion Hs as [|? ? H1 Hs1]; subst. inversion Hs1 as [|? ? H2 Hs2]; subst.
    inversion Hs2 as [|? ? H3 _]; subst.
    rewrite !url_safe_digit by (apply digit_facts; assumption).
    reflexivity.
  - inversion Hs as [|? ? H1 Hs1]; subst. inversion Hs1 as [|? ? H2 Hs2]; subst.
    inversion Hs2 as [|? ? H3 Hs3]; subst. inversion Hs3 as [|? ? H4 Hs4]; subst.
    rewrite !url_safe_digit by (apply digit_facts; assumption).
    rewrite (IH Hs4). reflexivity.
Qed.

Lemma byte_facts a b :
  (a < 256)%N -> (b < 256)%N ->
  N.lor (N.shiftl (N.shiftr a 2) 2) (N.shiftr (N.shiftl (N.land a 3) 4) 4) = a /\
  N.lor (N.shiftl (N.shiftr a 2) 2)
        (N.shiftr (N.lor (N.shiftl (N.land a 3) 4) (N.shiftr b 4)) 4) = a /\
  N.land (N.lor (N.shiftl (N.land a 3) 4) (N.shiftr b 4)) 15 = N.shiftr b 4 /\
  N.shiftr (N.shiftl (N.land b 15) 2) 2 = N.land b 15 /\
  N.shiftr (N.lor (N.shiftl (N.land a 15) 2) (N.shiftr b 6)) 2 = N.land a 15 /\
  N.lor (N.shiftl (N.shiftr b 4) 4) (N.land b 15) = b /\
  N.lor (N.shiftl (N.land (N.lor (N.shiftl (N.land a 15) 2) (N.shiftr b 6)) 3) 6)
        (N.land b 63) = b.
Proof.
  intros Ha Hb.
  pose proof (below_spec2
    (fun a b =>
       N.eqb (N.lor (N.shiftl (N.shiftr a 2) 2)
                (N.shiftr (N.shiftl (N.land a 3) 4) 4)) a
       && N.eqb (N.lor (N.shiftl (N.shiftr a 2) 2)
                   (N.shiftr (N.lor (N.shiftl (N.land a 3) 4) (N.shiftr b 4)) 4))
                a
       && N.eqb (N.land (N.lor (N.shiftl (N.land a 3) 4) (N.shiftr b 4)) 15)
                (N.shiftr b 4)
       && N.eqb (N.shiftr (N.shiftl (N.land b 15) 2) 2) (N.land b 15)
       && N.eqb (N.shiftr (N.lor (N.shiftl (N.land a 15) 2) (N.shiftr b 6)) 2)
                (N.land a 15)
       && N.eqb (N.lor (N.shiftl (N.shiftr b 4) 4) (N.land b 15)) b
       && N.eqb (N.lor (N.shiftl
                          (N.land (N.lor (N.shiftl (N.land a 15) 2)
                                     (N.shiftr b 6)) 3) 6)
                   (N.land b 63)) b)
    256 256 ltac:(vm_compute; reflexivity) a b Ha Hb) as H.
  cbv beta in H.
  repeat (apply andb_prop in H as [H ?]).
  repeat split; apply N.eqb_eq; assumption.
Qed.

Lemma decode_sextets l : octets l -> Base64.decode_values (sextets l) = l.
Proof.
  unfold octets. induction l as [|a|a b|a b c rest IH] using list_ind3;
    intros Hl; cbn [sextets Base64.decode_values].
  - reflexivity.
  - inversion Hl as [|? ? Ha _]; subst.
    destruct (byte_facts a a Ha Ha) as (H1 & _). rewrite H1. reflexivity.
  - inversion Hl as [|? ? Ha Hl']; subst. inversion Hl' as [|? ? Hb _]; subst.
    destruct (byte_facts a b Ha Hb) as (_ & H2 & H3 & H4 & _ & H6 & _).
    rewrite H2, H3, H4, H6. reflexivity.
  - inversion Hl as [|? ? Ha Hl']; subst. inversion Hl' as [|? ? Hb Hl'']; subst.
    inversion Hl'' as [|? ? Hc Hrest]; subst.
    destruct (byte_facts a b Ha Hb) as (_ & H2 & H3 & _ & _ & H6 & _).
    destruct (byte_facts b c Hb Hc) as (_ & _ & _ & _ & H5 & _ & H7).
    rewrite H2, H3, H5, H6, H7, (IH Hrest). reflexivity.
Qed.

Lemma values_digits ss :
  List.Forall (fun n => (n < 64)%N) ss ->
  Base64.values (List.map Base64.digit ss) = Some ss.
Proof.
  induction 1 as [|n ss Hn _ IH]; [reflexivity|].
  cbn [List.map Base64.values].
  destruct (digit_facts n Hn) as (-> & _). rewrite IH. reflexivity.
Qed.

Lemma string_of_list_app a b :
  string_of_list_ascii (a ++ b)
  = String.append (string_of_list_ascii a) (string_of_list_ascii b).
Proof.
  induction a as [|c a IH]; [reflexivity|].
  cbn [app string_of_list_ascii]. rewrite append_cons, IH. reflexivity.
Qed.

Lemma string_of_list_length l :
  String.length (string_of_list_ascii l) = List.length l.
Proof. induction l as [|c l IH]; [reflexivity|]. cbn. rewrite IH. reflexivity. Qed.

Lemma replace_char_map c d s :
  Str.replace_all_char c (String d "") s
  = string_of_list_ascii
      (List.map (fun x => if Ascii.eqb x c then d else x)
         (list_ascii_of_string s)).
Proof.
  induction s as [|x s IH]; [reflexivity|].
  cbn [Str.replace_all_char list_ascii_of_string List.map string_of_list_ascii].
  rewrite IH. destruct (Ascii.eqb x c); [|reflexivity].
  rewrite append_cons. reflexivity.
Qed.

(** The two replacements of [base64urlDecode] undo those of
    [base64urlEncode]. *)
Lemma standard_digits ss :
  List.Forall (fun n => (n < 64)%N) ss ->
  Str.replace_all_char "_"%char "/"
    (Str.replace_all_char "-"%char "+"
       (string_of_list_ascii (List.map url_digit ss)))
  = string_of_list_ascii (List.map Base64.digit ss).
Proof.
  intros Hss. rewrite !replace_char_map, !list_ascii_of_string_of_list_ascii.
  rewrite !List.map_map. f_equal.
  induction Hss as [|n ss Hn _ IH]; [reflexivity|].
  cbn [List.map]. rewrite IH. f_equal.
  destruct (digit_facts n Hn) as (_ & _ & _ & _ & <-).
  destruct (Ascii.eqb (url_digit n) "-"%char); reflexivity.
Qed.

Lemma strip_spaces_digits cs :
  List.Forall (fun c => Base64.is_space c = false) cs ->
  Base64.strip_spaces (string_of_list_ascii cs) = string_of_list_ascii cs.
Proof.
  induction 1 as [|c cs Hc _ IH]; [reflexivity|].
  cbn [string_of_list_ascii Base64.strip_spaces]. rewrite Hc, IH. reflexivity.
Qed.

Lemma strip_padding_digits ds j :
  List.Forall (fun c => Ascii.eqb c "="%char = false) ds ->
  (j <= 2)%nat ->
  Base64.strip_padding 2 (ds ++ repeat "="%char j) = ds.
Proof.
  intros Hds Hj. unfold Base64.strip_padding.
  rewrite rev_app_distr, rev_repeat.
  assert (Hhead : match rev ds with
                  | [] => True
                  | c :: _ => Ascii.eqb c "="%char = false
                  end).
  { assert (List.Forall (fun c => Ascii.eqb c "="%char = false) (rev ds)) as Hr
      by (apply List.Forall_rev, Hds).
    destruct (rev ds); [exact I|]. inversion Hr. assumption. }
  rewrite <- (rev_involutive ds) at 2. f_equal.
  destruct j as [|[|[|j]]]; [| | |lia]; cbn [repeat app].
  - destruct (rev ds) as [|c r]; [reflexivity|]. rewrite Hhead. reflexivity.
  - cbn [Ascii.eqb Bool.eqb]. 
    destruct (rev ds) as [|c r]; [reflexivity|]. rewrite Hhead. reflexivity.
  - reflexivity.
Qed.

Lemma pad4_digits cs :
  Nat.modulo (List.length cs) 4 <> 1%nat ->
  exists j,
    (j <= 2)%nat /\
    Base64.pad4 (string_of_list_ascii cs)
    = string_of_list_ascii (cs ++ repeat "="%char j) /\
    Nat.modulo (List.length (cs ++ repeat "="%char j)) 4 = 0%nat.
Proof.
  intros Hmod. unfold Base64.pad4. rewrite string_of_list_length.
  pose proof (Nat.mod_upper_bound (List.length cs) 4 ltac:(lia)) as Hlt.
  pose proof (Nat.div_mod_eq (List.length cs) 4) as Hdiv.
  destruct (Nat.modulo (List.length cs) 4) as [|[|[|[|m]]]] eqn:Hm;
    [| contradiction Hmod; reflexivity | | | lia].
  - exists 0%nat. cbn [repeat]. rewrite app_nil_r. auto.
  - exists 2%nat. split; [lia|]. split.
    + rewrite string_of_list_app. reflexivity.
    + rewrite length_app, repeat_length.
      replace (List.length cs + 2)%nat
        with (0 + (Nat.div (List.length cs) 4 + 1) * 4)%nat by lia.
      apply Nat.Div0.mod_add.
  - exists 1%nat. split; [lia|]. split.
    + rewrite string_of_list_app. reflexivity.
    + rewrite length_app, repeat_length.
      replace (List.length cs + 1)%nat
        with (0 + (Nat.div (List.length cs) 4 + 1) * 4)%nat by lia.
      apply Nat.Div0.mod_add.
Qed.

Lemma atob_padded_digits ss :
  List.Forall (fun n => (n < 64)%N) ss ->
  Nat.modulo (List.length ss) 4 <> 1%nat ->
  Base64.atob (Base64.pad4 (string_of_list_ascii (List.map Base64.digit ss)))
  = Some (Str.of_bytes (Base64.decode_values ss)).
Proof.
  intros Hss Hmod.
  assert (Hdigits : List.Forall (fun c => Ascii.eqb c "="%char = false)
                      (List.map Base64.digit ss)).
  { apply List.Forall_map. eapply List.Forall_impl; [|exact Hss].
    intros n Hn. apply digit_facts, Hn. }
  assert (Hspace : forall j,
             List.Forall (fun c => Base64.is_space c = false)
               (List.map Base64.digit ss ++ repeat "="%char j)).
  { intros j. apply List.Forall_app. split.
    - apply List.Forall_map. eapply List.Forall_impl; [|exact Hss].
      intros n Hn. apply digit_facts, Hn.
    - apply List.Forall_forall. intros c Hc. apply repeat_spec in Hc.
      subst c. reflexivity. }
  destruct (pad4_digits (List.map Base64.digit ss)) as (j & Hj & Hpad & Hfour).
  { rewrite length_map. exact Hmod. }
  unfold Base64.atob. rewrite Hpad, (strip_spaces_digits _ (Hspace j)).
  rewrite list_ascii_of_string_of_list_ascii, Hfour. cbn [Nat.eqb].
  rewrite (strip_padding_digits _ j Hdigits Hj), length_map.
  destruct (Nat.eqb (Nat.modulo (List.length ss) 4) 1) eqn:E.
  - apply Nat.eqb_eq in E. contradiction.
  - rewrite (values_digits ss Hss). reflexivity.
Qed.

Lemma base64url_buf_round_trip l :
  octets l ->
  Base64.base64urlDecode (Base64.base64urlEncode_buf l) = Some (Str.of_bytes l).
Proof.
  intros Hl. unfold Base64.base64urlDecode, Base64.base64urlEncode_buf.
  rewrite (encode_sextets l Hl), (standard_digits _ (sextets_below l Hl)).
  rewrite (atob_padded_digits _ (sextets_below l Hl) (sextets_length_mod l)).
  rewrite (decode_sextets l Hl). reflexivity.
Qed.

Lemma to_bytes_bytes s : octets (Str.to_bytes s).
Proof.
  unfold octets, Str.to_bytes. apply List.Forall_map, List.Forall_forall.
  intros c _. apply N_ascii_bounded.
Qed.

Lemma of_to_bytes s : Str.of_bytes (Str.to_bytes s) = s.
Proof.
  unfold Str.of_bytes, Str.to_bytes. rewrite List.map_map.
  rewrite (List.map_ext _ (fun c => c)) by (intros c; apply ascii_N_embedding).
  rewrite List.map_id. apply string_of_list_ascii_of_string.
Qed.

Lemma base64url_string_round_trip s :
  Base64.base64urlDecode (Base64.base64urlEncode s) = Some s.
Proof.
  unfold Base64.base64urlEncode, Base64.btoa.
  change (Base64.url_safe (Base64.btoa_bytes (Str.to_bytes s)))
    with (Base64.base64urlEncode_buf (Str.to_bytes s)).
  rewrite (base64url_buf_round_trip _ (to_bytes_bytes s)), of_to_bytes.
  reflexivity.
Qed.

(** X20.  [base64urlDecode] inverts [base64urlEncode], on strings and
    on byte buffers. *)
Theorem base64url_decode_inverts_encode s l :
  Base64.base64urlDecode (Base64.base64urlEncode s) = Some s /\
  (octets l ->
   Base64.base64urlDecode (Base64.base64urlEncode_buf l)
   = Some (Str.of_bytes l)).
Proof.
  split; [apply base64url_string_round_trip|apply base64url_buf_round_trip].
Qed.

Lemma base64url_decode_inverts_encode_witness :
  Base64.base64urlDecode (Base64.base64urlEncode "any carnal pleas")
  = Some "any carnal pleas" /\
  (octets [0; 255; 16]%N ->
   Base64.base64urlDecode (Base64.base64urlEncode_buf [0; 255; 16]%N)
   = Some (Str.of_bytes [0; 255; 16]%N)).
Proof.
  exact (base64url_decode_inverts_encode "any carnal pleas" [0; 255; 16]%N).
Defined.


Lemma getRandomValues_bytes n entropy : octets (Jwt.getRandomValues n entropy).
Proof.
  unfold octets, Jwt.getRandomValues. apply List.Forall_map, List.Forall_forall.
  intros b _. apply N.mod_lt. discriminate.
Qed.

Lemma sextets_length l :
  List.length (sextets l) = Nat.div (4 * List.length l + 2) 3.
Proof.
  induction l as [|a|a b|a b c rest IH] using list_ind3;
    cbn [sextets List.length]; try reflexivity.
  rewrite IH.
  replace (4 * S (S (S (List.length rest))) + 2)%nat
    with (4 * List.length rest + 2 + 4 * 3)%nat by lia.
  rewrite Nat.div_add by discriminate. lia.
Qed.

Lemma url_digit_safe n : (n < 64)%N -> url_safe_char (url_digit n) = true.
Proof.
  apply (below_spec (fun n => url_safe_char (url_digit n)) 64).
  vm_compute. reflexivity.
Qed.

Lemma hex2_chars b :
  (b < 256)%N ->
  forallb hex_char (list_ascii_of_string (Authorize.hex2 b)) = true.
Proof.
  apply (below_spec
           (fun b => forallb hex_char (list_ascii_of_string (Authorize.hex2 b)))
           256).
  vm_compute. reflexivity.
Qed.

Lemma list_of_append a b :
  list_ascii_of_string (String.append a b)
  = list_ascii_of_string a ++ list_ascii_of_string b.
Proof.
  induction a as [|c a IH]; [reflexivity|].
  rewrite append_cons. cbn [list_ascii_of_string app]. rewrite IH. reflexivity.
Qed.

(** X21.  Whatever the random bytes, a refresh token has 43 characters
    of the URL-safe alphabet, and a generated identifier (request id,
    link token, authorization code) has 32 lowercase hexadecimal
    digits. *)
Theorem opaque_tokens_have_a_fixed_shape entropy :
  String.length (Jwt.generateRefreshToken entropy) = 43%nat /\
  forallb url_safe_char
    (list_ascii_of_string (Jwt.generateRefreshToken entropy)) = true /\
  String.length (Authorize.generateId entropy) = 32%nat /\
  forallb hex_char (list_ascii_of_string (Authorize.generateId entropy)) = true.
Proof.
  pose proof (getRandomValues_bytes 32 entropy) as H32.
  pose proof (getRandomValues_bytes 16 entropy) as H16.
  split; [|split; [|split]].
  - unfold Jwt.generateRefreshToken, Base64.base64urlEncode_buf.
    rewrite (encode_sextets _ H32), string_of_list_length, length_map.
    rewrite sextets_length, getRandomValues_length. reflexivity.
  - unfold Jwt.generateRefreshToken, Base64.base64urlEncode_buf.
    rewrite (encode_sextets _ H32), list_ascii_of_string_of_list_ascii.
    rewrite forallb_forall. intros c Hc.
    apply in_map_iff in Hc as (n & <- & Hn). apply url_digit_safe.
    pose proof (sextets_below _ H32) as Hs.
    rewrite List.Forall_forall in Hs. apply Hs, Hn.
  - apply generateId_length.
  - unfold Authorize.generateId. revert H16.
    generalize (Jwt.getRandomValues 16 entropy). intros l Hl.
    induction Hl as [|b l Hb _ IH]; [reflexivity|].
    cbn [List.map]. rewrite join_empty_cons, list_of_append, forallb_app.
    rewrite (hex2_chars b Hb), IH. reflexivity.
Qed.

Lemma digest_length msg : List.length (Sha256.digest msg) = 32%nat.
Proof. reflexivity. Qed.

Lemma be_bytes_bytes n x : octets (Sha256.be_bytes n x).
Proof.
  unfold octets, Sha256.be_bytes. apply List.Forall_map, List.Forall_forall.
  intros i _. change 255%N with (N.ones 8). rewrite N.land_ones.
  apply N.mod_lt. discriminate.
Qed.

Lemma digest_bytes msg : octets (Sha256.digest msg).
Proof.
  unfold Sha256.digest. cbv zeta. unfold octets.
  apply List.Forall_concat, List.Forall_map, List.Forall_forall.
  intros x _. apply be_bytes_bytes.
Qed.

Lemma encoded_32_bytes l :
  octets l -> List.length l = 32%nat ->
  String.length (Base64.base64urlEncode_buf l) = 43%nat /\
  forallb url_safe_char (list_ascii_of_string (Base64.base64urlEncode_buf l))
  = true.
Proof.
  intros Hl Hlen. unfold Base64.base64urlEncode_buf.
  rewrite (encode_sextets _ Hl). split.
  - rewrite string_of_list_length, length_map, sextets_length, Hlen.
    reflexivity.
  - rewrite list_ascii_of_string_of_list_ascii.
    rewrite forallb_forall. intros c Hc.
    apply in_map_iff in Hc as (n & <- & Hn). apply url_digit_safe.
    pose proof (sextets_below _ Hl) as Hs.
    rewrite List.Forall_forall in Hs. apply Hs, Hn.
Qed.

Lemma pkce_shape v challenge :
  Jwt.verifyPKCE v challenge = true ->
  String.length challenge = 43%nat /\
  forallb url_safe_char (list_ascii_of_string challenge) = true.
Proof.
  unfold Jwt.verifyPKCE. intros Heq. apply String.eqb_eq in Heq. subst challenge.
  apply encoded_32_bytes; [apply digest_bytes|apply digest_length].
Qed.

(** X22.  A challenge is only ever met when it is the unpadded base64url
    text of a SHA-256 digest: 43 characters of the URL-safe alphabet.  A
    code row whose challenge has another shape (padded, or in the
    standard alphabet) cannot be exchanged with any verifier, and the
    failed attempts write nothing. *)
Theorem pkce_needs_a_well_formed_challenge code v c e now env row :
  Db.first_unused_auth_code code (DB_auth_codes env) = Some row ->
  String.length (ac_code_challenge row) <> 43%nat \/
  forallb url_safe_char (list_ascii_of_string (ac_code_challenge row)) = false ->
  Jwt.verifyPKCE v (ac_code_challenge row) = false /\
  is_ok (fst (Token.exchangeCodeForTokens code v c e now env)) = false /\
  snd (Token.exchangeCodeForTokens code v c e now env) = env.
Proof.
  intros Hrow Hbad.
  assert (Hpkce : Jwt.verifyPKCE v (ac_code_challenge row) = false).
  { destruct (Jwt.verifyPKCE v (ac_code_challenge row)) eqn:E; [|reflexivity].
    destruct (pkce_shape _ _ E) as [Hlen Hchars].
    destruct Hbad as [Hbad|Hbad]; [contradiction|congruence]. }
  split; [exact Hpkce|].
  unfold Token.exchangeCodeForTokens. unfold_m. rewrite Hrow, Hpkce.
  destruct (ac_expires_at row <? now)%Z; [split; reflexivity|].
  destruct (String.eqb (ac_client_id row) c); split; reflexivity.
Qed.

Lemma pkce_needs_a_well_formed_challenge_witness :
  Jwt.verifyPKCE Scenario.verifier (ac_code_challenge Variants.padded_row)
  = false /\
  is_ok (fst (Token.exchangeCodeForTokens Scenario.auth_code Scenario.verifier
                "client-1" [5%N] (Scenario.t0 + 4000)%Z
                Variants.after_padded_confirm)) = false /\
  snd (Token.exchangeCodeForTokens Scenario.auth_code Scenario.verifier
         "client-1" [5%N] (Scenario.t0 + 4000)%Z Variants.after_padded_confirm)
  = Variants.after_padded_confirm.
Proof.
  refine (pkce_needs_a_well_formed_challenge Scenario.auth_code
            Scenario.verifier "client-1" [5%N] (Scenario.t0 + 4000)%Z
            Variants.after_padded_confirm Variants.padded_row _ _).
  - vm_compute. reflexivity.
  - left. vm_compute. discriminate.
Defined.

(** ** [JSON.parse] after [JSON.stringify] *)

Lemma json_forall_ind (P : json -> Prop) :
  P JNull -> (forall b, P (JBool b)) -> (forall n, P (JNum n)) ->
  (forall s, P (JStr s)) ->
  (forall items, List.Forall P items -> P (JArr items)) ->
  (forall fields, List.Forall (fun kv => P (snd kv)) fields -> P (JObj fields)) ->
  forall v, P v.
Proof.
  intros Hnull Hbool Hnum Hstr Harr Hobj.
  fix IH 1. intros [ |b|n|s|items|fields].
  - exact Hnull.
  - apply Hbool.
  - apply Hnum.
  - apply Hstr.
  - apply Harr. induction items as [|x items IHitems]; constructor.
    + apply IH.
    + exact IHitems.
  - apply Hobj. induction fields as [|[k x] fields IHfields]; constructor.
    + apply IH.
    + exact IHfields.
Qed.

(** *** String literals *)

Lemma parse_escaped_char c r :
  Json.parse_chars (String.append (Json.escape_char c) r)
  = match Json.parse_chars r with
    | Some (t, r') => Some (String c t, r')
    | None => None
    end.
Proof.
  destruct c as [[] [] [] [] [] [] [] []]; reflexivity.
Qed.

Lemma parse_escaped s rest :
  Json.parse_chars (String.append (Json.escape s) (String Json.dquote rest))
  = Some (s, rest).
Proof.
  induction s as [|c s IH].
  - reflexivity.
  - cbn [Json.escape]. rewrite append_assoc, parse_escaped_char, IH.
    reflexivity.
Qed.

Lemma quote_append s rest :
  String.append (Json.quote s) rest
  = String Json.dquote
      (String.append (Json.escape s) (String Json.dquote rest)).
Proof.
  unfold Json.quote. rewrite append_cons, append_assoc, append_cons.
  reflexivity.
Qed.

(** *** Number literals *)

Lemma read_digits_uint l acc rest :
  delimited rest ->
  Json.read_digits (Z.pos acc) (String.append (NilEmpty.string_of_uint l) rest)
  = (Z.pos (Pos.of_uint_acc l acc), rest).
Proof.
  intros Hrest. revert acc.
  induction l as [|l IH|l IH|l IH|l IH|l IH|l IH|l IH|l IH|l IH|l IH];
    intros acc; cbn [NilEmpty.string_of_uint Pos.of_uint_acc].
  - change (String.append "" rest) with rest.
    destruct rest as [|c rest]; [reflexivity|].
    cbn [Json.read_digits]. destruct Hrest as [-> _]. reflexivity.
  - rewrite append_cons. cbn [Json.read_digits].
    change (Json.digit_value "0") with (Some 0%Z). cbv iota.
    rewrite <- IH. f_equal; try lia.
  - rewrite append_cons. cbn [Json.read_digits].
    change (Json.digit_value "1") with (Some 1%Z). cbv iota.
    rewrite <- IH. f_equal; try lia.
  - rewrite append_cons. cbn [Json.read_digits].
    change (Json.digit_value "2") with (Some 2%Z). cbv iota.
    rewrite <- IH. f_equal; try lia.
  - rewrite append_cons. cbn [Json.read_digits].
    change (Json.digit_value "3") with (Some 3%Z). cbv iota.
    rewrite <- IH. f_equal; try lia.
  - rewrite append_cons. cbn [Json.read_digits].
    change (Json.digit_value "4") with (Some 4%Z). cbv iota.
    rewrite <- IH. f_equal; try lia.
  - rewrite append_cons. cbn [Json.read_digits].
    change (Json.digit_value "5") with (Some 5%Z). cbv iota.
    rewrite <- IH. f_equal; try lia.
  - rewrite append_cons. cbn [Json.read_digits].
    change (Json.digit_value "6") with (Some 6%Z). cbv iota.
    rewrite <- IH. f_equal; try lia.
  - rewrite append_cons. cbn [Json.read_digits].
    change (Json.digit_value "7") with (Some 7%Z). cbv iota.
    rewrite <- IH. f_equal; try lia.
  - rewrite append_cons. cbn [Json.read_digits].
    change (Json.digit_value "8") with (Some 8%Z). cbv iota.
    rewrite <- IH. f_equal; try lia.
  - rewrite append_cons. cbn [Json.read_digits].
    change (Json.digit_value "9") with (Some 9%Z). cbv iota.
    rewrite <- IH. f_equal; try lia.
Qed.

Lemma to_uint_normal p : Decimal.unorm (Pos.to_uint p) = Pos.to_uint p.
Proof.
  rewrite <- (DecimalPos.Unsigned.to_of (Pos.to_uint p)),
    DecimalPos.Unsigned.of_to.
  reflexivity.
Qed.

Lemma to_uint_head p :
  match Pos.to_uint p with
  | Decimal.Nil | Decimal.D0 _ => False
  | _ => True
  end.
Proof.
  pose proof (to_uint_normal p) as Hn.
  pose proof (Unsigned.to_uint_nonnil p) as Hnil.
  pose proof (Unsigned.to_uint_nonzero p) as Hzero.
  destruct (Pos.to_uint p) as [|u| | | | | | | | | ]; try exact I.
  - contradiction Hnil. reflexivity.
  - rewrite unorm_D0 in Hn.
    pose proof (nb_digits_unorm u) as Hle. rewrite Hn in Hle.
    change (Decimal.nb_digits (Decimal.D0 u)) with (S (Decimal.nb_digits u))
      in Hle.
    assert (u <> Decimal.Nil) as Hu by (intros ->; apply Hzero; reflexivity).
    specialize (Hle Hu). lia.
Qed.

Lemma parse_positive p rest :
  delimited rest ->
  Json.parse_nat_literal
    (String.append (NilZero.string_of_uint (Pos.to_uint p)) rest)
  = Some (Z.pos p, rest).
Proof.
  intros Hrest.
  pose proof (to_uint_head p) as Hhead.
  pose proof (DecimalPos.Unsigned.of_to p) as Hof.
  assert (Hfrac : Json.starts_fraction rest = false).
  { destruct rest; [reflexivity|apply Hrest]. }
  destruct (Pos.to_uint p) as [|u|u|u|u|u|u|u|u|u|u]; try contradiction;
    cbn [NilZero.string_of_uint NilEmpty.string_of_uint Pos.of_uint] in *;
    rewrite append_cons; unfold Json.parse_nat_literal;
    match goal with
    | |- context [Json.digit_value ?c] =>
        let v := eval vm_compute in (Json.digit_value c) in
        change (Json.digit_value c) with v
    end;
    cbv iota;
    match goal with
    | |- context [Json.read_digits ?k _] =>
        change k with (Z.pos (Z.to_pos k))
    end;
    rewrite (read_digits_uint u _ rest Hrest), Hfrac;
    injection Hof as <-; reflexivity.
Qed.

Lemma parse_value_digit fuel c r :
  Json.digit_value c <> None ->
  Json.parse_value (S fuel) (String c r)
  = match Json.parse_nat_literal (String c r) with
    | Some (n, r') => Some (JNum n, r')
    | None => None
    end.
Proof.
  intros Hd.
  destruct c as [[] [] [] [] [] [] [] []];
    first [reflexivity | exfalso; apply Hd; reflexivity].
Qed.

Lemma parse_number fuel n rest :
  delimited rest ->
  Json.parse_value (S fuel) (String.append (Json.string_of_Z n) rest)
  = Some (JNum n, rest).
Proof.
  intros Hrest. unfold Json.string_of_Z.
  assert (Hfrac : Json.starts_fraction rest = false).
  { destruct rest; [reflexivity|apply Hrest]. }
  destruct n as [|p|p]; cbn [Z.to_int NilZero.string_of_int].
  - cbn [NilZero.string_of_uint NilEmpty.string_of_uint].
    rewrite append_cons. change (String.append "" rest) with rest.
    rewrite parse_value_digit by discriminate.
    unfold Json.parse_nat_literal.
    change (Json.digit_value "0") with (Some 0%Z). cbv iota.
    destruct rest as [|c rest]; [reflexivity|].
    destruct Hrest as [-> _]. rewrite Hfrac. reflexivity.
  - pose proof (parse_positive p rest Hrest) as Hp.
    pose proof (to_uint_head p) as Hhead.
    destruct (Pos.to_uint p) as [|u|u|u|u|u|u|u|u|u|u]; try contradiction;
      cbn [NilZero.string_of_uint NilEmpty.string_of_uint] in *;
      rewrite append_cons in *;
      rewrite parse_value_digit by discriminate;
      rewrite Hp; reflexivity.
  - pose proof (parse_positive p rest Hrest) as Hp.
    rewrite append_cons.
    cbn [Json.parse_value Json.skip_ws].
    change (Json.is_ws "-") with false. cbv iota.
    cbn [Ascii.eqb Bool.eqb Json.dquote].
    change (Ascii.eqb "-" (ascii_of_nat 34)) with false. cbv iota.
    rewrite Hp. reflexivity.
Qed.

(** *** Values *)

Lemma join_cons2 sep x y l :
  Str.join sep (x :: y :: l)
  = String.append x (String.append sep (Str.join sep (y :: l))).
Proof. reflexivity. Qed.

Lemma join_length_in sep x l :
  In x l -> (String.length x <= String.length (Str.join sep l))%nat.
Proof.
  induction l as [|y [|z l] IH]; [intros []| |].
  - intros [->|[]]. cbn. lia.
  - intros [->|Hin]; rewrite join_cons2, !append_length.
    + lia.
    + specialize (IH Hin). lia.
Qed.

Lemma join_length_count sep l :
  List.Forall (fun x => (1 <= String.length x)%nat) l ->
  (List.length l <= String.length (Str.join sep l))%nat.
Proof.
  induction l as [|y [|z l] IH]; intros Hl.
  - cbn. lia.
  - inversion Hl; subst. cbn. lia.
  - inversion Hl as [|? ? Hy Hl']; subst. specialize (IH Hl').
    rewrite join_cons2, !append_length. cbn [List.length] in *. lia.
Qed.

Lemma stringify_head v tail :
  exists c r, String.append (Json.stringify v) tail = String c r /\ opens_value c.
Proof.
  destruct v as [ |[]|n|s|items|fields]; cbn [Json.stringify].
  - do 2 eexists. split; [reflexivity|repeat split].
  - do 2 eexists. split; [reflexivity|repeat split].
  - do 2 eexists. split; [reflexivity|repeat split].
  - unfold Json.string_of_Z.
    destruct n as [|p|p]; cbn [Z.to_int NilZero.string_of_int].
    + do 2 eexists. split; [reflexivity|repeat split].
    + pose proof (to_uint_head p) as Hhead.
      destruct (Pos.to_uint p); try contradiction;
        do 2 eexists; (split; [reflexivity|repeat split]).
    + do 2 eexists. split; [reflexivity|repeat split].
  - do 2 eexists. split; [apply quote_append|repeat split].
  - do 2 eexists. split; [reflexivity|repeat split].
  - do 2 eexists. split; [reflexivity|repeat split].
Qed.

Lemma stringify_nonempty v : (1 <= String.length (Json.stringify v))%nat.
Proof.
  destruct (stringify_head v "") as (c & r & Heq & _).
  rewrite append_empty_r in Heq. rewrite Heq. cbn. lia.
Qed.

Lemma skip_ws_opens c r : opens_value c -> Json.skip_ws (String c r) = String c r.
Proof. intros (Hc & _). cbn [Json.skip_ws]. rewrite Hc. reflexivity. Qed.

Lemma delimited_closing c rest :
  c = "]"%char \/ c = "}"%char \/ c = ","%char -> delimited (String c rest).
Proof. intros [->|[->| ->]]; split; reflexivity. Qed.

Lemma parse_elements_stringified (pv : string -> option (json * string)) items :
  (forall v tail, In v items -> delimited tail ->
                  pv (String.append (Json.stringify v) tail) = Some (v, tail)) ->
  items <> [] ->
  forall n rest,
    (List.length items <= n)%nat ->
    Json.parse_elements pv n
      (String.append (Str.join "," (List.map Json.stringify items))
         (String "]" rest))
    = Some (items, rest).
Proof.
  induction items as [|v [|v2 items] IH]; intros Hpv Hne n rest Hn.
  - contradiction Hne. reflexivity.
  - destruct n as [|n]; [cbn in Hn; lia|].
    cbn [List.map Str.join Json.parse_elements].
    rewrite (Hpv v _ (or_introl eq_refl)
               (delimited_closing _ rest (or_introl eq_refl))).
    reflexivity.
  - destruct n as [|n]; [cbn in Hn; lia|].
    cbn [List.map]. rewrite join_cons2, append_assoc, append_assoc.
    change (String.append "," ?x) with (String ","%char x).
    cbn [Json.parse_elements].
    rewrite (Hpv v _ (or_introl eq_refl)
               (delimited_closing _ _ (or_intror (or_intror eq_refl)))).
    cbn [Json.skip_ws]. change (Json.is_ws ",") with false. cbv iota.
    cbn [Ascii.eqb Bool.eqb].
    change (List.map Json.stringify (v2 :: items))
      with (List.map Json.stringify (v2 :: items)) in IH.
    rewrite IH.
    + reflexivity.
    + intros w tail Hw. apply Hpv. right. exact Hw.
    + discriminate.
    + cbn [List.length] in *. lia.
Qed.

Lemma parse_members_stringified (pv : string -> option (json * string)) fields :
  (forall kv tail, In kv fields -> delimited tail ->
                   pv (String.append (Json.stringify (snd kv)) tail)
                   = Some (snd kv, tail)) ->
  fields <> [] ->
  forall n rest,
    (List.length fields <= n)%nat ->
    Json.parse_members pv n
      (String.append
         (Str.join ","
            (List.map (fun kv =>
               String.append (Json.quote (fst kv))
                 (String.append ":" (Json.stringify (snd kv)))) fields))
         (String "}" rest))
    = Some (fields, rest).
Proof.
  induction fields as [|[k v] [|kv2 fields] IH]; intros Hpv Hne n rest Hn.
  - contradiction Hne. reflexivity.
  - destruct n as [|n]; [cbn in Hn; lia|].
    cbn [List.map Str.join fst snd].
    rewrite !append_assoc, quote_append.
    change (String.append ":" ?x) with (String ":"%char x).
    cbn [Json.parse_members Json.skip_ws].
    change (Json.is_ws Json.dquote) with false. cbv iota.
    rewrite Ascii.eqb_refl, parse_escaped.
    cbn [Json.skip_ws]. change (Json.is_ws ":") with false. cbv iota.
    cbn [Ascii.eqb Bool.eqb].
    pose proof (Hpv (k, v) _ (or_introl eq_refl)
                  (delimited_closing _ rest (or_intror (or_introl eq_refl))))
      as Hv.
    cbn [snd] in Hv. rewrite Hv. reflexivity.
  - destruct n as [|n]; [cbn in Hn; lia|].
    cbn [List.map]. rewrite join_cons2. cbn [fst snd].
    rewrite !append_assoc, quote_append.
    change (String.append ":" ?x) with (String ":"%char x).
    change (String.append "," ?x) with (String ","%char x).
    cbn [Json.parse_members Json.skip_ws].
    change (Json.is_ws Json.dquote) with false. cbv iota.
    rewrite Ascii.eqb_refl, parse_escaped.
    cbn [Json.skip_ws]. change (Json.is_ws ":") with false. cbv iota.
    cbn [Ascii.eqb Bool.eqb].
    match goal with
    | |- context [pv (String.append (Json.stringify v) ?tail)] =>
        pose proof (Hpv (k, v) tail (or_introl eq_refl)
                      (delimited_closing _ _ (or_intror (or_intror eq_refl))))
          as Hv
    end.
    cbn [snd] in Hv. rewrite Hv.
    cbn [Json.skip_ws]. change (Json.is_ws ",") with false. cbv iota.
    cbn [Ascii.eqb Bool.eqb].
    rewrite IH.
    + reflexivity.
    + intros w tail Hw. apply Hpv. right. exact Hw.
    + discriminate.
    + cbn [List.length] in *. lia.
Qed.

Lemma parse_value_array fuel r :
  Json.parse_value (S fuel) (String "[" r)
  = match Json.skip_ws r with
    | String c' r' =>
        if Ascii.eqb c' "]"%char then Some (JArr [], r')
        else match Json.parse_elements (Json.parse_value fuel)
                     (String.length r) r with
             | Some (vs, r'') => Some (JArr vs, r'')
             | None => None
             end
    | EmptyString => None
    end.
Proof. reflexivity. Qed.

Lemma parse_value_object fuel r :
  Json.parse_value (S fuel) (String "{" r)
  = match Json.skip_ws r with
    | String c' r' =>
        if Ascii.eqb c' "}"%char then Some (JObj [], r')
        else match Json.parse_members (Json.parse_value fuel)
                     (String.length r) r with
             | Some (kvs, r'') => Some (JObj kvs, r'')
             | None => None
             end
    | EmptyString => None
    end.
Proof. reflexivity. Qed.

Lemma parse_value_string fuel r :
  Json.parse_value (S fuel) (String Json.dquote r)
  = match Json.parse_chars r with
    | Some (t, r') => Some (JStr t, r')
    | None => None
    end.
Proof. reflexivity. Qed.

Lemma fuel_positive v fuel :
  (String.length (Json.stringify v) <= fuel)%nat -> exists f, fuel = S f.
Proof.
  intros Hfuel. pose proof (stringify_nonempty v).
  destruct fuel as [|f]; [lia|]. exists f. reflexivity.
Qed.

Lemma parse_value_stringify v :
  forall fuel rest,
    (String.length (Json.stringify v) <= fuel)%nat ->
    delimited rest ->
    Json.parse_value fuel (String.append (Json.stringify v) rest)
    = Some (v, rest).
Proof.
  induction v as [ |b|n|s|items IH|fields IH] using json_forall_ind;
    intros fuel rest Hfuel Hrest;
    destruct (fuel_positive _ _ Hfuel) as [f ->]; rename f into fuel.
  - reflexivity.
  - destruct b; reflexivity.
  - apply parse_number, Hrest.
  - cbn [Json.stringify]. rewrite quote_append, parse_value_string, parse_escaped.
    reflexivity.
  - cbn [Json.stringify] in *. rewrite append_assoc, append_assoc.
    change (String.append "[" ?x) with (String "["%char x).
    change (String.append "]" rest) with (String "]"%char rest).
    rewrite parse_value_array.
    destruct items as [|x items].
    + reflexivity.
    + set (text := String.append (Str.join "," (List.map Json.stringify (x :: items)))
                     (String "]" rest)).
      assert (Hhead : exists c r, text = String c r /\ opens_value c).
      { subst text. destruct items as [|y items].
        - cbn [List.map Str.join]. apply stringify_head.
        - cbn [List.map]. rewrite join_cons2, append_assoc.
          apply stringify_head. }
      destruct Hhead as (c & r & Htext & Hopen).
      rewrite Htext at 1. rewrite (skip_ws_opens c r Hopen).
      destruct Hopen as (_ & -> & _).
      subst text. rewrite parse_elements_stringified; [reflexivity| |discriminate|].
      * intros v tail Hv Htail.
        rewrite List.Forall_forall in IH. apply (IH v Hv); [|exact Htail].
        pose proof (join_length_in "," (Json.stringify v)
                      (List.map Json.stringify (x :: items))
                      (in_map Json.stringify _ _ Hv)) as Hle.
        rewrite !append_length in Hfuel. cbn [String.length] in Hfuel. lia.
      * rewrite append_length.
        pose proof (join_length_count ","
                      (List.map Json.stringify (x :: items))) as Hcount.
        rewrite length_map in Hcount.
        assert (List.Forall (fun s => (1 <= String.length s)%nat)
                  (List.map Json.stringify (x :: items))) as Hall.
        { apply List.Forall_map, List.Forall_forall. intros v _.
          apply stringify_nonempty. }
        specialize (Hcount Hall). lia.
  - cbn [Json.stringify] in *. rewrite append_assoc, append_assoc.
    change (String.append "{" ?x) with (String "{"%char x).
    change (String.append "}" rest) with (String "}"%char rest).
    rewrite parse_value_object.
    destruct fields as [|[k x] fields].
    + reflexivity.
    + set (member := fun kv : string * json =>
                       String.append (Json.quote (fst kv))
                         (String.append ":" (Json.stringify (snd kv)))) in *.
      set (text := String.append (Str.join "," (List.map member ((k, x) :: fields)))
                     (String "}" rest)).
      assert (Hhead : exists r, text = String Json.dquote r).
      { subst text. destruct fields as [|y fields].
        - cbn [List.map Str.join]. unfold member. cbn [fst snd].
          rewrite !append_assoc, quote_append. eexists. reflexivity.
        - cbn [List.map]. rewrite join_cons2. unfold member at 1. cbn [fst snd].
          rewrite !append_assoc, quote_append. eexists. reflexivity. }
      destruct Hhead as (r & Htext).
      rewrite Htext at 1. cbn [Json.skip_ws].
      change (Json.is_ws Json.dquote) with false. cbv iota.
      change (Ascii.eqb Json.dquote "}") with false. cbv iota.
      subst text. unfold member.
      rewrite parse_members_stringified; [reflexivity| |discriminate|].
      * intros kv tail Hkv Htail.
        rewrite List.Forall_forall in IH. apply (IH kv Hkv); [|exact Htail].
        pose proof (join_length_in "," (member kv)
                      (List.map member ((k, x) :: fields))
                      (in_map member _ _ Hkv)) as Hle.
        unfold member at 1 in Hle.
        rewrite !append_length in Hfuel, Hle. cbn [String.length] in Hfuel, Hle.
        fold member in Hfuel. lia.
      * rewrite append_length.
        pose proof (join_length_count ","
                      (List.map member ((k, x) :: fields))) as Hcount.
        rewrite length_map in Hcount.
        assert (List.Forall (fun s => (1 <= String.length s)%nat)
                  (List.map member ((k, x) :: fields))) as Hall.
        { apply List.Forall_map, List.Forall_forall. intros kv _.
          unfold member. rewrite !append_length. cbn. lia. }
        specialize (Hcount Hall). fold member. lia.
Qed.

Lemma parse_stringify v : Json.parse (Json.stringify v) = Some v.
Proof.
  unfold Json.parse.
  rewrite <- (append_empty_r (Json.stringify v)) at 2.
  rewrite parse_value_stringify; [reflexivity|lia|exact I].
Qed.

(** ** Issued tokens *)

Lemma decoded_encoded payload :
  decoded (Base64.base64urlEncode (Json.stringify payload)) = Some payload.
Proof.
  unfold decoded. rewrite base64url_string_round_trip. apply parse_stringify.
Qed.

Lemma created_token_verdict payload secret now t :
  Jwt.createJWT payload secret = Ok t ->
  Jwt.verifyJWT t secret now = expiry_verdict payload now.
Proof.
  intros Hcreate.
  rewrite (assemble_verify
             (Base64.base64urlEncode (Json.stringify Jwt.header))
             (Base64.base64urlEncode (Json.stringify payload)) secret t now
             (base64urlEncode_dot_free _) (base64urlEncode_dot_free _) Hcreate).
  rewrite decoded_encoded. reflexivity.
Qed.

Lemma created_token_parts payload secret t :
  Jwt.createJWT payload secret = Ok t ->
  exists sig,
    Jwt.sign (Jwt.signing_input
                (Base64.base64urlEncode (Json.stringify Jwt.header))
                (Base64.base64urlEncode (Json.stringify payload))) secret
    = Ok sig /\
    Str.split_on "."%char t
    = [Base64.base64urlEncode (Json.stringify Jwt.header);
       Base64.base64urlEncode (Json.stringify payload); sig].
Proof.
  unfold Jwt.createJWT. cbv zeta. unfold mbind, result_bind.
  destruct (Jwt.sign _ secret) as [sig|err] eqn:Hsig; [|discriminate].
  intros Heq. injection Heq as <-. exists sig. split; [reflexivity|].
  apply split_three.
  - apply base64urlEncode_dot_free.
  - apply base64urlEncode_dot_free.
  - eapply sign_dot_free, Hsig.
Qed.

(** X23.  With a non-empty secret [createJWT] returns a token for every
    payload whose strings have all their code units below 256 (on any
    other [btoa] throws) and whose [exp] is absent or a number; the token
    has three parts,
    declares HS256, and [verifyJWT] accepts it under the same secret with
    the very payload, unless [exp] is a number other than zero below the
    current second: then it throws "JWT expired". *)
Theorem created_token_verifies payload secret now :
  secret <> "" ->
  numeric_exp payload = true ->
  exists t,
    Jwt.createJWT payload secret = Ok t /\
    Jwt.verifyJWT t secret now
    = (if expired payload now then Err (Error "JWT expired") else Ok payload) /\
    declared_alg t = Some "HS256" /\
    List.length (Str.split_on "."%char t) = 3%nat.
Proof.
  intros Hsecret Hexp.
  destruct (sign_nonempty
              (Jwt.signing_input
                 (Base64.base64urlEncode (Json.stringify Jwt.header))
                 (Base64.base64urlEncode (Json.stringify payload)))
              secret Hsecret) as [sig Hsig].
  assert (Hcreate : exists t, Jwt.createJWT payload secret = Ok t).
  { unfold Jwt.createJWT. cbv zeta. unfold mbind, result_bind.
    rewrite Hsig. eexists. reflexivity. }
  destruct Hcreate as [t Hcreate]. exists t.
  split; [exact Hcreate|]. split.
  - rewrite (created_token_verdict _ _ now _ Hcreate).
    unfold expiry_verdict, expired. unfold numeric_exp in Hexp.
    destruct (get_property "exp" payload) as [[[| |e| | |]|]|err];
      try discriminate; cbn [mbind result_bind Js.truthy andb];
      [|reflexivity].
    unfold Js.lt_number. cbn [Js.to_number]. reflexivity.
  - destruct (created_token_parts _ _ _ Hcreate) as (sig' & _ & Hsplit).
    unfold declared_alg. rewrite Hsplit, decoded_encoded. split; reflexivity.
Qed.

Lemma created_token_verifies_witness :
  exists t,
    Jwt.createJWT Scenario.epoch_claims Scenario.secret = Ok t /\
    Jwt.verifyJWT t Scenario.secret Scenario.year_3000
    = (if expired Scenario.epoch_claims Scenario.year_3000
       then Err (Error "JWT expired") else Ok Scenario.epoch_claims) /\
    declared_alg t = Some "HS256" /\
    List.length (Str.split_on "."%char t) = 3%nat.
Proof.
  refine (created_token_verifies Scenario.epoch_claims Scenario.secret
            Scenario.year_3000 _ _).
  - discriminate.
  - reflexivity.
Defined.

Lemma access_token_verdict cid em sc secret now t now' :
  (0 <= now)%Z ->
  Jwt.generateAccessToken cid em sc secret now = Ok t ->
  Jwt.verifyAccessToken t secret now'
  = if (Jwt.seconds now + 3600 <? Jwt.seconds now')%Z
    then Err (Error "JWT expired")
    else Ok (Jwt.TokenPayload cid em sc (Jwt.seconds now) (Jwt.seconds now + 3600)).
Proof.
  intros Hnow Hgen. unfold Jwt.verifyAccessToken.
  rewrite (created_token_verdict _ _ now' _ Hgen).
  unfold expiry_verdict, Jwt.TokenPayload. cbn [get_property Js.lookup_field].
  cbn [String.eqb Ascii.eqb Bool.eqb andb mbind result_bind Js.truthy].
  assert (0 <= Jwt.seconds now)%Z as Hs
    by (unfold Jwt.seconds; apply Z.div_pos; lia).
  replace (Jwt.seconds now + 3600 =? 0)%Z with false
    by (symmetry; apply Z.eqb_neq; lia).
  cbn [negb andb]. unfold Js.lt_number. cbn [Js.to_number].
  destruct (_ <? _)%Z; reflexivity.
Qed.

(** *** The scopes a refresh puts in its token *)

Lemma access_token_claims cid em sc secret now t now' :
  Jwt.generateAccessToken cid em sc secret now = Ok t ->
  (Jwt.seconds now' <= Jwt.seconds now + 3600)%Z ->
  Jwt.verifyAccessToken t secret now'
  = Ok (Jwt.TokenPayload cid em sc (Jwt.seconds now) (Jwt.seconds now + 3600)).
Proof.
  intros Hgen Hlive. unfold Jwt.verifyAccessToken.
  rewrite (created_token_verdict _ _ now' _ Hgen).
  unfold expiry_verdict, Jwt.TokenPayload. cbn [get_property Js.lookup_field].
  cbn [String.eqb Ascii.eqb Bool.eqb andb mbind result_bind].
  unfold Js.lt_number. cbn [Js.to_number].
  replace (Jwt.seconds now + 3600 <? Jwt.seconds now')%Z with false
    by (symmetry; apply Z.ltb_ge; lia).
  rewrite andb_false_r. reflexivity.
Qed.

(** C5.  A successful refresh answers with the scopes of the row it found
    under the presented token: its [scope] field is their space-joined
    list; the claims that [verify] reads from the access token it
    returns, at any time of the token's hour, carry under [scopes] the
    array of exactly these scopes; and the scopes column of the table is,
    row by row, what it was. *)
Theorem refresh_returns_the_granted_scopes tok c e now env r env1 :
  Token.refreshAccessToken tok c e now env = (Ok r, env1) ->
  exists row,
    Db.first_refresh_token tok (DB_refresh_tokens env) = Some row /\
    scope r = Str.join " " (rt_scopes row) /\
    (forall now',
        (Jwt.seconds now' <= Jwt.seconds now + 3600)%Z ->
        exists claims,
          Jwt.verifyAccessToken (access_token r) (JWT_SECRET env) now'
          = Ok claims /\
          get_property "scopes" claims
          = Ok (Some (JArr (List.map JStr (rt_scopes row))))) /\
    List.map rt_scopes (DB_refresh_tokens env1)
    = List.map rt_scopes (DB_refresh_tokens env).
Proof.
  intros Hrun.
  destruct (refresh_inv _ _ _ _ _ _ _ Hrun)
    as (row & access & Hrow & _ & _ & Haccess & -> & Hrot & _).
  exists row. split; [exact Hrow|]. split; [reflexivity|]. split.
  - intros now' Hlive. cbn [access_token]. eexists. split.
    + apply (access_token_claims _ _ _ _ _ _ now' Haccess Hlive).
    + reflexivity.
  - rewrite (rotate_inv _ _ _ _ _ Hrot). apply rotate_scopes.
Qed.

Lemma refresh_returns_the_granted_scopes_witness :
  exists row,
    Db.first_refresh_token Scenario.refresh_1
      (DB_refresh_tokens Scenario.after_exchange) = Some row /\
    scope (Scenario.issued Scenario.refresh_run) = Str.join " " (rt_scopes row) /\
    (forall now',
        (Jwt.seconds now' <= Jwt.seconds (Scenario.t0 + 6000) + 3600)%Z ->
        exists claims,
          Jwt.verifyAccessToken
            (access_token (Scenario.issued Scenario.refresh_run))
            (JWT_SECRET Scenario.after_exchange) now'
          = Ok claims /\
          get_property "scopes" claims
          = Ok (Some (JArr (List.map JStr (rt_scopes row))))) /\
    List.map rt_scopes (DB_refresh_tokens Scenario.after_refresh)
    = List.map rt_scopes (DB_refresh_tokens Scenario.after_exchange).
Proof.
  refine (refresh_returns_the_granted_scopes Scenario.refresh_1 "client-1"
            [7%N] (Scenario.t0 + 6000)%Z Scenario.after_exchange
            (Scenario.issued Scenario.refresh_run) Scenario.after_refresh _).
  vm_compute; reflexivity.
Defined.

(** X24.  With a non-empty secret an access token is issued for every
    subject, address and scopes whose code units are all below 256 (on
    any other [btoa] throws), and its verification answers the claims
    that were put in (subject, address, scopes, [iat], [exp] one hour
    later) at every instant whose second is not after [exp], and "JWT
    expired" afterwards. *)
Theorem access_token_is_good_for_an_hour cid em sc secret now :
  secret <> "" ->
  (0 <= now)%Z ->
  exists t,
    Jwt.generateAccessToken cid em sc secret now = Ok t /\
    forall now',
      Jwt.verifyAccessToken t secret now'
      = if (Jwt.seconds now + 3600 <? Jwt.seconds now')%Z
        then Err (Error "JWT expired")
        else Ok (Jwt.TokenPayload cid em sc (Jwt.seconds now)
                   (Jwt.seconds now + 3600)).
Proof.
  intros Hsecret Hnow.
  destruct (generateAccessToken_nonempty cid em sc secret now Hsecret) as [t Ht].
  exists t. split; [exact Ht|]. intros now'.
  apply access_token_verdict; assumption.
Qed.

Lemma access_token_is_good_for_an_hour_witness :
  exists t,
    Jwt.generateAccessToken "cust_b1p082" "a@example.com" ["orders"]
      Scenario.secret (Scenario.t0 + 4000)%Z = Ok t /\
    forall now',
      Jwt.verifyAccessToken t Scenario.secret now'
      = if (Jwt.seconds (Scenario.t0 + 4000) + 3600 <? Jwt.seconds now')%Z
        then Err (Error "JWT expired")
        else Ok (Jwt.TokenPayload "cust_b1p082" "a@example.com" ["orders"]
                   (Jwt.seconds (Scenario.t0 + 4000))
                   (Jwt.seconds (Scenario.t0 + 4000) + 3600)).
Proof.
  refine (access_token_is_good_for_an_hour "cust_b1p082" "a@example.com"
            ["orders"] Scenario.secret (Scenario.t0 + 4000)%Z _ _).
  - discriminate.
  - vm_compute. discriminate.
Defined.

(** *** The shape of a token *)

Lemma split_length s : List.length (Str.split_on "."%char s) = S (dots s).
Proof.
  induction s as [|c s IH]; [reflexivity|].
  cbn [Str.split_on dots]. destruct (Ascii.eqb c "."%char).
  - cbn [List.length]. rewrite IH. reflexivity.
  - destruct (Str.split_on "."%char s) as [|hd tl]; [discriminate|].
    cbn [List.length] in *. exact IH.
Qed.

Lemma join_split s : Str.join "." (Str.split_on "."%char s) = s.
Proof.
  induction s as [|c s IH]; [reflexivity|].
  cbn [Str.split_on]. destruct (Ascii.eqb c "."%char) eqn:E.
  - apply Ascii.eqb_eq in E. subst c.
    destruct (Str.split_on "."%char s) as [|hd tl] eqn:Hs.
    + pose proof (split_length s) as Hl. rewrite Hs in Hl. discriminate.
    + rewrite join_cons2, IH. reflexivity.
  - destruct (Str.split_on "."%char s) as [|hd [|hd2 tl]] eqn:Hs.
    + pose proof (split_length s) as Hl. rewrite Hs in Hl. discriminate.
    + cbn [Str.join] in *. rewrite IH. reflexivity.
    + rewrite join_cons2 in *. rewrite append_cons, IH. reflexivity.
Qed.

Lemma split_parts_dot_free s :
  List.Forall (fun p => dot_free p = true) (Str.split_on "."%char s).
Proof.
  induction s as [|c s IH]; [repeat constructor|].
  cbn [Str.split_on]. destruct (Ascii.eqb c "."%char) eqn:E.
  - constructor; [reflexivity|exact IH].
  - destruct (Str.split_on "."%char s) as [|hd tl].
    + repeat constructor. cbn. rewrite E. reflexivity.
    + inversion IH as [|? ? Hhd Htl]; subst. constructor; [|exact Htl].
      cbn. rewrite E, Hhd. reflexivity.
Qed.

(** X25.  A token that does not have exactly two dots is refused with
    "Invalid JWT format", before the secret is looked at. *)
Theorem malformed_token_is_a_format_error token secret now :
  dots token <> 2%nat ->
  Jwt.verifyJWT token secret now = Err (Error "Invalid JWT format").
Proof.
  intros Hdots. unfold Jwt.verifyJWT.
  pose proof (split_length token) as Hl.
  destruct (Str.split_on "."%char token) as [|h [|p [|s [|x rest]]]];
    try reflexivity.
  cbn in Hl. congruence.
Qed.

Lemma malformed_token_is_a_format_error_witness :
  Jwt.verifyJWT "" "" 0 = Err (Error "Invalid JWT format").
Proof.
  refine (malformed_token_is_a_format_error "" "" 0%Z _). discriminate.
Defined.

(** X26.  [verifyJWT] returns a payload only for a token [h.p.sig] with
    dot-free [h] and [p], whose [sig] is the signature of [h.p] under the
    secret, which is not empty, and whose [p] decodes to that payload. *)
Theorem verify_accepts_only_signed_tokens token secret now payload :
  Jwt.verifyJWT token secret now = Ok payload ->
  secret <> "" /\
  exists h p sig,
    token = String.append (Jwt.signing_input h p) (String.append "." sig) /\
    dot_free h = true /\ dot_free p = true /\
    Jwt.sign (Jwt.signing_input h p) secret = Ok sig /\
    decoded p = Some payload.
Proof.
  unfold Jwt.verifyJWT. intros Hverify.
  pose proof (join_split token) as Hjoin.
  pose proof (split_parts_dot_free token) as Hfree.
  destruct (Str.split_on "."%char token) as [|h [|p [|sig [|x rest]]]];
    try discriminate.
  inversion Hfree as [|? ? Hh Hfree']; subst.
  inversion Hfree' as [|? ? Hp _]; subst.
  unfold mbind, result_bind in Hverify.
  destruct (Jwt.sign _ secret) as [expected|err] eqn:Hsig; [|discriminate].
  split.
  { intros ->. discriminate Hsig. }
  exists h, p, sig.
  destruct (String.eqb sig expected) eqn:Heq; cbn [negb] in Hverify;
    [|discriminate].
  apply String.eqb_eq in Heq. subst expected.
  unfold decoded.
  destruct (Base64.base64urlDecode p) as [text|]; [|discriminate].
  destruct (Json.parse text) as [v|]; [|discriminate].
  assert (v = payload) as ->.
  { destruct (get_property "exp" v) as [exp|err]; [|discriminate].
    destruct (_ && _); [discriminate|]. congruence. }
  repeat split; try assumption.
  unfold Jwt.signing_input.
  rewrite !join_cons2. cbn [Str.join]. rewrite !append_assoc. reflexivity.
Qed.

Lemma verify_accepts_only_signed_tokens_witness :
  Scenario.secret <> "" /\
  exists h p sig,
    Scenario.eternal
    = String.append (Jwt.signing_input h p) (String.append "." sig) /\
    dot_free h = true /\ dot_free p = true /\
    Jwt.sign (Jwt.signing_input h p) Scenario.secret = Ok sig /\
    decoded p = Some Scenario.eternal_claims.
Proof.
  refine (verify_accepts_only_signed_tokens Scenario.eternal Scenario.secret
            Scenario.year_3000 Scenario.eternal_claims _).
  vm_compute. reflexivity.
Defined.

(** *** From the grant to the methods *)

Lemma in_map_JStr s l : In (JStr s) (List.map JStr l) <-> In s l.
Proof.
  rewrite in_map_iff. split.
  - intros (x & Hx & Hin). injection Hx as ->. exact Hin.
  - intros Hin. exists s. auto.
Qed.

(** X27.  The scopes of the grant decide what the issued token opens:
    during its hour, a request for a dispatched method reaches the
    operation of that method, on behalf of the customer of the code, when
    the scope of the method is among the scopes of the code, and is
    refused with the missing scope otherwise. *)
Theorem granted_scopes_open_their_methods {W} (h : @Rpc.Handlers W)
        code v c e now env r env1 request required now' w :
  Token.exchangeCodeForTokens code v c e now env = (Ok r, env1) ->
  (0 <= now)%Z ->
  (Jwt.seconds now' <= Jwt.seconds now + 3600)%Z ->
  In (rpc_method request, required) dispatched ->
  exists row,
    Db.first_unused_auth_code code (DB_auth_codes env) = Some row /\
    (In required (ac_scopes row) ->
     exists run,
       operation_of h (rpc_method request)
         (Some (JStr (ac_cordial_contact_id row))) (params_of request)
       = Some run /\
       Rpc.handleRPCRequest h request (access_token r) (JWT_SECRET env) now' w
       = (respond request (fst (run w)), snd (run w))) /\
    (~ In required (ac_scopes row) ->
     Rpc.handleRPCRequest h request (access_token r) (JWT_SECRET env) now' w
     = (RpcFailure (rpc_id request) (missing_scope required), w)).
Proof.
  intros Hexchange Hnow Hlive Hroute.
  destruct (exchange_inv _ _ _ _ _ _ _ _ Hexchange)
    as (row & tok & Hrow & _ & _ & _ & Htok & -> & _).
  exists row. split; [exact Hrow|]. cbn [access_token].
  pose proof (access_token_verdict _ _ _ _ _ _ now' Hnow Htok) as Hverify.
  replace (Jwt.seconds now + 3600 <? Jwt.seconds now')%Z with false in Hverify
    by (symmetry; apply Z.ltb_ge; lia).
  split.
  - intros Hin.
    apply (handle_granted h request tok (JWT_SECRET env) now' w _
             (Some (JStr (ac_cordial_contact_id row)))
             (List.map JStr (ac_scopes row)) required Hverify);
      [reflexivity|reflexivity|exact Hroute|apply in_map_JStr, Hin].
  - intros Hnot.
    apply (handle_refused h request tok (JWT_SECRET env) now' w _
             (Some (JStr (ac_cordial_contact_id row)))
             (List.map JStr (ac_scopes row)) required Hverify);
      [reflexivity|reflexivity|exact Hroute|].
    intros Hin. apply Hnot, in_map_JStr, Hin.
Qed.

Lemma granted_scopes_open_their_methods_witness :
  exists row,
    Db.first_unused_auth_code Scenario.auth_code
      (DB_auth_codes Scenario.after_confirm) = Some row /\
    (In "loyalty" (ac_scopes row) ->
     exists run,
       operation_of counting
         (rpc_method (mkRequest (JNum 7) "scp.get_loyalty" None))
         (Some (JStr (ac_cordial_contact_id row)))
         (params_of (mkRequest (JNum 7) "scp.get_loyalty" None))
       = Some run /\
       Rpc.handleRPCRequest counting (mkRequest (JNum 7) "scp.get_loyalty" None)
         (access_token (Scenario.issued Scenario.exchange_run))
         (JWT_SECRET Scenario.after_confirm) (Scenario.t0 + 5000)%Z 0%nat
       = (respond (mkRequest (JNum 7) "scp.get_loyalty" None) (fst (run 0%nat)),
          snd (run 0%nat))) /\
    (~ In "loyalty" (ac_scopes row) ->
     Rpc.handleRPCRequest counting (mkRequest (JNum 7) "scp.get_loyalty" None)
       (access_token (Scenario.issued Scenario.exchange_run))
       (JWT_SECRET Scenario.after_confirm) (Scenario.t0 + 5000)%Z 0%nat
     = (RpcFailure (rpc_id (mkRequest (JNum 7) "scp.get_loyalty" None))
          (missing_scope "loyalty"), 0%nat)).
Proof.
  refine (granted_scopes_open_their_methods counting
            Scenario.auth_code Scenario.verifier "client-1" [5%N]
            (Scenario.t0 + 4000)%Z Scenario.after_confirm
            (Scenario.issued Scenario.exchange_run) Scenario.after_exchange
            (mkRequest (JNum 7) "scp.get_loyalty" None) "loyalty"
            (Scenario.t0 + 5000)%Z 0%nat _ _ _ _).
  - vm_compute. reflexivity.
  - vm_compute. discriminate.
  - vm_compute. discriminate.
  - right. left. reflexivity.
Defined.

(** ** The directory of the demo *)

Lemma to_int32_range x :
  (- 2 ^ 31 <= MockCustomer.to_int32 x < 2 ^ 31)%Z.
Proof.
  unfold MockCustomer.to_int32.
  pose proof (Z.mod_pos_bound x (2 ^ 32) ltac:(lia)) as Hm.
  destruct (_ <? _)%Z eqn:E.
  - apply Z.ltb_lt in E. lia.
  - apply Z.ltb_ge in E. lia.
Qed.

Lemma hash_step_range h c :
  (- 2 ^ 31 <= MockCustomer.hash_step h c < 2 ^ 31)%Z.
Proof.
  unfold MockCustomer.hash_step. cbv zeta. rewrite Z.land_diag.
  apply to_int32_range.
Qed.

Lemma hash_fold_range l h :
  (- 2 ^ 31 <= h < 2 ^ 31)%Z ->
  (- 2 ^ 31 <= fold_left MockCustomer.hash_step l h < 2 ^ 31)%Z.
Proof.
  revert h. induction l as [|c l IH]; intros h Hh; [exact Hh|].
  cbn [fold_left]. apply IH, hash_step_range.
Qed.

Lemma hashEmail_range email : (0 <= MockCustomer.hashEmail email <= 2 ^ 31)%Z.
Proof.
  unfold MockCustomer.hashEmail.
  pose proof (hash_fold_range (list_ascii_of_string email) 0 ltac:(lia)).
  lia.
Qed.

Lemma base36_digit_char d :
  (0 <= d < 36)%Z -> base36_char (MockCustomer.base36_digit d) = true.
Proof.
  intros Hd.
  assert (Hall : forallb (fun k => base36_char
                            (MockCustomer.base36_digit (Z.of_nat k)))
                   (seq 0 36) = true) by (vm_compute; reflexivity).
  rewrite forallb_forall in Hall.
  rewrite <- (Z2Nat.id d) by lia. apply Hall, in_seq. lia.
Qed.

Lemma base36_loop_digits k :
  forall fuel n acc,
    (k <= fuel)%nat -> (1 <= k)%nat -> (0 <= n < 36 ^ Z.of_nat k)%Z ->
    exists ds,
      MockCustomer.base36_loop fuel n acc
      = String.append (string_of_list_ascii ds) acc /\
      (1 <= List.length ds <= k)%nat /\
      forallb base36_char ds = true.
Proof.
  induction k as [|k IH]; intros fuel n acc Hfuel Hk Hn; [lia|].
  destruct fuel as [|fuel]; [lia|].
  cbn [MockCustomer.base36_loop]. cbv zeta.
  pose proof (Z.mod_pos_bound n 36 ltac:(lia)) as Hmod.
  destruct (n <? 36)%Z eqn:Hsmall.
  - exists [MockCustomer.base36_digit (n mod 36)]. split; [reflexivity|].
    split; [cbn; lia|]. cbn [forallb]. rewrite base36_digit_char by lia.
    reflexivity.
  - apply Z.ltb_ge in Hsmall.
    assert (1 <= k)%nat as Hk'.
    { destruct k; [|lia]. cbn in Hn. lia. }
    destruct (IH fuel (n / 36)%Z
                (String (MockCustomer.base36_digit (n mod 36)) acc))
      as (ds & Heq & Hlen & Hchars); [lia|exact Hk'| |].
    + split; [apply Z.div_pos; lia|].
      apply Z.div_lt_upper_bound; [lia|].
      rewrite Nat2Z.inj_succ, Z.pow_succ_r in Hn by lia. lia.
    + exists (ds ++ [MockCustomer.base36_digit (n mod 36)]).
      split; [|split].
      * rewrite Heq, string_of_list_app, append_assoc. reflexivity.
      * rewrite length_app. cbn. lia.
      * rewrite forallb_app, Hchars. cbn [forallb].
        rewrite base36_digit_char by lia. reflexivity.
Qed.

Lemma customer_id_shape email :
  exists ds,
    MockCustomer.customer_id_of_email email
    = String.append "cust_" (string_of_list_ascii ds) /\
    (1 <= List.length ds <= 6)%nat /\
    forallb base36_char ds = true.
Proof.
  unfold MockCustomer.customer_id_of_email, MockCustomer.toString36.
  pose proof (hashEmail_range email) as Hr.
  destruct (base36_loop_digits 6 7 (MockCustomer.hashEmail email) "")
    as (ds & Heq & Hlen & Hchars); [lia|lia| |].
  - split; [lia|]. change (36 ^ Z.of_nat 6)%Z with 2176782336%Z.
    change (2 ^ 31)%Z with 2147483648%Z in Hr. lia.
  - exists ds. rewrite Heq, append_empty_r. auto.
Qed.

Lemma includes_nonempty sub s :
  sub <> "" -> Str.includes sub s = true -> s <> "".
Proof.
  intros Hsub Hin ->. destruct sub; [contradiction|]. discriminate.
Qed.

(** X28.  With the directory of the demo, a confirmation depends on the
    address alone.  The request is authorized, with a customer id made of
    [cust_] and one to six digits in base 36, when the address contains
    an at sign and the seventh seed drawn from its hash is at most 69984.
    Otherwise (no at sign, or a profile whose generation throws) the
    request is stored denied, no code is minted and the link stays. *)
Theorem mock_directory_admits_by_the_seventh_seed env token rid req e now :
  Kv.get token (MAGIC_LINK_TOKENS env) = Some rid ->
  rid <> "" ->
  Kv.get rid (AUTH_REQUESTS env) = Some req ->
  existsb (fun r => String.eqb (ac_code r) (Authorize.generateId e))
          (DB_auth_codes env) = false ->
  let out := @Authorize.confirmAuthorization MockCustomer.directory
               token e now env in
  if Str.includes "@" (email req)
     && (MockCustomer.preferences_seed (MockCustomer.hashEmail (email req))
         <=? 69984)%Z
  then
    fst out = Ok tt /\
    (exists stored ds,
        Kv.get rid (AUTH_REQUESTS (snd out)) = Some stored /\
        status stored = authorized /\
        code stored = Some (Authorize.generateId e) /\
        customer_id stored
        = Some (String.append "cust_" (string_of_list_ascii ds)) /\
        (1 <= List.length ds <= 6)%nat /\
        forallb base36_char ds = true)
  else
    fst out = Err (Error "Customer not found in merchant system") /\
    option_map status (Kv.get rid (AUTH_REQUESTS (snd out))) = Some denied /\
    DB_auth_codes (snd out) = DB_auth_codes env /\
    Kv.get token (MAGIC_LINK_TOKENS (snd out)) = Some rid.
Proof.
  intros Hm Hrid Hreq Hfresh out. subst out.
  unfold Authorize.confirmAuthorization, Authorize.deny. unfold_m.
  rewrite Hm, (truthy_nonempty _ Hrid). cbn [negb]. rewrite Hreq.
  cbn [verifyEmail MockCustomer.directory].
  unfold MockCustomer.mock_verifyEmail, MockCustomer.getCustomerByEmail,
    MockCustomer.generateCustomerFromEmail.
  rewrite Z.leb_antisym.
  destruct (Str.includes "@" (email req)) eqn:Hat; cbn [andb].
  - assert (Str.truthy (email req) = true) as Hemail.
    { apply truthy_nonempty. eapply includes_nonempty; [|exact Hat].
      discriminate. }
    rewrite Hemail. cbn [negb orb].
    destruct (69984 <? _)%Z;
      cbn [negb mbind result_bind v_exists v_customerId fst snd AUTH_REQUESTS
           MAGIC_LINK_TOKENS DB_auth_codes].
    + rewrite kv_get_put. auto.
    + destruct (customer_id_shape (email req)) as (ds & Hid & Hlen & Hchars).
      rewrite Hid.
      change (Str.truthy (String.append "cust_" (string_of_list_ascii ds)))
        with true.
      cbn [negb]. unfold Db.insert_auth_code. cbn [ac_code]. rewrite Hfresh.
      unfold Store.with_auth_codes.
      cbn [fst snd AUTH_REQUESTS MAGIC_LINK_TOKENS DB_auth_codes].
      split; [reflexivity|].
      rewrite kv_get_put. do 2 eexists. repeat split; try eassumption; lia.
  - rewrite orb_true_r. cbn [v_exists v_customerId fst snd AUTH_REQUESTS
                             MAGIC_LINK_TOKENS DB_auth_codes].
    rewrite kv_get_put. auto.
Qed.

Lemma mock_directory_admits_by_the_seventh_seed_witness :
  let out := @Authorize.confirmAuthorization MockCustomer.directory
               Scenario.magic_token [3%N] (Scenario.t0 + 1000)%Z
               (Scenario.after_init "b@example.com") in
  if Str.includes "@" (email (Scenario.stored_request "b@example.com"))
     && (MockCustomer.preferences_seed
           (MockCustomer.hashEmail
              (email (Scenario.stored_request "b@example.com")))
         <=? 69984)%Z
  then
    fst out = Ok tt /\
    (exists stored ds,
        Kv.get Scenario.request_id (AUTH_REQUESTS (snd out)) = Some stored /\
        status stored = authorized /\
        code stored = Some (Authorize.generateId [3%N]) /\
        customer_id stored
        = Some (String.append "cust_" (string_of_list_ascii ds)) /\
        (1 <= List.length ds <= 6)%nat /\
        forallb base36_char ds = true)
  else
    fst out = Err (Error "Customer not found in merchant system") /\
    option_map status (Kv.get Scenario.request_id (AUTH_REQUESTS (snd out)))
    = Some denied /\
    DB_auth_codes (snd out) = DB_auth_codes (Scenario.after_init "b@example.com") /\
    Kv.get Scenario.magic_token (MAGIC_LINK_TOKENS (snd out))
    = Some Scenario.request_id.
Proof.
  refine (mock_directory_admits_by_the_seventh_seed
            (Scenario.after_init "b@example.com") Scenario.magic_token
            Scenario.request_id (Scenario.stored_request "b@example.com")
            [3%N] (Scenario.t0 + 1000)%Z _ _ _ _).
  - vm_compute. reflexivity.
  - discriminate.
  - vm_compute. reflexivity.
  - reflexivity.
Defined.

(** The two verdicts on addresses with an at sign: the address of the run
    is admitted, the next one is denied. *)
Lemma mock_directory_verdicts :
  MockCustomer.preferences_seed (MockCustomer.hashEmail "a@example.com")
  = 47781%Z /\
  MockCustomer.mock_verifyEmail "a@example.com"
  = Ok (mkVerification true (Some "cust_b1p082")) /\
  MockCustomer.preferences_seed (MockCustomer.hashEmail "b@example.com")
  = 150088%Z /\
  MockCustomer.mock_verifyEmail "b@example.com"
  = Err (HostError "TypeError: Cannot read properties of undefined").
Proof. vm_compute. repeat split; reflexivity. Qed.

(** ** The methods that write intents *)

Lemma empty_id_unlisted l : Intents.map_get "" (Intents.group l) = None.
Proof.
  destruct (Intents.map_get "" (Intents.group l)) eqn:E; [|reflexivity].
  assert (In "" (intent_ids "" l)) as Hin.
  { rewrite intent_ids_keys, map_get_keys, E. discriminate. }
  apply listed_created in Hin as [Hx _]. contradiction Hx. reflexivity.
Qed.

Lemma named_after_update customerId x st ms ctx ts l :
  intent_named x customerId (l ++ [update_activity (Some x) st ms ctx ts])
  = match Intents.map_get x (Intents.group l) with
    | Some g =>
        [Intents.intent_of customerId x
           (Intents.mkGroup (Intents.created g)
              (Intents.updates g
               ++ [update_activity (Some x) st ms ctx ts]))]
    | None => []
    end.
Proof.
  rewrite intent_named_get, group_snoc, group_step_entry.
  unfold entry_step, about, update_activity.
  cbn [Intents.intent_id_of data d_intent_id action].
  rewrite String.eqb_refl. cbn [andb].
  destruct x as [|c x].
  - cbn [Str.truthy]. rewrite empty_id_unlisted. reflexivity.
  - cbn [Str.truthy].
    change (String.eqb "scp_intent_updated" "scp_intent_created") with false.
    cbn iota. destruct (Intents.map_get _ _); reflexivity.
Qed.

Lemma status_after_update customerId x g oid st ms ctx ts :
  let intent := Intents.intent_of customerId x g in
  let intent' :=
    Intents.intent_of customerId x
      (Intents.mkGroup (Intents.created g)
         (Intents.updates g ++ [update_activity oid st ms ctx ts])) in
  (i_status intent', i_updated_at intent')
  = if Intents.truthy_string st
    then (default "" st, ts)
    else (i_status intent, i_updated_at intent).
Proof.
  unfold Intents.intent_of, Intents.latest_status.
  cbn [Intents.created Intents.updates].
  rewrite fold_left_app. cbn [fold_left].
  destruct (fold_left Intents.status_step (Intents.updates g) _)
    as [s0 t0] eqn:Hfold.
  unfold Intents.status_step, Intents.field, update_activity.
  cbn [data d_status timestamp].
  destruct st as [s|]; cbn [Intents.truthy_string default].
  - destruct (Str.truthy s); reflexivity.
  - reflexivity.
Qed.

Lemma getIntents_update_activity customerId oid st ms ctx ts log :
  IntentLog.getIntents customerId
    (IntentLog.updateIntent customerId oid st ms ctx ts log)
  = IntentLog.getIntents customerId log ++ [update_activity oid st ms ctx ts].
Proof. apply getIntents_updateIntent. Qed.

Lemma or_else_truthy st d :
  Intents.truthy_string st = true -> Intents.or_else st d = default "" st.
Proof.
  destruct st as [s|]; cbn; [|discriminate]. intros ->. reflexivity.
Qed.

Lemma generateIntentId_nonempty now_ms random :
  Methods.generateIntentId now_ms random <> "".
Proof. unfold Methods.generateIntentId. rewrite append_cons. discriminate. Qed.

(** X29.  [create_intent] always stores an intent that is read back:
    its id is the one asked for or, when none or an empty one is given, a
    generated id that is never empty.  Read back, the intent has status
    "created", a single milestone and the defaults of the method, also
    when the id was listed before; its [created_at] is the clock of the
    store, not the [created_at] of the reply. *)
Theorem create_intent_is_read_back customerId params now_ms random
        stored_at replied_at log :
  let out := Methods.createIntent customerId params now_ms random
               stored_at replied_at log in
  let reply := fst out in
  cr_intent_id reply <> "" /\
  cr_intent_id reply
  = Intents.or_else (cp_intent_id params)
      (Methods.generateIntentId now_ms random) /\
  cr_created_at reply = replied_at /\
  exists intent,
    intent_named (cr_intent_id reply) customerId
      (IntentLog.getIntents customerId (snd out)) = [intent] /\
    i_status intent = cr_status reply /\
    i_created_at intent = stored_at /\
    i_updated_at intent = stored_at /\
    List.map m_event (i_milestones intent) = ["created"] /\
    i_mechanism intent
    = Intents.or_else (cp_mechanism params) "conversational_ai" /\
    i_visibility intent
    = Intents.or_else (cp_visibility params) "merchant_only" /\
    i_context intent = Methods.or_default (cp_context params) (JObj []).
Proof.
  intros out reply. subst reply out.
  unfold Methods.createIntent. cbn [fst snd cr_intent_id cr_created_at cr_status].
  set (x := match cp_intent_id params with
            | Some s => if Str.truthy s then s
                        else Methods.generateIntentId now_ms random
            | None => Methods.generateIntentId now_ms random
            end).
  assert (Hx : x <> "").
  { subst x. destruct (cp_intent_id params) as [[|c s]|]; cbn [Str.truthy];
      try apply generateIntentId_nonempty. discriminate. }
  split; [exact Hx|]. split; [reflexivity|]. split; [reflexivity|].
  rewrite getIntents_createIntent. eexists. split.
  - rewrite intent_named_get, group_snoc, group_step_entry.
    unfold entry_step, about.
    cbn [Intents.intent_id_of data d_intent_id action].
    rewrite String.eqb_refl, (truthy_nonempty _ Hx). cbn [andb].
    rewrite String.eqb_refl. reflexivity.
  - unfold Intents.intent_of.
    cbn [Intents.created Intents.updates Intents.latest_status fold_left
         timestamp List.map i_status i_created_at i_updated_at i_milestones
         i_mechanism i_visibility i_context m_event Intents.field data
         d_mechanism d_visibility d_context].
    repeat split.
    + destruct (cp_mechanism params) as [[|c s]|]; reflexivity.
    + destruct (cp_visibility params) as [[|c s]|]; reflexivity.
    + unfold Methods.or_default.
      destruct (cp_context params) as [v|]; [|reflexivity].
      destruct (Js.truthy (Some v)) eqn:E; [rewrite E|]; reflexivity.
Qed.

(** X30.  [update_intent] answers with the status asked for, or
    "active" when none is given, and [fulfill_intent] with "fulfilled",
    without reading the log: for an intent that is not listed nothing is
    read back afterwards, and for a listed one a status-less update leaves
    the status read back as it was, whatever the reply says. *)
Theorem update_and_fulfill_answer_before_reading customerId x stored_at
        replied_at log :
  let before :=
    intent_named x customerId (IntentLog.getIntents customerId log) in
  (forall params,
      up_intent_id params = Some x ->
      let out := Methods.updateIntent customerId params stored_at replied_at
                   log in
      let after := intent_named x customerId
                     (IntentLog.getIntents customerId (snd out)) in
      ur_intent_id (fst out) = Some x /\
      ur_status (fst out) = Intents.or_else (up_status params) "active" /\
      (before = [] -> after = []) /\
      (forall intent,
          before = [intent] ->
          exists intent',
            after = [intent'] /\
            (i_status intent', i_updated_at intent')
            = if Intents.truthy_string (up_status params)
              then (ur_status (fst out), stored_at)
              else (i_status intent, i_updated_at intent))) /\
  (forall params,
      fp_intent_id params = Some x ->
      let out := Methods.fulfillIntent customerId params stored_at replied_at
                   log in
      let after := intent_named x customerId
                     (IntentLog.getIntents customerId (snd out)) in
      fr_intent_id (fst out) = Some x /\
      fr_status (fst out) = "fulfilled" /\
      (before = [] -> after = []) /\
      (forall intent,
          before = [intent] ->
          exists intent',
            after = [intent'] /\
            (i_status intent', i_updated_at intent')
            = ("fulfilled", stored_at))).
Proof.
  intros before. subst before. split.
  - intros params Hid out after. subst after out.
    unfold Methods.updateIntent.
    cbn [fst snd ur_intent_id ur_status]. rewrite Hid.
    rewrite getIntents_update_activity, named_after_update.
    rewrite intent_named_get.
    split; [reflexivity|]. split; [reflexivity|].
    destruct (Intents.map_get x _) as [g|]; split;
      try discriminate; try reflexivity.
    intros intent Hi. injection Hi as <-. eexists. split; [reflexivity|].
    rewrite status_after_update.
    destruct (Intents.truthy_string (up_status params)) eqn:E; [|reflexivity].
    rewrite (or_else_truthy _ _ E). reflexivity.
  - intros params Hid out after. subst after out.
    unfold Methods.fulfillIntent.
    cbn [fst snd fr_intent_id fr_status]. rewrite Hid.
    rewrite getIntents_update_activity, named_after_update.
    rewrite intent_named_get.
    split; [reflexivity|]. split; [reflexivity|].
    destruct (Intents.map_get x _) as [g|]; split;
      try discriminate; try reflexivity.
    intros intent Hi. injection Hi as <-. eexists. split; [reflexivity|].
    rewrite status_after_update. reflexivity.
Qed.
